(** * Linear drag-reorder model of the canvas demo pages

    Shallow embedding of the reorder arithmetic of the demo pages:

    - [FabricGrid]  : src/app/fabric/page.tsx, first document
                      (the grid page with cross-panel insertion);
    - [FabricPlain] : src/app/fabric/page.tsx, second document
                      (fixed left margin, [Math.round]);
    - [SortPage]    : the HTML5 drag-and-drop sort page
                      ([leftItems] / [rightItems]).

    Numbers.  JavaScript numbers are modelled by exact rationals [Q];
    array indices and lengths by [Z] (so that the [-1] of [findIndex]
    and of [calculateInsertIndex] is a value like any other).  [Qdiv]
    by zero is [0] in Rocq while JavaScript yields an infinity or NaN:
    the statements that evaluate a quotient assume a divisor
    [size + spacing] different from zero (a positive item size, or a
    concrete one). *)

From stdpp Require Import base list strings gmap.
From Stdlib Require Import ZArith QArith Qround Lia Lqa.

Local Open Scope Z_scope.

(** ** JavaScript primitives used by the pages *)

Module JS.

(** [Math.floor], [Math.round] (round half up), [Math.max], [Math.min]. *)
Definition floor (x : Q) : Z := Qfloor x.
Definition round (x : Q) : Z := Qfloor (x + (1 # 2))%Q.
Definition max (a b : Z) : Z := Z.max a b.
Definition min (a b : Z) : Z := Z.min a b.

(** [a < b] and [a > b] on numbers. *)
Definition lt (a b : Q) : bool := negb (Qle_bool b a).
Definition gt (a b : Q) : bool := lt b a.

Section Arrays.
Context {A : Type}.

(** [arr.findIndex(p)]: first index whose element satisfies [p], else -1. *)
Fixpoint findIndex_from (p : A -> bool) (l : list A) (i : Z) : Z :=
  match l with
  | [] => -1
  | x :: l' => if p x then i else findIndex_from p l' (i + 1)
  end.

Definition findIndex (p : A -> bool) (l : list A) : Z := findIndex_from p l 0.

(** The relative start of [splice]: a negative start counts from the
    end, and the result is clamped to [0, length]. *)
Definition splice_start (l : list A) (start : Z) : nat :=
  let len := Z.of_nat (length l) in
  if start <? 0 then Z.to_nat (Z.max (len + start) 0)
  else Z.to_nat (Z.min start len).

(** [arr.splice(start, 1)]: the removed elements and the array left. *)
Definition splice_delete1 (l : list A) (start : Z) : list A * list A :=
  let k := splice_start l start in
  (firstn 1 (skipn k l), firstn k l ++ skipn (S k) l).

(** [arr.splice(start, 0, x)]: the array after the insertion. *)
Definition splice_insert (l : list A) (start : Z) (x : A) : list A :=
  let k := splice_start l start in
  firstn k l ++ x :: skipn k l.

End Arrays.

Section Iteration.
Context {A B : Type}.

(** [arr.forEach((x, index) => ...)] and [arr.map((x, index) => ...)]:
    the callback results, in index order. *)
Fixpoint mapi_from (f : A -> Z -> B) (l : list A) (i : Z) : list B :=
  match l with
  | [] => []
  | x :: l' => f x i :: mapi_from f l' (i + 1)
  end.

Definition mapi (f : A -> Z -> B) (l : list A) : list B := mapi_from f l 0.

End Iteration.

(** [Math.max] and [Math.min] on numbers that are not indices. *)
Definition maxQ (a b : Q) : Q := if Qle_bool a b then b else a.
Definition minQ (a b : Q) : Q := if Qle_bool a b then a else b.

End JS.

(** ** The grid page: centred layout, in-canvas reorder, cross-panel insertion *)

Module FabricGrid.

Definition PADDING : Q := 20.
Definition SQUARE_WIDTH : Q := 80.
Definition CANVAS_WIDTH : Q := 800.
Definition CANVAS_HEIGHT : Q := 400.

Record SquareConfig := {
  cfg_id : string;
  cfg_color : string;
  cfg_size : Q;
  cfg_position : Z
}.

(** [fabricObject] is a reference to a [Rect] owned by the canvas
    library; it is modelled by the handle of that object. *)
Record CanvasSquare := {
  sq_id : string;
  config : SquareConfig;
  fabricObject : nat;
  position : Z
}.

Record DragSourceSquare := {
  src_id : string;
  src_color : string;
  src_size : Q;
  src_label : string
}.

(** [square.position = index] *)
Definition set_position (square : CanvasSquare) (index : Z) : CanvasSquare :=
  {| sq_id := sq_id square; config := config square;
     fabricObject := fabricObject square; position := index |}.

(** Calls issued to the canvas library, in the order they are made.
    [Later] stands for a [setTimeout] callback. *)
Inductive FabricCall :=
| Animate (obj : nat) (left top : Q) (duration : Z)
| SetLeftTop (obj : nat) (left top : Q)
| AddRect (obj : nat) (left top size : Q) (fill : string)
| RequestRenderAll
| Later (delay : Z) (call : FabricCall).

(** [canvasRef.current.getBoundingClientRect()] *)
Record DOMRect := { rect_left : Q; rect_top : Q }.

(** The component state: the [useState] cells, the two refs and the
    trace of library calls. *)
Record State := {
  canvasSquares : list CanvasSquare;
  isDragging : bool;
  draggedSquare : option CanvasSquare;
  isExternalDragging : bool;
  draggedSourceSquare : option DragSourceSquare;
  dragOverIndex : Z;
  canvasRef : option DOMRect;
  fabricCanvasRef : bool;
  nextObject : nat;
  calls : list FabricCall
}.

Definition setCanvasSquares (v : list CanvasSquare) (st : State) : State :=
  {| canvasSquares := v; isDragging := isDragging st;
     draggedSquare := draggedSquare st;
     isExternalDragging := isExternalDragging st;
     draggedSourceSquare := draggedSourceSquare st;
     dragOverIndex := dragOverIndex st; canvasRef := canvasRef st;
     fabricCanvasRef := fabricCanvasRef st; nextObject := nextObject st;
     calls := calls st |}.

Definition setExternalDrag (dragging : bool) (src : option DragSourceSquare)
    (over : Z) (st : State) : State :=
  {| canvasSquares := canvasSquares st; isDragging := isDragging st;
     draggedSquare := draggedSquare st;
     isExternalDragging := dragging;
     draggedSourceSquare := src;
     dragOverIndex := over; canvasRef := canvasRef st;
     fabricCanvasRef := fabricCanvasRef st; nextObject := nextObject st;
     calls := calls st |}.

Definition setDragging (dragging : bool) (sq : option CanvasSquare)
    (st : State) : State :=
  {| canvasSquares := canvasSquares st; isDragging := dragging;
     draggedSquare := sq;
     isExternalDragging := isExternalDragging st;
     draggedSourceSquare := draggedSourceSquare st;
     dragOverIndex := dragOverIndex st; canvasRef := canvasRef st;
     fabricCanvasRef := fabricCanvasRef st; nextObject := nextObject st;
     calls := calls st |}.

Definition emit (cs : list FabricCall) (st : State) : State :=
  {| canvasSquares := canvasSquares st; isDragging := isDragging st;
     draggedSquare := draggedSquare st;
     isExternalDragging := isExternalDragging st;
     draggedSourceSquare := draggedSourceSquare st;
     dragOverIndex := dragOverIndex st; canvasRef := canvasRef st;
     fabricCanvasRef := fabricCanvasRef st; nextObject := nextObject st;
     calls := calls st ++ cs |}.

Definition allocObject (st : State) : nat * State :=
  (nextObject st,
   {| canvasSquares := canvasSquares st; isDragging := isDragging st;
      draggedSquare := draggedSquare st;
      isExternalDragging := isExternalDragging st;
      draggedSourceSquare := draggedSourceSquare st;
      dragOverIndex := dragOverIndex st; canvasRef := canvasRef st;
      fabricCanvasRef := fabricCanvasRef st; nextObject := S (nextObject st);
      calls := calls st |}).

Definition getVerticalCenterPosition : Q :=
  ((CANVAS_HEIGHT - SQUARE_WIDTH) / 2)%Q.

Section Render.
(** A render of the component: the hooks read the [useState] cells of
    the render they were created in ([snap]); their writes go to the
    state that is threaded through ([st]).  A top-level event runs its
    handler with [snap = st]. *)
Variable snap : State.

Definition squares : list CanvasSquare := canvasSquares snap.
Definition squares_length : Z := Z.of_nat (length squares).

Definition calculateSquarePosition (index : Z) (size : Q)
    (totalCount : option Z) : Q :=
  let spacing := PADDING in
  let count := inject_Z (default squares_length totalCount) in
  let totalWidth := (count * size + (count - 1) * spacing)%Q in
  let startX := ((CANVAS_WIDTH - totalWidth) / 2)%Q in
  (startX + inject_Z index * (size + spacing))%Q.

Definition calculateTargetIndex (currentX size : Q)
    (totalCount : option Z) : Z :=
  let spacing := PADDING in
  let count := default squares_length totalCount in
  let totalWidth :=
    (inject_Z count * size + (inject_Z count - 1) * spacing)%Q in
  let startX := ((CANVAS_WIDTH - totalWidth) / 2)%Q in
  let draggedCenterX := (currentX + size / 2)%Q in
  let relativeX := (draggedCenterX - (startX + size / 2))%Q in
  let index := JS.floor (relativeX / (size + spacing) + (1 # 2))%Q in
  JS.max 0 (JS.min (count - 1) index).

Definition calculateInsertIndex (ref : option DOMRect)
    (mouseX mouseY size : Q) : Z :=
  match ref with
  | None => squares_length
  | Some canvasRect =>
    let canvasX := (mouseX - rect_left canvasRect)%Q in
    let canvasY := (mouseY - rect_top canvasRect)%Q in
    if JS.lt canvasX 0 || JS.gt canvasX CANVAS_WIDTH
       || JS.lt canvasY 0 || JS.gt canvasY CANVAS_HEIGHT
    then -1
    else
      let spacing := PADDING in
      let newCount := inject_Z (squares_length + 1) in
      let totalWidth := (newCount * size + (newCount - 1) * spacing)%Q in
      let startX := ((CANVAS_WIDTH - totalWidth) / 2)%Q in
      let relativeX := (canvasX - startX)%Q in
      let index := JS.floor (relativeX / (size + spacing) + (1 # 2))%Q in
      JS.max 0 (JS.min squares_length index)
  end.

(** [s => s.id === draggedSquare.id] *)
Definition same_id (draggedSquare s : CanvasSquare) : bool :=
  String.eqb (sq_id s) (sq_id draggedSquare).

Definition updateSquareOrder (draggedSquare : CanvasSquare)
    (targetIndex : Z) (st : State) : list CanvasSquare * State :=
  let newSquares := squares in
  let currentIndex := JS.findIndex (same_id draggedSquare) newSquares in
  if negb (currentIndex =? -1) && negb (currentIndex =? targetIndex) then
    let '(removed, newSquares) := JS.splice_delete1 newSquares currentIndex in
    match removed with
    | removedSquare :: _ =>
      let newSquares := JS.splice_insert newSquares targetIndex removedSquare in
      let newSquares := JS.mapi set_position newSquares in
      (newSquares, setCanvasSquares newSquares st)
    | [] => (newSquares, st)
    end
  else (newSquares, st).

Definition rearrangeMoves (animated : bool) (sqs : list CanvasSquare)
    : list FabricCall :=
  let centerY := getVerticalCenterPosition in
  JS.mapi (fun square index =>
    let newX := calculateSquarePosition index (cfg_size (config square))
                  (Some (Z.of_nat (length sqs))) in
    if animated then Animate (fabricObject square) newX centerY 300
    else SetLeftTop (fabricObject square) newX centerY) sqs
  ++ (if animated then [] else [RequestRenderAll]).

Definition rearrangeSquares (animated : bool) (sqs : list CanvasSquare)
    (st : State) : State :=
  if negb (fabricCanvasRef st) then st
  else emit (rearrangeMoves animated sqs) st.

(** The index shown for the item at [currentIndex] while the dragged
    item, taken from [originalIndex], hovers over [targetIndex]. *)
Definition realtimeIndex (originalIndex targetIndex currentIndex : Z) : Z :=
  if originalIndex <? targetIndex then
    if (originalIndex <? currentIndex) && (currentIndex <=? targetIndex)
    then currentIndex - 1 else currentIndex
  else if targetIndex <? originalIndex then
    if (targetIndex <=? currentIndex) && (currentIndex <? originalIndex)
    then currentIndex + 1 else currentIndex
  else currentIndex.

Definition updateSquarePositionsRealtime (targetIndex : Z)
    (draggedSquare : CanvasSquare) (st : State) : State :=
  let centerY := getVerticalCenterPosition in
  let originalIndex := position draggedSquare in
  let moves :=
    JS.mapi (fun square currentIndex =>
      if same_id draggedSquare square then []
      else
        let newIndex := realtimeIndex originalIndex targetIndex currentIndex in
        let newX := calculateSquarePosition newIndex
                      (cfg_size (config square)) None in
        [Animate (fabricObject square) newX centerY 150]) squares in
  emit (concat moves) st.

Definition makeSpaceForExternalDrag (insertIndex : Z) (st : State) : State :=
  if negb (fabricCanvasRef st) || (insertIndex <? 0) then st
  else
    let centerY := getVerticalCenterPosition in
    let newCount := squares_length + 1 in
    let moves :=
      JS.mapi (fun square currentIndex =>
        let newIndex :=
          if insertIndex <=? currentIndex then currentIndex + 1
          else currentIndex in
        let newX := calculateSquarePosition newIndex
                      (cfg_size (config square)) (Some newCount) in
        Animate (fabricObject square) newX centerY 150) squares in
    emit moves st.

(** [now] is the rendering of [Date.now()] at the call. *)
Definition addSquareToCanvas (sourceSquare : DragSourceSquare)
    (insertIndex : Z) (now : string) (st : State) : State :=
  if negb (fabricCanvasRef st) then st
  else
    let centerY := getVerticalCenterPosition in
    let newCount := squares_length + 1 in
    let xPosition := calculateSquarePosition insertIndex
                       (src_size sourceSquare) (Some newCount) in
    let newConfig :=
      {| cfg_id := now +:+ "-" +:+ src_id sourceSquare;
         cfg_color := src_color sourceSquare;
         cfg_size := src_size sourceSquare;
         cfg_position := insertIndex |} in
    let '(fabricRect, st) := allocObject st in
    let st := emit [AddRect fabricRect xPosition centerY (cfg_size newConfig)
                      (cfg_color newConfig)] st in
    let newCanvasSquare :=
      {| sq_id := cfg_id newConfig; config := newConfig;
         fabricObject := fabricRect; position := insertIndex |} in
    let newSquares := squares in
    let newSquares := JS.splice_insert newSquares insertIndex newCanvasSquare in
    let newSquares := JS.mapi set_position newSquares in
    let st := setCanvasSquares newSquares st in
    let st := emit (map (Later 50) (rearrangeMoves true newSquares)) st in
    emit [RequestRenderAll] st.

(** [canvasSquares.find(s => s.fabricObject === target)] *)
Definition findByObject (target : nat) : option CanvasSquare :=
  List.find (fun s => Nat.eqb (fabricObject s) target) squares.

Definition handleMouseDown (target : option nat) (st : State) : State :=
  match target with
  | Some target =>
    match findByObject target with
    | Some square => setDragging (isDragging st) (Some square) st
    | None => st
    end
  | None => st
  end.

Definition handleMouseUp (st : State) : State := setDragging false None st.

Definition handleObjectMoving (obj : nat) (left width : Q) (st : State)
    : State :=
  match fabricCanvasRef st, draggedSquare snap with
  | true, Some dragged =>
    let st := if negb (isDragging snap)
              then setDragging true (draggedSquare st) st else st in
    let centerY := getVerticalCenterPosition in
    let left := JS.maxQ 0 (JS.minQ (CANVAS_WIDTH - width) left) in
    let st := emit [SetLeftTop obj left centerY] st in
    let currentX := left in
    let targetIndex :=
      calculateTargetIndex currentX (cfg_size (config dragged)) None in
    updateSquarePositionsRealtime targetIndex dragged st
  | _, _ => st
  end.

Definition handleObjectModified (obj : nat) (left : Q) (st : State)
    : State :=
  match draggedSquare snap with
  | Some dragged =>
    let currentX := left in
    let targetIndex :=
      calculateTargetIndex currentX (cfg_size (config dragged)) None in
    let '(newSquares, st) := updateSquareOrder dragged targetIndex st in
    rearrangeSquares true newSquares st
  | None => st
  end.

Definition handleExternalDragStart (sourceSquare : DragSourceSquare)
    (st : State) : State :=
  setExternalDrag true (Some sourceSquare) (dragOverIndex st) st.

Definition handleExternalDragEnd (st : State) : State :=
  let st := setExternalDrag false None (-1) st in
  if 0 <? squares_length then rearrangeSquares true squares st else st.

Definition handleExternalDragMove (clientX clientY : Q) (st : State)
    : State :=
  match isExternalDragging snap, draggedSourceSquare snap with
  | true, Some src =>
    let insertIndex :=
      calculateInsertIndex (canvasRef st) clientX clientY (src_size src) in
    if negb (insertIndex =? dragOverIndex snap) then
      let st := setExternalDrag (isExternalDragging st)
                  (draggedSourceSquare st) insertIndex st in
      if 0 <=? insertIndex then makeSpaceForExternalDrag insertIndex st
      else rearrangeSquares true squares st
    else st
  | _, _ => st
  end.

Definition handleExternalDrop (clientX clientY : Q) (now : string)
    (st : State) : State :=
  match isExternalDragging snap, draggedSourceSquare snap with
  | true, Some src =>
    let insertIndex :=
      calculateInsertIndex (canvasRef st) clientX clientY (src_size src) in
    let st := if 0 <=? insertIndex
              then addSquareToCanvas src insertIndex now st else st in
    handleExternalDragEnd st
  | _, _ => st
  end.

End Render.

(** The [squareConfigs] of the page and the squares that
    [initializeSquares] builds from them. *)
Definition squareConfigs : list SquareConfig :=
  [ {| cfg_id := "1"; cfg_color := "#FF6B6B"; cfg_size := 80; cfg_position := 0 |};
    {| cfg_id := "2"; cfg_color := "#4ECDC4"; cfg_size := 80; cfg_position := 1 |};
    {| cfg_id := "3"; cfg_color := "#45B7D1"; cfg_size := 80; cfg_position := 2 |};
    {| cfg_id := "4"; cfg_color := "#96CEB4"; cfg_size := 80; cfg_position := 3 |} ].

Definition initializeSquares (st : State) : State :=
  let totalCount := inject_Z (Z.of_nat (length squareConfigs)) in
  let step (acc : list CanvasSquare * State) (ci : SquareConfig * Z) :=
    let '(sqs, st) := acc in
    let '(cfg, index) := ci in
    let spacing := PADDING in
    let totalWidth :=
      (totalCount * cfg_size cfg + (totalCount - 1) * spacing)%Q in
    let startX := ((CANVAS_WIDTH - totalWidth) / 2)%Q in
    let xPosition := (startX + inject_Z index * (cfg_size cfg + spacing))%Q in
    let yPosition := ((CANVAS_HEIGHT - SQUARE_WIDTH) / 2)%Q in
    let '(fabricRect, st) := allocObject st in
    let st := emit [AddRect fabricRect xPosition yPosition (cfg_size cfg)
                      (cfg_color cfg)] st in
    (sqs ++ [ {| sq_id := cfg_id cfg; config := cfg;
                 fabricObject := fabricRect; position := index |} ], st) in
  let '(sqs, st) :=
    fold_left step (JS.mapi (fun cfg index => (cfg, index)) squareConfigs)
      ([], st) in
  emit [RequestRenderAll] (setCanvasSquares sqs st).

(** The component right after mounting, before [initializeSquares]. *)
Definition mounted (canvasRect : DOMRect) : State :=
  {| canvasSquares := []; isDragging := false; draggedSquare := None;
     isExternalDragging := false; draggedSourceSquare := None;
     dragOverIndex := -1; canvasRef := Some canvasRect;
     fabricCanvasRef := true; nextObject := 0; calls := [] |}.

(** Events delivered by the browser and the canvas library; each runs
    its handler in the current render. *)
Inductive Event :=
| MouseDown (target : option nat)
| MouseUp
| ObjectMoving (obj : nat) (left width : Q)
| ObjectModified (obj : nat) (left : Q)
| ExternalDragStart (sourceSquare : DragSourceSquare)
| ExternalDragOver (clientX clientY : Q)
| ExternalDrop (clientX clientY : Q) (now : string)
| ExternalDragEnd.

Definition dispatch (st : State) (ev : Event) : State :=
  match ev with
  | MouseDown target => handleMouseDown st target st
  | MouseUp => handleMouseUp st
  | ObjectMoving obj x width => handleObjectMoving st obj x width st
  | ObjectModified obj x => handleObjectModified st obj x st
  | ExternalDragStart src => handleExternalDragStart src st
  | ExternalDragOver x y =>
    if isExternalDragging st then handleExternalDragMove st x y st else st
  | ExternalDrop x y now => handleExternalDrop st x y now st
  | ExternalDragEnd => handleExternalDragEnd st st
  end.

Definition run (st : State) (evs : list Event) : State :=
  fold_left dispatch evs st.

End FabricGrid.

(** ** The plain page: fixed left margin *)

Module FabricPlain.

Record SquareConfig := {
  cfg_id : string;
  cfg_color : string;
  cfg_size : Q;
  cfg_label : string
}.

Record CanvasSquare := {
  sq_id : string;
  fabricObject : nat;
  config : SquareConfig;
  position : Z
}.

Definition calculateSquarePosition (index : Z) (squareSize : Q) : Q :=
  let spacing := 20%Q in
  let startX := 50%Q in
  (startX + inject_Z index * (squareSize + spacing))%Q.

Section Render.
Variable canvasSquares : list CanvasSquare.

(** The index that [handleObjectMoved] computes for [movedSquare]
    released with its left edge at [currentX]. *)
Definition clampedIndex (movedSquare : CanvasSquare) (currentX : Q) : Z :=
  let targetIndex :=
    JS.round ((currentX - 50) / (cfg_size (config movedSquare) + 20))%Q in
  JS.max 0 (JS.min (Z.of_nat (length canvasSquares) - 1) targetIndex).

(** [handleObjectMoved]: the argument of [setCanvasSquares] when the
    handler calls it. *)
Definition handleObjectMoved (movedObject : nat) (objLeft : Q)
    : option (list CanvasSquare) :=
  match List.find (fun s => Nat.eqb (fabricObject s) movedObject)
          canvasSquares with
  | None => None
  | Some movedSquare =>
    let currentX := objLeft in
    let clamped := clampedIndex movedSquare currentX in
    if negb (clamped =? position movedSquare) then
      let newSquares := canvasSquares in
      let currentIndex :=
        JS.findIndex (fun s => String.eqb (sq_id s) (sq_id movedSquare))
          newSquares in
      if negb (currentIndex =? -1) then
        let '(removed, newSquares) :=
          JS.splice_delete1 newSquares currentIndex in
        let newSquares :=
          match removed with
          | removedSquare :: _ =>
            JS.splice_insert newSquares clamped removedSquare
          | [] => newSquares
          end in
        Some newSquares
      else None
    else None
  end.

End Render.

Section Swap.
Variable canvasSquares : list CanvasSquare.

(** [swapSquarePositions]: the argument of [setCanvasSquares] when the
    function calls it.  Both assignments are at indices that
    [findIndex] returned, hence inside the array. *)
Definition swapSquarePositions (square1 square2 : CanvasSquare)
    : option (list CanvasSquare) :=
  let newSquares := canvasSquares in
  let index1 :=
    JS.findIndex (fun s => String.eqb (sq_id s) (sq_id square1)) newSquares in
  let index2 :=
    JS.findIndex (fun s => String.eqb (sq_id s) (sq_id square2)) newSquares in
  if negb (index1 =? -1) && negb (index2 =? -1) then
    match newSquares !! Z.to_nat index1, newSquares !! Z.to_nat index2 with
    | Some square1Data, Some square2Data =>
      let newSquares := <[Z.to_nat index1 := square2Data]> newSquares in
      let newSquares := <[Z.to_nat index2 := square1Data]> newSquares in
      Some newSquares
    | _, _ => None
    end
  else None.

End Swap.
End FabricPlain.

(** ** The sort page: two panels, HTML5 drag and drop *)

Module SortPage.

Record SquareItem := {
  id : string;
  color : string;
  name : string
}.

Inductive Area := left_area | right_area.

Definition Area_eqb (a b : Area) : bool :=
  match a, b with
  | left_area, left_area | right_area, right_area => true
  | _, _ => false
  end.

Record DragState := {
  draggedItem : option SquareItem;
  draggedOverId : option string;
  sourceArea : Area
}.

(** The three-field object every handler resets [dragState] to. *)
Definition noDrag : DragState :=
  {| draggedItem := None; draggedOverId := None; sourceArea := left_area |}.

(** [getBoundingClientRect()] of the element an event is delivered to. *)
Record DOMRect := { rect_left : Q; rect_width : Q }.

Record State := {
  leftItems : list SquareItem;
  rightItems : list SquareItem;
  dragState : DragState;
  isAnimating : bool;
  isAreaAnimating : bool;
  itemPositions : gmap string Z;
  dragOverIndex : option Z;
  insertPosition : option Z;
  draggingItem : option SquareItem;
  rightAreaRef : option DOMRect
}.

Definition setDragState (v : DragState) (st : State) : State :=
  {| leftItems := leftItems st; rightItems := rightItems st;
     dragState := v; isAnimating := isAnimating st;
     isAreaAnimating := isAreaAnimating st;
     itemPositions := itemPositions st; dragOverIndex := dragOverIndex st;
     insertPosition := insertPosition st; draggingItem := draggingItem st;
     rightAreaRef := rightAreaRef st |}.

Definition setDragOverIndex (v : option Z) (st : State) : State :=
  {| leftItems := leftItems st; rightItems := rightItems st;
     dragState := dragState st; isAnimating := isAnimating st;
     isAreaAnimating := isAreaAnimating st;
     itemPositions := itemPositions st; dragOverIndex := v;
     insertPosition := insertPosition st; draggingItem := draggingItem st;
     rightAreaRef := rightAreaRef st |}.

Definition setInsertPosition (v : option Z) (st : State) : State :=
  {| leftItems := leftItems st; rightItems := rightItems st;
     dragState := dragState st; isAnimating := isAnimating st;
     isAreaAnimating := isAreaAnimating st;
     itemPositions := itemPositions st; dragOverIndex := dragOverIndex st;
     insertPosition := v; draggingItem := draggingItem st;
     rightAreaRef := rightAreaRef st |}.

Definition setDraggingItem (v : option SquareItem) (st : State) : State :=
  {| leftItems := leftItems st; rightItems := rightItems st;
     dragState := dragState st; isAnimating := isAnimating st;
     isAreaAnimating := isAreaAnimating st;
     itemPositions := itemPositions st; dragOverIndex := dragOverIndex st;
     insertPosition := insertPosition st; draggingItem := v;
     rightAreaRef := rightAreaRef st |}.

Definition setItemPositions (v : gmap string Z) (st : State) : State :=
  {| leftItems := leftItems st; rightItems := rightItems st;
     dragState := dragState st; isAnimating := isAnimating st;
     isAreaAnimating := isAreaAnimating st;
     itemPositions := v; dragOverIndex := dragOverIndex st;
     insertPosition := insertPosition st; draggingItem := draggingItem st;
     rightAreaRef := rightAreaRef st |}.

Definition setAnimating (animating area : bool) (st : State) : State :=
  {| leftItems := leftItems st; rightItems := rightItems st;
     dragState := dragState st; isAnimating := animating;
     isAreaAnimating := area;
     itemPositions := itemPositions st; dragOverIndex := dragOverIndex st;
     insertPosition := insertPosition st; draggingItem := draggingItem st;
     rightAreaRef := rightAreaRef st |}.

(** [setLeftItems(prev => f prev)] and [setRightItems(prev => f prev)] *)
Definition setLeftItems (f : list SquareItem -> list SquareItem)
    (st : State) : State :=
  {| leftItems := f (leftItems st); rightItems := rightItems st;
     dragState := dragState st; isAnimating := isAnimating st;
     isAreaAnimating := isAreaAnimating st;
     itemPositions := itemPositions st; dragOverIndex := dragOverIndex st;
     insertPosition := insertPosition st; draggingItem := draggingItem st;
     rightAreaRef := rightAreaRef st |}.

Definition setRightItems (f : list SquareItem -> list SquareItem)
    (st : State) : State :=
  {| leftItems := leftItems st; rightItems := f (rightItems st);
     dragState := dragState st; isAnimating := isAnimating st;
     isAreaAnimating := isAreaAnimating st;
     itemPositions := itemPositions st; dragOverIndex := dragOverIndex st;
     insertPosition := insertPosition st; draggingItem := draggingItem st;
     rightAreaRef := rightAreaRef st |}.

(** [item => item.id === draggedItem.id] *)
Definition same_id (dragged item : SquareItem) : bool :=
  String.eqb (id item) (id dragged).

(** The [for] loop of [handleDragOver] from index [i] on, with [fuel]
    iterations left; [0] is the initial value of [insertAt]. *)
Fixpoint scanInsertAt (x startX totalItemWidth spacing : Q) (len : Z)
    (i : Z) (fuel : nat) : Z :=
  match fuel with
  | O => 0
  | S fuel' =>
    let elementCenter :=
      (startX + inject_Z i * totalItemWidth - spacing / 2)%Q in
    if Qle_bool x elementCenter then i
    else if i =? len then len
    else scanInsertAt x startX totalItemWidth spacing len (i + 1) fuel'
  end.

Section Render.
(** The handlers read the cells of the render [snap] and write to [st]. *)
Variable snap : State.

Definition handleDragStart (item : SquareItem) (area : Area) (st : State)
    : State :=
  let st := setDragState {| draggedItem := Some item; draggedOverId := None;
                            sourceArea := area |} st in
  setDraggingItem (Some item) st.

(** [rect] is the bounding rectangle of [e.currentTarget]. *)
Definition handleDragOver (clientX : Q) (rect : DOMRect)
    (targetIndex : option Z) (st : State) : State :=
  match targetIndex with
  | Some targetIndex =>
    let st := setDragOverIndex (Some targetIndex) st in
    let x := (clientX - rect_left rect)%Q in
    let width := rect_width rect in
    let insertAt :=
      if JS.lt x (width * (33 # 100))%Q then targetIndex
      else targetIndex + 1 in
    setInsertPosition (Some insertAt) st
  | None =>
    let x := (clientX - rect_left rect)%Q in
    let elementWidth := 80%Q in
    let spacing := 16%Q in
    let totalItemWidth := (elementWidth + spacing)%Q in
    let len := Z.of_nat (length (rightItems snap)) in
    if len =? 0 then setInsertPosition (Some 0) st
    else
      let containerWidth := rect_width rect in
      let totalElementsWidth :=
        (inject_Z len * totalItemWidth - spacing)%Q in
      let startX := ((containerWidth - totalElementsWidth) / 2)%Q in
      let insertAt :=
        scanInsertAt x startX totalItemWidth spacing len 0
          (S (length (rightItems snap))) in
      setInsertPosition (Some insertAt) st
  end.

Definition handleDragLeave (st : State) : State :=
  let st := setDragState {| draggedItem := draggedItem (dragState st);
                            draggedOverId := None;
                            sourceArea := sourceArea (dragState st) |} st in
  let st := setDragOverIndex None st in
  setInsertPosition None st.

Definition handleDragEnd (st : State) : State :=
  let st := setDragState noDrag st in
  let st := setDragOverIndex None st in
  let st := setInsertPosition None st in
  setDraggingItem None st.

(** The position recorded for the item at [idx] by the [forEach] of
    [handleDrop]; [None] when the callback assigns nothing. *)
Definition newPositionOf (area : Area) (dragged : SquareItem)
    (insertIndex idx : Z) : option Z :=
  match area with
  | right_area =>
    let currentIndex := JS.findIndex (same_id dragged) (rightItems snap) in
    if negb (currentIndex =? -1) then
      if (idx <? currentIndex) && (insertIndex <=? idx) then Some (idx + 1)
      else if (currentIndex <? idx) && (idx <=? insertIndex)
           then Some (idx - 1)
      else Some idx
    else None
  | left_area => Some (if insertIndex <=? idx then idx + 1 else idx)
  end.

Definition handleDrop (clientX : Q) (targetIndex : option Z) (st : State)
    : State :=
  match draggedItem (dragState snap) with
  | None => st
  | Some dragged =>
    let area := sourceArea (dragState snap) in
    let len := Z.of_nat (length (rightItems snap)) in
    let insertIndex :=
      match targetIndex with
      | Some targetIndex => targetIndex
      | None =>
        match rightAreaRef st with
        | Some rect =>
          let mouseX := (clientX - rect_left rect)%Q in
          if len =? 0 then 0
          else
            let relativeX := (mouseX / rect_width rect)%Q in
            if Qle_bool relativeX (2 # 10) then 0
            else if Qle_bool (8 # 10) relativeX then len
            else JS.round (relativeX * inject_Z len)%Q
        | None => len
        end
      end in
    let insertIndex := JS.max 0 (JS.min insertIndex len) in
    let shouldReorder :=
      match area with
      | right_area =>
        let currentIndex :=
          JS.findIndex (same_id dragged) (rightItems snap) in
        if (currentIndex =? insertIndex)
           || ((currentIndex =? insertIndex - 1) && (0 <? insertIndex))
        then false else true
      | left_area => true
      end in
    if negb shouldReorder then setDragState noDrag st
    else
      let newItemPositions :=
        fold_left
          (fun (m : gmap string Z) (ip : SquareItem * Z) =>
             match newPositionOf area dragged insertIndex ip.2 with
             | Some v => <[id ip.1 := v]> m
             | None => m
             end)
          (JS.mapi (fun item idx => (item, idx)) (rightItems snap))
          (∅ : gmap string Z) in
      let newItemPositions := <[id dragged := insertIndex]> newItemPositions in
      let st := setItemPositions newItemPositions st in
      let st := setAnimating true true st in
      match area with
      | left_area =>
        let st := setLeftItems
                    (List.filter (fun item => negb (same_id dragged item)))
                    st in
        let st := setRightItems
                    (fun prev => JS.splice_insert prev insertIndex dragged)
                    st in
        (* the four resets at the end of the handler are those of
           [handleDragEnd] *)
        handleDragEnd st
      | right_area =>
        let currentIndex :=
          JS.findIndex (same_id dragged) (rightItems snap) in
        if currentIndex =? -1 then st
        else
          let st :=
            setRightItems
              (fun prev =>
                 let newItems := snd (JS.splice_delete1 prev currentIndex) in
                 let adjustedInsertIndex :=
                   if currentIndex <? insertIndex then insertIndex - 1
                   else insertIndex in
                 JS.splice_insert newItems adjustedInsertIndex dragged)
              st in
          handleDragEnd st
      end
  end.

End Render.

(** Events of the page; [DragEnter] and [DragLeave] on an item are the
    inline handlers of the item, [AreaDragEnter] that of the right
    panel, [AnimationDone] the 500 ms timer of [handleDrop]. *)
Inductive Event :=
| DragStart (item : SquareItem) (area : Area)
| DragOver (clientX : Q) (rect : DOMRect) (targetIndex : option Z)
| AreaDragLeave
| AreaDragEnter
| ItemDragEnter (index : Z)
| ItemDragLeave
| Drop (clientX : Q) (targetIndex : option Z)
| DragEnd
| AnimationDone.

Definition dispatch (st : State) (ev : Event) : State :=
  match ev with
  | DragStart item area => handleDragStart item area st
  | DragOver x rect ti => handleDragOver st x rect ti st
  | AreaDragLeave => handleDragLeave st
  | AreaDragEnter =>
    if Z.of_nat (length (rightItems st)) =? 0
    then setInsertPosition (Some 0) st
    else setInsertPosition (Some (Z.of_nat (length (rightItems st)))) st
  | ItemDragEnter index => setDragOverIndex (Some index) st
  | ItemDragLeave => setDragOverIndex None st
  | Drop x ti => handleDrop st x ti st
  | DragEnd => handleDragEnd st
  | AnimationDone => setItemPositions ∅ (setAnimating false false st)
  end.

Definition run (st : State) (evs : list Event) : State :=
  fold_left dispatch evs st.

End SortPage.

(** ** The operations as the specification words them *)

Module Spec.

Section Lists.
Context {A : Type}.

Definition remove_at (k : nat) (l : list A) : list A :=
  firstn k l ++ skipn (S k) l.

Definition insert_at (k : nat) (x : A) (l : list A) : list A :=
  firstn k l ++ x :: skipn k l.

(** [reorder]: take the item out of its current position and put it
    back at [targetIndex], decremented by one when [targetIndex]
    exceeds the removal point. *)
Definition reorder (moved : A -> bool) (sequence : list A)
    (targetIndex : Z) : list A :=
  let removal := JS.findIndex moved sequence in
  match nth_error sequence (Z.to_nat removal) with
  | Some item =>
    let rest := remove_at (Z.to_nat removal) sequence in
    let index :=
      if removal <? targetIndex then targetIndex - 1 else targetIndex in
    insert_at (Z.to_nat index) item rest
  | None => sequence
  end.

End Lists.

Definition startOffset (itemSize spacing : Q) (itemCount : Z)
    (containerExtent : Q) : Q :=
  ((containerExtent
    - (inject_Z itemCount * itemSize + (inject_Z itemCount - 1) * spacing))
   / 2)%Q.

Definition clamp (lo hi v : Z) : Z := Z.max lo (Z.min hi v).

Definition slotIndexForCoordinate (coordinate itemSize spacing : Q)
    (itemCount : Z) (containerExtent : Q) : Z :=
  let start := startOffset itemSize spacing itemCount containerExtent in
  clamp 0 (itemCount - 1)
    (JS.round ((coordinate - start - itemSize / 2) / (itemSize + spacing))%Q).

(** [previewShift]: an item strictly between the original index and
    the target (the target included) moves one slot toward the
    original index; any other item keeps its index. *)
Definition previewIndex (original target index : Z) : Z :=
  if (Z.min original target <=? index) && (index <=? Z.max original target)
     && negb (index =? original)
  then (if original <? index then index - 1 else index + 1)
  else index.

(** The pointer at [(mouseX, mouseY)] is off the canvas whose bounding
    rectangle is [canvasRect]. *)
Definition outside_canvas (canvasRect : FabricGrid.DOMRect)
    (mouseX mouseY : Q) : Prop :=
  (mouseX - FabricGrid.rect_left canvasRect < 0 \/
   FabricGrid.CANVAS_WIDTH < mouseX - FabricGrid.rect_left canvasRect \/
   mouseY - FabricGrid.rect_top canvasRect < 0 \/
   FabricGrid.CANVAS_HEIGHT < mouseY - FabricGrid.rect_top canvasRect)%Q.

(** Every recorded position is the index of its item. *)
Definition well_positioned (l : list FabricGrid.CanvasSquare) : Prop :=
  map FabricGrid.position l = JS.mapi (fun _ index => index) l.

(** The sequence without the derived [position] field. *)
Definition items (l : list FabricGrid.CanvasSquare)
    : list (string * FabricGrid.SquareConfig * nat) :=
  map (fun s => (FabricGrid.sq_id s, FabricGrid.config s,
                 FabricGrid.fabricObject s)) l.

(** The state after a reorder committed in the current render. *)
Definition commitReorder (st : FabricGrid.State)
    (draggedSquare : FabricGrid.CanvasSquare) (targetIndex : Z)
    : FabricGrid.State :=
  snd (FabricGrid.updateSquareOrder st draggedSquare targetIndex st).

(** The animation calls of the preview, worded with [previewIndex]. *)
Definition previewMoves (snap : FabricGrid.State) (targetIndex : Z)
    (draggedSquare : FabricGrid.CanvasSquare) : list FabricGrid.FabricCall :=
  concat
    (JS.mapi
       (fun square index =>
          if FabricGrid.same_id draggedSquare square then []
          else
            [FabricGrid.Animate (FabricGrid.fabricObject square)
               (FabricGrid.calculateSquarePosition snap
                  (previewIndex (FabricGrid.position draggedSquare)
                     targetIndex index)
                  (FabricGrid.cfg_size (FabricGrid.config square)) None)
               FabricGrid.getVerticalCenterPosition 150])
       (FabricGrid.canvasSquares snap)).

(** Events of the grid page that neither commit nor end a drag. *)
Definition grid_hover (ev : FabricGrid.Event) : bool :=
  match ev with
  | FabricGrid.ExternalDragOver _ _ | FabricGrid.ObjectMoving _ _ _
  | FabricGrid.MouseDown _ | FabricGrid.MouseUp => true
  | _ => false
  end.

(** Events of the sort page other than a drop. *)
Definition sort_no_drop (ev : SortPage.Event) : bool :=
  match ev with
  | SortPage.Drop _ _ => false
  | _ => true
  end.

End Spec.

(** ** Example states *)

Module Examples.

(** The grid page after mounting at the origin of the viewport. *)
Definition canvasRect0 : FabricGrid.DOMRect :=
  {| FabricGrid.rect_left := 0; FabricGrid.rect_top := 0 |}.

Definition gridInitial : FabricGrid.State :=
  FabricGrid.initializeSquares (FabricGrid.mounted canvasRect0).

Definition gridSquare (k color : string) (n : nat) : FabricGrid.CanvasSquare :=
  {| FabricGrid.sq_id := k;
     FabricGrid.config :=
       {| FabricGrid.cfg_id := k; FabricGrid.cfg_color := color;
          FabricGrid.cfg_size := 80; FabricGrid.cfg_position := Z.of_nat n |};
     FabricGrid.fabricObject := n; FabricGrid.position := Z.of_nat n |}.

Definition squareA : FabricGrid.CanvasSquare := gridSquare "1" "#FF6B6B" 0.
Definition squareB : FabricGrid.CanvasSquare := gridSquare "2" "#4ECDC4" 1.
Definition squareC : FabricGrid.CanvasSquare := gridSquare "3" "#45B7D1" 2.
Definition squareD : FabricGrid.CanvasSquare := gridSquare "4" "#96CEB4" 3.

Definition gridSquares : list FabricGrid.CanvasSquare :=
  [squareA; squareB; squareC; squareD].

Definition sourceYellow : FabricGrid.DragSourceSquare :=
  {| FabricGrid.src_id := "source-1"; FabricGrid.src_color := "#FFD93D";
     FabricGrid.src_size := 80; FabricGrid.src_label := "yellow" |}.

(** The plain page with four squares of size 60 on the canvas. *)
Definition plainSquare (k : string) (n : nat) : FabricPlain.CanvasSquare :=
  {| FabricPlain.sq_id := k; FabricPlain.fabricObject := n;
     FabricPlain.config :=
       {| FabricPlain.cfg_id := k; FabricPlain.cfg_color := "#ff6b6b";
          FabricPlain.cfg_size := 60; FabricPlain.cfg_label := k |};
     FabricPlain.position := Z.of_nat n |}.

Definition plainSquares : list FabricPlain.CanvasSquare :=
  [plainSquare "a" 0; plainSquare "b" 1; plainSquare "c" 2; plainSquare "d" 3].

(** The sort page: [COLORS] and the initial state of the component. *)
Definition COLORS : list (string * string) :=
  [("#FF6B6B", "red"); ("#4ECDC4", "cyan"); ("#45B7D1", "blue");
   ("#96CEB4", "green"); ("#FECA57", "yellow"); ("#FF9FF3", "pink");
   ("#54A0FF", "sky"); ("#5F27CD", "purple")].

Definition leftItem (n : string) (c : string * string) : SortPage.SquareItem :=
  {| SortPage.id := "left-" +:+ n; SortPage.color := c.1;
     SortPage.name := c.2 |}.

Definition sortInitial : SortPage.State :=
  {| SortPage.leftItems :=
       zip_with leftItem ["0"; "1"; "2"; "3"; "4"; "5"; "6"; "7"] COLORS;
     SortPage.rightItems := [];
     SortPage.dragState := SortPage.noDrag;
     SortPage.isAnimating := false; SortPage.isAreaAnimating := false;
     SortPage.itemPositions := ∅;
     SortPage.dragOverIndex := None; SortPage.insertPosition := None;
     SortPage.draggingItem := None;
     SortPage.rightAreaRef :=
       Some {| SortPage.rect_left := 0; SortPage.rect_width := 600 |} |}.

Definition item0 : SortPage.SquareItem := leftItem "0" ("#FF6B6B", "red").
Definition item1 : SortPage.SquareItem := leftItem "1" ("#4ECDC4", "cyan").
Definition item2 : SortPage.SquareItem := leftItem "2" ("#45B7D1", "blue").

(** Three items dropped on the right panel one after the other, then
    the first of them picked up again. *)
Definition sortThree : SortPage.State :=
  SortPage.run sortInitial
    [SortPage.DragStart item0 SortPage.left_area; SortPage.Drop 0 (Some 0);
     SortPage.DragStart item1 SortPage.left_area; SortPage.Drop 0 (Some 1);
     SortPage.DragStart item2 SortPage.left_area; SortPage.Drop 0 (Some 2);
     SortPage.AnimationDone].

Definition sortDragging : SortPage.State :=
  SortPage.dispatch sortThree (SortPage.DragStart item0 SortPage.right_area).

End Examples.

(** ** Further notions used by the properties of the pages *)

Module Props.

(** The square that [addSquareToCanvas] builds. *)
Definition newSquare (src : FabricGrid.DragSourceSquare) (insertIndex : Z)
    (now : string) (obj : nat) : FabricGrid.CanvasSquare :=
  {| FabricGrid.sq_id := now +:+ "-" +:+ FabricGrid.src_id src;
     FabricGrid.config :=
       {| FabricGrid.cfg_id := now +:+ "-" +:+ FabricGrid.src_id src;
          FabricGrid.cfg_color := FabricGrid.src_color src;
          FabricGrid.cfg_size := FabricGrid.src_size src;
          FabricGrid.cfg_position := insertIndex |};
     FabricGrid.fabricObject := obj;
     FabricGrid.position := insertIndex |}.

(** Every square has a canvas object of its own, allocated before the
    next free handle. *)
Definition handles_fresh (st : FabricGrid.State) : Prop :=
  List.NoDup (map FabricGrid.fabricObject (FabricGrid.canvasSquares st)) /\
  Forall (fun obj => (obj < FabricGrid.nextObject st)%nat)
    (map FabricGrid.fabricObject (FabricGrid.canvasSquares st)).

(** The [elementCenter] that [handleDragOver] compares the pointer
    with at index [i], for [len] items in a panel [containerWidth]
    wide. *)
Definition elementCenter (containerWidth : Q) (len i : Z) : Q :=
  ((containerWidth - (inject_Z len * (80 + 16) - 16)) / 2
   + inject_Z i * (80 + 16) - 16 / 2)%Q.

(** [s => s.id === k.id] on the plain page. *)
Definition has_id (k s : FabricPlain.CanvasSquare) : bool :=
  String.eqb (FabricPlain.sq_id s) (FabricPlain.sq_id k).

(** The callback of the [forEach] of [handleDrop] that fills
    [newItemPositions], as a step of a fold; [f] gives the position
    recorded for an index. *)
Definition record (f : Z -> option Z) (m : gmap string Z)
    (ip : SortPage.SquareItem * Z) : gmap string Z :=
  match f ip.2 with
  | Some v => <[SortPage.id ip.1 := v]> m
  | None => m
  end.

(** A drag from the left panel of the sort page onto three items. *)
Definition item3 : SortPage.SquareItem :=
  Examples.leftItem "3" ("#96CEB4", "green").

Definition sortLeftDragging : SortPage.State :=
  SortPage.dispatch Examples.sortThree
    (SortPage.DragStart item3 SortPage.left_area).

(** The initial grid with square 1 picked up. *)
Definition gridPicked : FabricGrid.State :=
  FabricGrid.dispatch Examples.gridInitial (FabricGrid.MouseDown (Some 0%nat)).

End Props.

(** ** Facts about the array primitives *)

Module JSFacts.
Import JS.

Section Arrays.
Context {A : Type}.
Implicit Types (p : A -> bool) (l a b : list A) (x : A).

Lemma findIndex_from_bounds p l i :
  findIndex_from p l i = -1 \/
  i <= findIndex_from p l i < i + Z.of_nat (length l).
Proof.
  revert i. induction l as [|y l IH]; intros i; simpl; [now left|].
  destruct (p y); [right; lia|].
  destruct (IH (i + 1)) as [->|H]; [now left|right; lia].
Qed.

Lemma findIndex_from_app p a x b i :
  0 <= i -> Forall (fun y => p y = false) a -> p x = true ->
  findIndex_from p (a ++ x :: b) i = i + Z.of_nat (length a).
Proof.
  intros Hi Ha Hx. revert i Hi.
  induction Ha as [|y a Hy _ IH]; intros i Hi; simpl.
  - rewrite Hx. lia.
  - rewrite Hy, IH by lia. lia.
Qed.

Lemma findIndex_app p a x b :
  Forall (fun y => p y = false) a -> p x = true ->
  findIndex p (a ++ x :: b) = Z.of_nat (length a).
Proof.
  intros Ha Hx. unfold findIndex.
  rewrite findIndex_from_app by (auto; lia). lia.
Qed.

Lemma findIndex_from_split p l i :
  0 <= i -> findIndex_from p l i <> -1 ->
  exists a x b,
    l = a ++ x :: b /\ Forall (fun y => p y = false) a /\ p x = true /\
    findIndex_from p l i = i + Z.of_nat (length a).
Proof.
  revert i. induction l as [|y l IH]; intros i Hi H; simpl in *; [easy|].
  destruct (p y) eqn:Hy.
  - exists [], y, l. repeat split; auto. simpl. lia.
  - destruct (IH (i + 1)) as (a & x & b & -> & Ha & Hx & E); [lia|auto|].
    exists (y :: a), x, b. repeat split; auto. rewrite E. simpl length. lia.
Qed.

Lemma findIndex_split p l :
  findIndex p l <> -1 ->
  exists a x b,
    l = a ++ x :: b /\ Forall (fun y => p y = false) a /\ p x = true /\
    findIndex p l = Z.of_nat (length a).
Proof.
  intros H. destruct (findIndex_from_split p l 0) as (a & x & b & ? & ? & ? & E);
    [lia|exact H|].
  exists a, x, b. repeat split; auto; unfold findIndex; rewrite E; lia.
Qed.

Lemma findIndex_bounds p l :
  findIndex p l = -1 \/ 0 <= findIndex p l < Z.of_nat (length l).
Proof. apply (findIndex_from_bounds p l 0). Qed.

Lemma splice_start_in_range l (k : nat) :
  (k <= length l)%nat -> splice_start l (Z.of_nat k) = k.
Proof.
  intros H. unfold splice_start.
  destruct (Z.ltb_spec (Z.of_nat k) 0); lia.
Qed.

Lemma splice_start_le l s : (splice_start l s <= length l)%nat.
Proof. unfold splice_start. destruct (Z.ltb_spec s 0); lia. Qed.

Lemma splice_delete1_app a x b :
  splice_delete1 (a ++ x :: b) (Z.of_nat (length a)) = ([x], a ++ b).
Proof.
  unfold splice_delete1.
  rewrite splice_start_in_range by (rewrite length_app; simpl; lia).
  f_equal.
  - rewrite drop_app_length. reflexivity.
  - rewrite take_app_length.
    replace (S (length a)) with (length (a ++ [x]))
      by (rewrite length_app; simpl; lia).
    rewrite (cons_middle x a b), app_assoc, drop_app_length. reflexivity.
Qed.

Lemma splice_insert_in_range l (k : nat) x :
  (k <= length l)%nat ->
  splice_insert l (Z.of_nat k) x = Spec.insert_at k x l.
Proof.
  intros H. unfold splice_insert. now rewrite splice_start_in_range.
Qed.

Lemma splice_insert_app a b x :
  splice_insert (a ++ b) (Z.of_nat (length a)) x = a ++ x :: b.
Proof.
  unfold splice_insert.
  rewrite splice_start_in_range by (rewrite length_app; lia).
  now rewrite take_app_length, drop_app_length.
Qed.

Lemma remove_at_app a x b : Spec.remove_at (length a) (a ++ x :: b) = a ++ b.
Proof.
  pose proof (splice_delete1_app a x b) as H. unfold splice_delete1 in H.
  rewrite splice_start_in_range in H by (rewrite length_app; simpl; lia).
  now inversion H.
Qed.

Lemma length_splice_insert l s x :
  length (splice_insert l s x) = S (length l).
Proof.
  unfold splice_insert. pose proof (splice_start_le l s).
  rewrite length_app. simpl. rewrite length_take, length_drop. lia.
Qed.

End Arrays.
End JSFacts.

(** ** Facts about rounding and comparison of numbers *)

Module NumFacts.

Lemma Qfloor_unique (x : Q) (n : Z) :
  (inject_Z n <= x)%Q -> (x < inject_Z (n + 1))%Q -> Qfloor x = n.
Proof.
  intros Hlo Hhi.
  assert (n <= Qfloor x).
  { rewrite <- (Qfloor_Z n). now apply Qfloor_resp_le. }
  assert (Qfloor x < n + 1).
  { rewrite Zlt_Qlt. eapply Qle_lt_trans; [apply Qfloor_le|exact Hhi]. }
  lia.
Qed.

Lemma Qfloor_half (n : Z) : Qfloor (inject_Z n + (1 # 2)) = n.
Proof.
  apply Qfloor_unique.
  - lra.
  - rewrite inject_Z_plus. change (inject_Z 1) with 1%Q. lra.
Qed.

Lemma lt_true (a b : Q) : JS.lt a b = true <-> (a < b)%Q.
Proof.
  unfold JS.lt. rewrite negb_true_iff.
  destruct (Qle_bool b a) eqn:E.
  - apply Qle_bool_iff in E. split; [easy|]. intros H.
    exfalso. apply (Qlt_not_le _ _ H E).
  - split; [intros _|easy]. apply Qnot_le_lt. intros H.
    apply Qle_bool_iff in H. congruence.
Qed.

Lemma gt_true (a b : Q) : JS.gt a b = true <-> (b < a)%Q.
Proof. apply lt_true. Qed.

Lemma clamp_bounds (lo hi v : Z) :
  lo <= hi -> lo <= JS.max lo (JS.min hi v) <= hi.
Proof. unfold JS.max, JS.min. lia. Qed.

End NumFacts.

(** ** Slot index and layout of the grid page *)

Section SlotIndex.
Import FabricGrid Spec.
Variable snap : State.

Lemma calculateInsertIndex_outside canvasRect mouseX mouseY size :
  outside_canvas canvasRect mouseX mouseY ->
  calculateInsertIndex snap (Some canvasRect) mouseX mouseY size = -1.
Proof.
  intros H. unfold calculateInsertIndex, JS.gt.
  destruct (_ || _ || _ || _) eqn:E; [reflexivity|].
  repeat (apply orb_false_iff in E; destruct E as [E ?]).
  destruct H as [H|[H|[H|H]]]; apply NumFacts.lt_true in H; congruence.
Qed.

Lemma calculateInsertIndex_inside canvasRect mouseX mouseY size :
  ~ outside_canvas canvasRect mouseX mouseY ->
  0 <= calculateInsertIndex snap (Some canvasRect) mouseX mouseY size
    <= squares_length snap.
Proof.
  intros H. unfold calculateInsertIndex, JS.gt.
  destruct (_ || _ || _ || _) eqn:E.
  - exfalso. apply H. unfold outside_canvas.
    repeat (apply orb_true_iff in E; destruct E as [E|E]);
      apply NumFacts.lt_true in E; tauto.
  - apply NumFacts.clamp_bounds. unfold squares_length. lia.
Qed.

(** C3: for an item count of at least one the slot index is a valid
    index, whatever the coordinate (so in particular for a coordinate
    inside the container), and the cross-panel variant answers -1 when
    the pointer is off the canvas and an insertion index in
    [0, length] otherwise. *)
Theorem slot_index_in_bounds (currentX size : Q) (count : Z)
    (canvasRect : DOMRect) (mouseX mouseY : Q) :
  1 <= count -> (0 < size)%Q ->
  0 <= calculateTargetIndex snap currentX size (Some count) <= count - 1 /\
  (outside_canvas canvasRect mouseX mouseY ->
   calculateInsertIndex snap (Some canvasRect) mouseX mouseY size = -1) /\
  (~ outside_canvas canvasRect mouseX mouseY ->
   0 <= calculateInsertIndex snap (Some canvasRect) mouseX mouseY size
     <= squares_length snap).
Proof.
  intros Hc _. split; [|split].
  - unfold calculateTargetIndex. apply NumFacts.clamp_bounds.
    simpl. lia.
  - apply calculateInsertIndex_outside.
  - apply calculateInsertIndex_inside.
Qed.

(** C10: the slot index computed at the laid-out position of slot [i]
    is [i]. *)
Theorem layout_then_index (i count : Z) (size : Q) :
  1 <= count -> 0 <= i <= count - 1 -> ~ (size + PADDING == 0)%Q ->
  calculateTargetIndex snap
    (calculateSquarePosition snap i size (Some count)) size (Some count) = i.
Proof.
  intros Hc Hi Hs. unfold calculateTargetIndex, calculateSquarePosition.
  cbv zeta. simpl default.
  set (startX := ((CANVAS_WIDTH - _) / 2)%Q).
  assert (E : ((startX + inject_Z i * (size + PADDING) + size / 2
                - (startX + size / 2)) / (size + PADDING) + (1 # 2)
               == inject_Z i + (1 # 2))%Q) by (field; exact Hs).
  unfold JS.floor. rewrite E, NumFacts.Qfloor_half.
  unfold JS.max, JS.min. lia.
Qed.

End SlotIndex.

Section SlotFormula.
Import FabricGrid Spec.
Variable snap : State.

Lemma calculateTargetIndex_formula (currentX size : Q) (count : Z) :
  calculateTargetIndex snap currentX size (Some count) =
  slotIndexForCoordinate (currentX + size / 2) size PADDING count CANVAS_WIDTH.
Proof.
  unfold calculateTargetIndex, slotIndexForCoordinate, clamp, JS.max, JS.min,
    JS.round, JS.floor.
  cbv zeta. simpl default. do 2 f_equal. apply Qfloor_comp.
  unfold startOffset, Qdiv. ring.
Qed.

Lemma calculateTargetIndex_left_edge (currentX size : Q) (count : Z) :
  calculateTargetIndex snap currentX size (Some count) =
  clamp 0 (count - 1)
    (JS.round ((currentX - startOffset size PADDING count CANVAS_WIDTH)
               / (size + PADDING))%Q).
Proof.
  unfold calculateTargetIndex, clamp, JS.max, JS.min, JS.round, JS.floor.
  cbv zeta. simpl default. do 2 f_equal. apply Qfloor_comp.
  unfold startOffset, Qdiv. ring.
Qed.

(** C2, as the code has it: the grid page computes the centred start
    offset and the rounded, clamped quotient of the specification,
    where the coordinate is the centre of the dragged item, that is
    the left edge [currentX] the function receives plus half the item
    size; spacing and container extent are the constants of the page.
    The plain page rounds the distance of the left edge from its fixed
    margin of 50 instead. *)
Theorem slot_index_formula (currentX size : Q) (count : Z)
    (plainSquares : list FabricPlain.CanvasSquare)
    (movedSquare : FabricPlain.CanvasSquare) (objLeft : Q) :
  1 <= count -> (0 < size)%Q ->
  calculateTargetIndex snap currentX size (Some count) =
    slotIndexForCoordinate (currentX + size / 2) size PADDING count
      CANVAS_WIDTH /\
  calculateTargetIndex snap currentX size (Some count) =
    clamp 0 (count - 1)
      (JS.round ((currentX - startOffset size PADDING count CANVAS_WIDTH)
                 / (size + PADDING))%Q) /\
  FabricPlain.clampedIndex plainSquares movedSquare objLeft =
    clamp 0 (Z.of_nat (length plainSquares) - 1)
      (JS.round ((objLeft - 50)
                 / (FabricPlain.cfg_size (FabricPlain.config movedSquare)
                    + 20))%Q).
Proof.
  intros _ _. split; [|split].
  - apply calculateTargetIndex_formula.
  - apply calculateTargetIndex_left_edge.
  - reflexivity.
Qed.

End SlotFormula.

(** ** Reordering on the grid page *)

Module ReorderFacts.
Import JS JSFacts FabricGrid Spec.

Lemma mapi_from_indices {A B} (f : A -> Z -> B) (l : list A) (i j : Z) :
  mapi_from (fun _ index => index) (mapi_from f l j) i =
  mapi_from (fun _ index => index) l i.
Proof.
  revert i j. induction l as [|x l IH]; intros i j; simpl; [easy|].
  now rewrite IH.
Qed.

Lemma position_mapi_from (l : list CanvasSquare) (i : Z) :
  map position (mapi_from set_position l i) =
  mapi_from (fun _ index => index) l i.
Proof.
  revert i. induction l as [|x l IH]; intros i; simpl; [easy|].
  now rewrite IH.
Qed.

Lemma well_positioned_mapi (l : list CanvasSquare) :
  well_positioned (mapi set_position l).
Proof.
  unfold well_positioned, mapi.
  now rewrite position_mapi_from, mapi_from_indices.
Qed.

Lemma items_mapi_from (l : list CanvasSquare) (i : Z) :
  items (mapi_from set_position l i) = items l.
Proof.
  revert i. induction l as [|x l IH]; intros i; simpl; [easy|].
  now rewrite IH.
Qed.

Lemma items_mapi (l : list CanvasSquare) :
  items (mapi set_position l) = items l.
Proof. apply items_mapi_from. Qed.

(** Two sequences with the same items get the same records once the
    positions are rewritten. *)
Lemma mapi_from_items (l1 l2 : list CanvasSquare) (i : Z) :
  items l1 = items l2 ->
  mapi_from set_position l1 i = mapi_from set_position l2 i.
Proof.
  revert l2 i. induction l1 as [|x l1 IH]; intros [|y l2] i H;
    simpl in *; try easy.
  inversion H as [[H1 H2 H3 H4]]. rewrite (IH l2 (i + 1) H4).
  unfold set_position. now rewrite H1, H2, H3.
Qed.

Lemma well_positioned_fixed_from (l : list CanvasSquare) (i : Z) :
  map position l = mapi_from (fun _ index => index) l i ->
  mapi_from set_position l i = l.
Proof.
  revert i. induction l as [|x l IH]; intros i H; simpl in *; [easy|].
  inversion H as [[H1 H2]]. rewrite (IH _ H2).
  destruct x; simpl in *; unfold set_position; simpl; now rewrite H1.
Qed.

Lemma well_positioned_fixed (l : list CanvasSquare) :
  well_positioned l -> mapi set_position l = l.
Proof. apply well_positioned_fixed_from. Qed.

Lemma same_id_set_position d x i :
  same_id d (set_position x i) = same_id d x.
Proof. reflexivity. Qed.

Lemma no_match_mapi_from d (l : list CanvasSquare) (i : Z) :
  Forall (fun y => same_id d y = false) l ->
  Forall (fun y => same_id d y = false) (mapi_from set_position l i).
Proof.
  intros H. revert i. induction H; intros i; simpl; constructor; auto.
Qed.

Section Render.
Variables (snap st : State) (d : CanvasSquare) (t : Z).

Lemma updateSquareOrder_unmoved :
  findIndex (same_id d) (canvasSquares snap) = -1 \/
  findIndex (same_id d) (canvasSquares snap) = t ->
  updateSquareOrder snap d t st = (canvasSquares snap, st).
Proof.
  intros H. unfold updateSquareOrder, squares.
  destruct H as [-> | ->]; [reflexivity|].
  now rewrite Z.eqb_refl, andb_false_r.
Qed.

Lemma updateSquareOrder_moved a x b :
  canvasSquares snap = a ++ x :: b ->
  Forall (fun y => same_id d y = false) a -> same_id d x = true ->
  t <> Z.of_nat (length a) ->
  updateSquareOrder snap d t st =
  (mapi set_position (splice_insert (a ++ b) t x),
   setCanvasSquares (mapi set_position (splice_insert (a ++ b) t x)) st).
Proof.
  intros E Ha Hx Ht. unfold updateSquareOrder, squares. rewrite E.
  rewrite (findIndex_app _ a x b Ha Hx).
  destruct (Z.eqb_spec (Z.of_nat (length a)) (-1)); [lia|].
  destruct (Z.eqb_spec (Z.of_nat (length a)) t); [lia|].
  simpl andb. cbv iota. now rewrite splice_delete1_app.
Qed.

End Render.
End ReorderFacts.

(** ** Reordering on the sort page *)

Module SortFacts.
Import JS JSFacts SortPage Spec.

Lemma same_id_refl (item : SquareItem) : same_id item item = true.
Proof. apply String.eqb_refl. Qed.

Section Render.
Variables (snap st : State) (dragged : SquareItem) (clientX : Q).
Hypothesis Hdragged : draggedItem (dragState snap) = Some dragged.
Hypothesis Harea : sourceArea (dragState snap) = right_area.

(** A drop on the slot the item already occupies, or on the one right
    after it, leaves both panels alone and only resets [dragState]. *)
Lemma handleDrop_same_slot (ins : Z) :
  let c := findIndex (same_id dragged) (rightItems snap) in
  c <> -1 -> ins = c \/ ins = c + 1 ->
  handleDrop snap clientX (Some ins) st = setDragState noDrag st.
Proof.
  intros c Hc Hins. unfold handleDrop. rewrite Hdragged, Harea.
  fold c. cbv zeta.
  pose proof (findIndex_bounds (same_id dragged) (rightItems snap)) as Hb.
  fold c in Hb. unfold JS.max, JS.min.
  set (len := Z.of_nat (length (rightItems snap))) in *.
  replace (Z.max 0 (Z.min ins len)) with ins by lia.
  destruct Hins as [-> | ->].
  - now rewrite Z.eqb_refl.
  - replace (c + 1 - 1) with c by lia. rewrite Z.eqb_refl.
    destruct (Z.ltb_spec 0 (c + 1)); [|lia]. now rewrite orb_true_r.
Qed.

Lemma handleDrop_moved a b (ins : Z) :
  rightItems snap = a ++ dragged :: b ->
  rightItems st = rightItems snap ->
  Forall (fun y => same_id dragged y = false) a ->
  0 <= ins <= Z.of_nat (length (rightItems snap)) ->
  ins <> Z.of_nat (length a) -> ins <> Z.of_nat (length a) + 1 ->
  rightItems (handleDrop snap clientX (Some ins) st) =
  insert_at
    (Z.to_nat (if Z.of_nat (length a) <? ins then ins - 1 else ins))
    dragged (a ++ b).
Proof.
  intros E Est Ha Hins H1 H2. unfold handleDrop.
  rewrite Hdragged, Harea. cbv zeta.
  rewrite E, (findIndex_app _ a dragged b Ha (same_id_refl dragged)).
  rewrite <- E. unfold JS.max, JS.min.
  replace (Z.max 0 (Z.min ins (Z.of_nat (length (rightItems snap)))))
    with ins by lia.
  destruct (Z.eqb_spec (Z.of_nat (length a)) ins); [lia|].
  destruct (Z.eqb_spec (Z.of_nat (length a)) (ins - 1)); [lia|].
  simpl orb. cbv iota. simpl negb. cbv iota.
  destruct (Z.eqb_spec (Z.of_nat (length a)) (-1)); [lia|].
  simpl. rewrite Est, E.
  pose proof (splice_delete1_app a dragged b) as Hd.
  unfold splice_delete1 in Hd. injection Hd as _ Hd. rewrite Hd.
  assert (Hlen : length (rightItems snap) = S (length (a ++ b))).
  { rewrite E, !length_app. simpl. lia. }
  set (adj := if Z.of_nat (length a) <? ins then ins - 1 else ins).
  assert (0 <= adj <= Z.of_nat (length (a ++ b))).
  { pose proof (length_app a b). unfold adj.
    destruct (Z.ltb_spec (Z.of_nat (length a)) ins); lia. }
  rewrite <- (Z2Nat.id adj) at 1 by lia.
  apply splice_insert_in_range. lia.
Qed.

End Render.
End SortFacts.

Module ExampleChecks.
Import Examples.

Example gridInitial_ids :
  map FabricGrid.sq_id (FabricGrid.canvasSquares gridInitial)
  = ["1"; "2"; "3"; "4"].
Proof. vm_compute. reflexivity. Qed.

Example gridInitial_squares :
  FabricGrid.canvasSquares gridInitial = gridSquares.
Proof. vm_compute. reflexivity. Qed.

Example gridInitial_idle : FabricGrid.isDragging gridInitial = false.
Proof. vm_compute. reflexivity. Qed.

Example sortThree_right :
  SortPage.rightItems sortThree = [item0; item1; item2].
Proof. vm_compute. reflexivity. Qed.

End ExampleChecks.

Module SpliceFacts.
Import JS JSFacts Spec.

Section Lists.
Context {A : Type}.
Implicit Types (p : A -> bool) (l a b : list A) (x : A).

Lemma nth_error_insert_at (k : nat) x l :
  (k <= length l)%nat -> nth_error (insert_at k x l) k = Some x.
Proof.
  intros H. unfold insert_at.
  rewrite nth_error_app2; rewrite length_take; [|lia].
  replace (k - k `min` length l)%nat with 0%nat by lia. reflexivity.
Qed.

Lemma insert_at_app a b x : insert_at (length a) x (a ++ b) = a ++ x :: b.
Proof. unfold insert_at. now rewrite take_app_length, drop_app_length. Qed.

Lemma nth_error_middle a x b : nth_error (a ++ x :: b) (length a) = Some x.
Proof. rewrite nth_error_app2, Nat.sub_diag by lia. reflexivity. Qed.

(** The reorder of the specification on a sequence split at the first
    match. *)
Lemma reorder_app p a x b (t : Z) :
  Forall (fun y => p y = false) a -> p x = true ->
  reorder p (a ++ x :: b) t =
  insert_at (Z.to_nat (if Z.of_nat (length a) <? t then t - 1 else t))
    x (a ++ b).
Proof.
  intros Ha Hx. unfold reorder.
  rewrite (findIndex_app p a x b Ha Hx), Nat2Z.id.
  now rewrite nth_error_middle, remove_at_app.
Qed.

Lemma reorder_noop p a x b (t : Z) :
  Forall (fun y => p y = false) a -> p x = true ->
  t = Z.of_nat (length a) \/ t = Z.of_nat (length a) + 1 ->
  reorder p (a ++ x :: b) t = a ++ x :: b.
Proof.
  intros Ha Hx Ht. rewrite reorder_app by assumption.
  replace (Z.to_nat _) with (length a); [apply insert_at_app|].
  destruct Ht as [-> | ->];
    destruct (Z.ltb_spec (Z.of_nat (length a)) (Z.of_nat (length a)));
    destruct (Z.ltb_spec (Z.of_nat (length a)) (Z.of_nat (length a) + 1));
    lia.
Qed.

End Lists.

Lemma nth_error_mapi_from {A B} (f : A -> Z -> B) (l : list A) (i : Z)
    (k : nat) :
  nth_error (mapi_from f l i) k =
  option_map (fun y => f y (i + Z.of_nat k)) (nth_error l k).
Proof.
  revert i k. induction l as [|x l IH]; intros i [|k]; simpl; try easy.
  - now rewrite Z.add_0_r.
  - rewrite IH. destruct (nth_error l k); simpl; [|easy].
    do 2 f_equal. lia.
Qed.

End SpliceFacts.

(** ** The reorder operation: splice, no-op, positions *)

Section ReorderClaims.
Import JS JSFacts Spec SpliceFacts.

(** C1, as the code has it: the grid page takes the square out and
    puts it back at [targetIndex] itself, without adjustment, so the
    square ends at index [targetIndex] and every position is
    rewritten; the sort page, whose index is an insertion point in
    [0, length], inserts at the index decremented by one when the
    removal point lies before it. *)
Theorem reorder_splice
    (snap st : FabricGrid.State) (d : FabricGrid.CanvasSquare) (t : Z)
    (a : list FabricGrid.CanvasSquare) (x : FabricGrid.CanvasSquare)
    (b : list FabricGrid.CanvasSquare)
    (ssnap sst : SortPage.State) (dragged : SortPage.SquareItem)
    (clientX : Q) (ins : Z) (a' b' : list SortPage.SquareItem) :
  FabricGrid.canvasSquares snap = a ++ x :: b ->
  Forall (fun y => FabricGrid.same_id d y = false) a ->
  FabricGrid.same_id d x = true ->
  0 <= t < Z.of_nat (length (FabricGrid.canvasSquares snap)) ->
  t <> Z.of_nat (length a) ->
  SortPage.draggedItem (SortPage.dragState ssnap) = Some dragged ->
  SortPage.sourceArea (SortPage.dragState ssnap) = SortPage.right_area ->
  SortPage.rightItems ssnap = a' ++ dragged :: b' ->
  SortPage.rightItems sst = SortPage.rightItems ssnap ->
  Forall (fun y => SortPage.same_id dragged y = false) a' ->
  0 <= ins <= Z.of_nat (length (SortPage.rightItems ssnap)) ->
  fst (FabricGrid.updateSquareOrder snap d t st) =
    mapi FabricGrid.set_position
      (insert_at (Z.to_nat t) x
         (remove_at (length a) (FabricGrid.canvasSquares snap))) /\
  nth_error (fst (FabricGrid.updateSquareOrder snap d t st)) (Z.to_nat t) =
    Some (FabricGrid.set_position x t) /\
  FabricGrid.canvasSquares (snd (FabricGrid.updateSquareOrder snap d t st)) =
    fst (FabricGrid.updateSquareOrder snap d t st) /\
  SortPage.rightItems (SortPage.handleDrop ssnap clientX (Some ins) sst) =
    reorder (SortPage.same_id dragged) (SortPage.rightItems ssnap) ins.
Proof.
  intros E Ha Hx Ht Hne Hd Harea E' Est Ha' Hins.
  assert (Hlen : (Z.to_nat t <= length (a ++ b))%nat).
  { rewrite E in Ht. rewrite length_app in *. simpl in Ht. lia. }
  rewrite (ReorderFacts.updateSquareOrder_moved snap st d t a x b E Ha Hx Hne).
  simpl fst. simpl snd. rewrite E, remove_at_app.
  assert (Hs : splice_insert (a ++ b) t x = insert_at (Z.to_nat t) x (a ++ b)).
  { rewrite <- (Z2Nat.id t) at 1 by lia.
    apply splice_insert_in_range, Hlen. }
  rewrite Hs.
  split; [reflexivity|]. split; [|split; [reflexivity|]].
  - unfold mapi. rewrite nth_error_mapi_from, nth_error_insert_at by exact Hlen.
    simpl. do 2 f_equal. lia.
  - destruct (Z.eq_dec ins (Z.of_nat (length a'))) as [H1|H1];
      [|destruct (Z.eq_dec ins (Z.of_nat (length a') + 1)) as [H2|H2]].
    + rewrite E', reorder_noop
        by (auto using SortFacts.same_id_refl).
      rewrite <- E', <- Est.
      rewrite (SortFacts.handleDrop_same_slot ssnap sst dragged clientX Hd
                 Harea ins); [reflexivity| |];
        rewrite E', (findIndex_app _ a' dragged b' Ha'
                       (SortFacts.same_id_refl dragged)); lia.
    + rewrite E', reorder_noop
        by (auto using SortFacts.same_id_refl).
      rewrite <- E', <- Est.
      rewrite (SortFacts.handleDrop_same_slot ssnap sst dragged clientX Hd
                 Harea ins); [reflexivity| |];
        rewrite E', (findIndex_app _ a' dragged b' Ha'
                       (SortFacts.same_id_refl dragged)); lia.
    + rewrite (SortFacts.handleDrop_moved ssnap sst dragged clientX Hd Harea
                 a' b' ins E' Est Ha' Hins H1 H2).
      rewrite E'. symmetry. apply reorder_app;
        auto using SortFacts.same_id_refl.
Qed.

(** C5: a reorder onto the index the item already has changes nothing:
    the grid page returns the sequence as it was and leaves the state
    untouched, the sort page leaves both panels as they were. *)
Theorem reorder_same_index_noop
    (snap st : FabricGrid.State) (d : FabricGrid.CanvasSquare)
    (ssnap sst : SortPage.State) (dragged : SortPage.SquareItem)
    (clientX : Q) :
  findIndex (FabricGrid.same_id d) (FabricGrid.canvasSquares snap) <> -1 ->
  SortPage.draggedItem (SortPage.dragState ssnap) = Some dragged ->
  SortPage.sourceArea (SortPage.dragState ssnap) = SortPage.right_area ->
  findIndex (SortPage.same_id dragged) (SortPage.rightItems ssnap) <> -1 ->
  FabricGrid.updateSquareOrder snap d
    (findIndex (FabricGrid.same_id d) (FabricGrid.canvasSquares snap)) st
  = (FabricGrid.canvasSquares snap, st) /\
  SortPage.rightItems
    (SortPage.handleDrop ssnap clientX
       (Some (findIndex (SortPage.same_id dragged) (SortPage.rightItems ssnap)))
       sst)
  = SortPage.rightItems sst /\
  SortPage.leftItems
    (SortPage.handleDrop ssnap clientX
       (Some (findIndex (SortPage.same_id dragged) (SortPage.rightItems ssnap)))
       sst)
  = SortPage.leftItems sst.
Proof.
  intros _ Hd Harea Hc. split.
  - apply ReorderFacts.updateSquareOrder_unmoved. now right.
  - rewrite (SortFacts.handleDrop_same_slot ssnap sst dragged clientX Hd Harea);
      auto.
Qed.

End ReorderClaims.

Module RoundTripFacts.
Import JS JSFacts FabricGrid Spec SpliceFacts ReorderFacts.

Lemma mapi_from_app {A B} (f : A -> Z -> B) (l1 l2 : list A) (i : Z) :
  mapi_from f (l1 ++ l2) i =
  mapi_from f l1 i ++ mapi_from f l2 (i + Z.of_nat (length l1)).
Proof.
  revert i. induction l1 as [|x l1 IH]; intros i; simpl.
  - now rewrite Z.add_0_r.
  - rewrite IH. do 3 f_equal. lia.
Qed.

Lemma length_mapi_from {A B} (f : A -> Z -> B) (l : list A) (i : Z) :
  length (mapi_from f l i) = length l.
Proof. revert i. induction l; intros i; simpl; auto. Qed.

Lemma items_app (l1 l2 : list CanvasSquare) :
  items (l1 ++ l2) = items l1 ++ items l2.
Proof. apply map_app. Qed.

Lemma length_items (l : list CanvasSquare) : length (items l) = length l.
Proof. apply length_map. Qed.

Lemma same_id_true d y : same_id d y = true <-> sq_id y = sq_id d.
Proof. apply String.eqb_eq. Qed.

(** With distinct identifiers nothing after the first match matches. *)
Lemma no_match_after d a x b :
  List.NoDup (map sq_id (a ++ x :: b)) -> same_id d x = true ->
  Forall (fun y => same_id d y = false) b.
Proof.
  intros Hnd Hx. rewrite map_app in Hnd. simpl in Hnd.
  apply NoDup_remove_2 in Hnd. apply List.Forall_forall. intros y Hy.
  destruct (same_id d y) eqn:E; [|reflexivity].
  exfalso. apply Hnd. apply in_or_app. right.
  apply same_id_true in E. apply same_id_true in Hx. rewrite Hx, <- E.
  now apply in_map.
Qed.

Lemma no_match_take d (l : list CanvasSquare) (k : nat) :
  Forall (fun y => same_id d y = false) l ->
  Forall (fun y => same_id d y = false) (take k l).
Proof.
  intros H. apply List.Forall_forall. intros y Hy.
  rewrite List.Forall_forall in H. apply H.
  rewrite <- (take_drop k l). apply in_or_app. now left.
Qed.

Section RoundTrip.
Variables (st : State) (d : CanvasSquare) (j : Z).
Variables (a : list CanvasSquare) (x : CanvasSquare) (b : list CanvasSquare).
Hypothesis E : canvasSquares st = a ++ x :: b.
Hypothesis Ha : Forall (fun y => same_id d y = false) a.
Hypothesis Hb : Forall (fun y => same_id d y = false) b.
Hypothesis Hx : same_id d x = true.

(** The state after a committed move and a move back to [length a]. *)
Lemma move_and_back :
  j <> Z.of_nat (length a) ->
  let st1 := snd (updateSquareOrder st d j st) in
  updateSquareOrder st1 d (Z.of_nat (length a)) st1 =
  (mapi set_position (canvasSquares st),
   setCanvasSquares (mapi set_position (canvasSquares st)) st1).
Proof.
  intros Hj st1. subst st1.
  rewrite (updateSquareOrder_moved st st d j a x b E Ha Hx Hj). simpl snd.
  set (k := splice_start (a ++ b) j).
  set (a1 := take k (a ++ b)). set (b1 := drop k (a ++ b)).
  assert (Hk : (k <= length (a ++ b))%nat) by apply splice_start_le.
  assert (Hab : a1 ++ b1 = a ++ b) by apply take_drop.
  assert (Hla1 : length a1 = k) by (unfold a1; rewrite length_take; lia).
  change (splice_insert (a ++ b) j x) with (a1 ++ x :: b1).
  set (st1 := setCanvasSquares _ st).
  assert (E1 : canvasSquares st1 =
               mapi_from set_position a1 0
               ++ set_position x (Z.of_nat k)
               :: mapi_from set_position b1 (Z.of_nat k + 1)).
  { unfold st1. simpl canvasSquares. unfold mapi.
    rewrite mapi_from_app. simpl. rewrite Hla1.
    repeat f_equal; lia. }
  assert (Ha1 : Forall (fun y => same_id d y = false)
                  (mapi_from set_position a1 0)).
  { apply no_match_mapi_from, no_match_take.
    apply Forall_app. now split. }
  assert (Hitems : items (mapi_from set_position a1 0
                          ++ mapi_from set_position b1 (Z.of_nat k + 1))
                   = items (a ++ b)).
  { now rewrite items_app, !items_mapi_from, <- items_app, Hab. }
  destruct (Z.eq_dec (Z.of_nat (length a)) (Z.of_nat k)) as [Hak|Hak].
  - (* the square already sits at its original index *)
    rewrite updateSquareOrder_unmoved.
    + assert (a1 = a /\ b1 = b) as [-> ->].
      { unfold a1, b1. replace k with (length a) by lia.
        now rewrite take_app_length, drop_app_length. }
      f_equal; unfold st1, setCanvasSquares; simpl; now rewrite E.
    + right.
      rewrite E1, (findIndex_app _ _ (set_position x (Z.of_nat k)) _ Ha1 Hx).
      rewrite length_mapi_from. lia.
  - rewrite (updateSquareOrder_moved st1 st1 d _ _
               (set_position x (Z.of_nat k)) _ E1 Ha1 Hx)
      by (rewrite length_mapi_from; lia).
    assert (Hmapi : mapi set_position
              (splice_insert
                 (mapi_from set_position a1 0
                  ++ mapi_from set_position b1 (Z.of_nat k + 1))
                 (Z.of_nat (length a)) (set_position x (Z.of_nat k)))
            = mapi set_position (canvasSquares st)).
    { apply mapi_from_items.
      rewrite splice_insert_in_range.
      2:{ rewrite length_app, !length_mapi_from, <- length_app, Hab.
          rewrite length_app. lia. }
      unfold insert_at, items. rewrite map_app. simpl map.
      rewrite <- firstn_map, <- skipn_map. fold (items (mapi_from set_position a1 0
                  ++ mapi_from set_position b1 (Z.of_nat k + 1))).
      rewrite Hitems, E. unfold items. rewrite !map_app. simpl map.
      rewrite <- (length_map (fun s => (sq_id s, config s, fabricObject s)) a).
      now rewrite take_app_length, drop_app_length. }
    now rewrite Hmapi.
Qed.

End RoundTrip.
End RoundTripFacts.

Section PositionClaims.
Import JS JSFacts FabricGrid Spec ReorderFacts RoundTripFacts.

(** C6: with distinct identifiers, moving a square to any index and
    then back to the index it came from restores the original order;
    the records themselves are restored when the positions were the
    indices to begin with. *)
Theorem reorder_round_trip (st : State) (d : CanvasSquare) (j : Z) :
  List.NoDup (map sq_id (canvasSquares st)) ->
  findIndex (same_id d) (canvasSquares st) <> -1 ->
  items (canvasSquares
           (commitReorder (commitReorder st d j) d
              (findIndex (same_id d) (canvasSquares st))))
  = items (canvasSquares st) /\
  (well_positioned (canvasSquares st) ->
   canvasSquares
     (commitReorder (commitReorder st d j) d
        (findIndex (same_id d) (canvasSquares st)))
   = canvasSquares st).
Proof.
  intros Hnd Hc.
  destruct (findIndex_split _ _ Hc) as (a & x & b & E & Ha & Hx & Hi).
  rewrite Hi. unfold commitReorder.
  destruct (Z.eq_dec j (Z.of_nat (length a))) as [->|Hj].
  - rewrite (updateSquareOrder_unmoved st st d _ (or_intror Hi)). simpl snd.
    rewrite (updateSquareOrder_unmoved st st d _ (or_intror Hi)).
    now split.
  - assert (Hb : Forall (fun y => same_id d y = false) b).
    { rewrite E in Hnd. eapply no_match_after; eauto. }
    rewrite (move_and_back st d j a x b E Ha Hb Hx Hj). simpl.
    split; [apply items_mapi|apply well_positioned_fixed].
Qed.

Lemma canvasSquares_addSquareToCanvas snap st src i now :
  fabricCanvasRef st = true ->
  canvasSquares (addSquareToCanvas snap src i now st) =
  mapi set_position
    (splice_insert (canvasSquares snap) i
       {| sq_id := now +:+ "-" +:+ src_id src;
          config := {| cfg_id := now +:+ "-" +:+ src_id src;
                       cfg_color := src_color src;
                       cfg_size := src_size src;
                       cfg_position := i |};
          fabricObject := nextObject st;
          position := i |}).
Proof. intros H. unfold addSquareToCanvas. now rewrite H. Qed.

End PositionClaims.

(** ** Frame properties of the handlers *)

Module FrameFacts.
Import JS FabricGrid Spec.

Lemma mapi_from_ext {A B} (f g : A -> Z -> B) (l : list A) (i : Z) :
  (forall y k, f y k = g y k) -> mapi_from f l i = mapi_from g l i.
Proof.
  intros H. revert i. induction l as [|x l IH]; intros i; simpl; [easy|].
  now rewrite H, IH.
Qed.

Lemma realtimeIndex_previewIndex (o t i : Z) :
  realtimeIndex o t i = previewIndex o t i.
Proof.
  unfold realtimeIndex, previewIndex.
  destruct (Z.ltb_spec o t), (Z.ltb_spec t o), (Z.ltb_spec o i),
    (Z.ltb_spec i o), (Z.leb_spec i t), (Z.leb_spec t i),
    (Z.leb_spec (Z.min o t) i), (Z.leb_spec i (Z.max o t)),
    (Z.eqb_spec i o); simpl; lia.
Qed.

Lemma updateSquarePositionsRealtime_emit snap st t d :
  updateSquarePositionsRealtime snap t d st = emit (previewMoves snap t d) st.
Proof.
  unfold updateSquarePositionsRealtime, previewMoves, squares, mapi.
  do 2 f_equal. apply mapi_from_ext. intros y k.
  now rewrite realtimeIndex_previewIndex.
Qed.

(** What a handler leaves alone, field by field. *)
Ltac frame :=
  intros;
  repeat match goal with
         | |- context [match ?c with _ => _ end] => destruct c eqn:?
         end;
  simpl in *; congruence.

Lemma canvasSquares_rearrangeSquares snap anim sqs st :
  canvasSquares (rearrangeSquares snap anim sqs st) = canvasSquares st.
Proof. unfold rearrangeSquares. frame. Qed.

Lemma canvasSquares_handleObjectMoving snap obj x w st :
  canvasSquares (handleObjectMoving snap obj x w st) = canvasSquares st.
Proof. unfold handleObjectMoving, updateSquarePositionsRealtime. frame. Qed.

Lemma canvasSquares_handleExternalDragEnd snap st :
  canvasSquares (handleExternalDragEnd snap st) = canvasSquares st.
Proof. unfold handleExternalDragEnd, rearrangeSquares. frame. Qed.

Lemma canvasSquares_handleExternalDragMove snap x y st :
  canvasSquares (handleExternalDragMove snap x y st) = canvasSquares st.
Proof.
  unfold handleExternalDragMove, makeSpaceForExternalDrag, rearrangeSquares.
  frame.
Qed.

End FrameFacts.

Module GestureFacts.
Import FabricGrid Spec FrameFacts.

Ltac frames := repeat split; FrameFacts.frame.

Lemma grid_hover_frame st ev :
  grid_hover ev = true ->
  canvasSquares (dispatch st ev) = canvasSquares st /\
  canvasRef (dispatch st ev) = canvasRef st /\
  isExternalDragging (dispatch st ev) = isExternalDragging st /\
  draggedSourceSquare (dispatch st ev) = draggedSourceSquare st.
Proof.
  destruct ev; try discriminate; intros _; simpl;
    unfold handleMouseDown, handleMouseUp, handleObjectMoving,
      updateSquarePositionsRealtime, handleExternalDragMove,
      makeSpaceForExternalDrag, rearrangeSquares;
    frames.
Qed.

Lemma grid_hovers_frame evs : forall st,
  Forall (fun ev => grid_hover ev = true) evs ->
  canvasSquares (run st evs) = canvasSquares st /\
  canvasRef (run st evs) = canvasRef st /\
  isExternalDragging (run st evs) = isExternalDragging st /\
  draggedSourceSquare (run st evs) = draggedSourceSquare st.
Proof.
  induction evs as [|ev evs IH]; intros st H; [now repeat split|].
  inversion H as [|? ? Hev Hevs]; subst. simpl.
  destruct (IH (dispatch st ev) Hevs) as (-> & -> & -> & ->).
  now apply grid_hover_frame.
Qed.

Lemma run_app st evs1 evs2 : run st (evs1 ++ evs2) = run (run st evs1) evs2.
Proof. apply fold_left_app. Qed.

(** A drop off the canvas during an external drag: nothing is added
    and the drag cells are reset. *)
Lemma handleExternalDrop_outside st canvasRect src x y now :
  canvasRef st = Some canvasRect ->
  isExternalDragging st = true -> draggedSourceSquare st = Some src ->
  outside_canvas canvasRect x y ->
  handleExternalDrop st x y now st = handleExternalDragEnd st st.
Proof.
  intros Href Hdrag Hsrc Hout. unfold handleExternalDrop.
  rewrite Hdrag, Hsrc, Href.
  now rewrite (calculateInsertIndex_outside st canvasRect x y _ Hout).
Qed.

Lemma handleExternalDragEnd_cells snap st :
  isExternalDragging (handleExternalDragEnd snap st) = false /\
  draggedSourceSquare (handleExternalDragEnd snap st) = None /\
  dragOverIndex (handleExternalDragEnd snap st) = -1.
Proof. unfold handleExternalDragEnd, rearrangeSquares. frames. Qed.

Module Sort.
Import SortPage.

Lemma no_drop_frame st ev :
  sort_no_drop ev = true ->
  leftItems (SortPage.dispatch st ev) = leftItems st /\
  rightItems (SortPage.dispatch st ev) = rightItems st.
Proof.
  destruct ev; try discriminate; intros _; simpl;
    unfold handleDragOver; frames.
Qed.

Lemma no_drops_frame evs : forall st,
  Forall (fun ev => sort_no_drop ev = true) evs ->
  leftItems (SortPage.run st evs) = leftItems st /\
  rightItems (SortPage.run st evs) = rightItems st.
Proof.
  induction evs as [|ev evs IH]; intros st H; [now split|].
  inversion H as [|? ? Hev Hevs]; subst. simpl.
  destruct (IH (SortPage.dispatch st ev) Hevs) as (-> & ->).
  now apply no_drop_frame.
Qed.

Lemma sort_run_app st evs1 evs2 :
  SortPage.run st (evs1 ++ evs2) = SortPage.run (SortPage.run st evs1) evs2.
Proof. apply fold_left_app. Qed.

End Sort.
End GestureFacts.

Section GestureClaims.
Import Spec GestureFacts FrameFacts.

(** C8: a cross-panel drag on the grid page that hovers and is then
    released off the canvas, and a drag on the sort page that ends
    without a drop, leave the sequences as they were before the drag
    started; the cells of the drag are back to their idle values. *)
Theorem drag_released_outside
    (st : FabricGrid.State) (canvasRect : FabricGrid.DOMRect)
    (src : FabricGrid.DragSourceSquare) (moves : list FabricGrid.Event)
    (x y : Q) (now : string)
    (sst : SortPage.State) (item : SortPage.SquareItem)
    (area : SortPage.Area) (hovers : list SortPage.Event) :
  FabricGrid.canvasRef st = Some canvasRect ->
  outside_canvas canvasRect x y ->
  Forall (fun ev => grid_hover ev = true) moves ->
  Forall (fun ev => sort_no_drop ev = true) hovers ->
  (FabricGrid.canvasSquares
     (FabricGrid.run st
        (FabricGrid.ExternalDragStart src :: moves
         ++ [FabricGrid.ExternalDrop x y now]))
   = FabricGrid.canvasSquares st /\
   FabricGrid.isExternalDragging
     (FabricGrid.run st
        (FabricGrid.ExternalDragStart src :: moves
         ++ [FabricGrid.ExternalDrop x y now])) = false /\
   FabricGrid.draggedSourceSquare
     (FabricGrid.run st
        (FabricGrid.ExternalDragStart src :: moves
         ++ [FabricGrid.ExternalDrop x y now])) = None /\
   FabricGrid.dragOverIndex
     (FabricGrid.run st
        (FabricGrid.ExternalDragStart src :: moves
         ++ [FabricGrid.ExternalDrop x y now])) = -1) /\
  (SortPage.leftItems
     (SortPage.run sst
        (SortPage.DragStart item area :: hovers ++ [SortPage.DragEnd]))
   = SortPage.leftItems sst /\
   SortPage.rightItems
     (SortPage.run sst
        (SortPage.DragStart item area :: hovers ++ [SortPage.DragEnd]))
   = SortPage.rightItems sst /\
   SortPage.dragState
     (SortPage.run sst
        (SortPage.DragStart item area :: hovers ++ [SortPage.DragEnd]))
   = SortPage.noDrag /\
   SortPage.dragOverIndex
     (SortPage.run sst
        (SortPage.DragStart item area :: hovers ++ [SortPage.DragEnd]))
   = None /\
   SortPage.insertPosition
     (SortPage.run sst
        (SortPage.DragStart item area :: hovers ++ [SortPage.DragEnd]))
   = None /\
   SortPage.draggingItem
     (SortPage.run sst
        (SortPage.DragStart item area :: hovers ++ [SortPage.DragEnd]))
   = None).
Proof.
  intros Href Hout Hmoves Hhovers. split.
  - change (FabricGrid.ExternalDragStart src :: moves
            ++ [FabricGrid.ExternalDrop x y now])
      with ([FabricGrid.ExternalDragStart src]
            ++ moves ++ [FabricGrid.ExternalDrop x y now]).
    rewrite !run_app.
    set (st1 := FabricGrid.run st [FabricGrid.ExternalDragStart src]).
    destruct (grid_hovers_frame moves st1 Hmoves) as (Hsq & Hr & Hd & Hs).
    set (st2 := FabricGrid.run st1 moves) in *.
    change (FabricGrid.run st2 [FabricGrid.ExternalDrop x y now])
      with (FabricGrid.handleExternalDrop st2 x y now st2).
    rewrite (handleExternalDrop_outside st2 canvasRect src x y now);
      [|now rewrite Hr|now rewrite Hd|now rewrite Hs|exact Hout].
    split; [|apply handleExternalDragEnd_cells].
    now rewrite canvasSquares_handleExternalDragEnd, Hsq.
  - change (SortPage.DragStart item area :: hovers ++ [SortPage.DragEnd])
      with ([SortPage.DragStart item area] ++ hovers ++ [SortPage.DragEnd]).
    rewrite !Sort.sort_run_app.
    set (st1 := SortPage.run sst [SortPage.DragStart item area]).
    destruct (Sort.no_drops_frame hovers st1 Hhovers) as (Hl & Hr).
    set (st2 := SortPage.run st1 hovers) in *.
    change (SortPage.run st2 [SortPage.DragEnd])
      with (SortPage.handleDragEnd st2).
    unfold SortPage.handleDragEnd. simpl.
    now rewrite Hl, Hr.
Qed.

(** C9: the preview of an in-progress drag leaves the sequence and
    every cell of the state alone and only issues animation calls: one
    for each square other than the dragged one, to the slot given by
    [previewIndex], that is one slot toward the original index for the
    squares between the original index and the target (the target
    included) and the square's own slot otherwise. *)
Theorem preview_shift_frame (snap st : FabricGrid.State) (t : Z)
    (d : FabricGrid.CanvasSquare) (obj : nat) (x w : Q) :
  FabricGrid.updateSquarePositionsRealtime snap t d st
  = FabricGrid.emit (previewMoves snap t d) st /\
  FabricGrid.canvasSquares (FabricGrid.updateSquarePositionsRealtime snap t d st)
  = FabricGrid.canvasSquares st /\
  FabricGrid.canvasSquares
    (FabricGrid.dispatch st (FabricGrid.ObjectMoving obj x w))
  = FabricGrid.canvasSquares st /\
  (forall i : Z,
     (FabricGrid.position d < i <= t ->
      FabricGrid.realtimeIndex (FabricGrid.position d) t i = i - 1) /\
     (t <= i < FabricGrid.position d ->
      FabricGrid.realtimeIndex (FabricGrid.position d) t i = i + 1) /\
     (~ (FabricGrid.position d < i <= t) ->
      ~ (t <= i < FabricGrid.position d) ->
      FabricGrid.realtimeIndex (FabricGrid.position d) t i = i)).
Proof.
  split; [apply updateSquarePositionsRealtime_emit|].
  split; [now rewrite updateSquarePositionsRealtime_emit|].
  split; [apply canvasSquares_handleObjectMoving|].
  intros i. unfold FabricGrid.realtimeIndex.
  destruct (Z.ltb_spec (FabricGrid.position d) t),
    (Z.ltb_spec t (FabricGrid.position d)),
    (Z.ltb_spec (FabricGrid.position d) i),
    (Z.ltb_spec i (FabricGrid.position d)),
    (Z.leb_spec i t), (Z.leb_spec t i); simpl; lia.
Qed.

End GestureClaims.

(** ** Positions along any run of the grid page *)

Section PositionInvariant.
Import JS JSFacts FabricGrid Spec ReorderFacts FrameFacts.

Lemma updateSquareOrder_positions snap st d t :
  well_positioned (canvasSquares st) ->
  well_positioned (canvasSquares (snd (updateSquareOrder snap d t st))).
Proof.
  intros H.
  destruct (Z.eq_dec (findIndex (same_id d) (canvasSquares snap)) (-1))
    as [E|E]; [now rewrite updateSquareOrder_unmoved by (now left)|].
  destruct (Z.eq_dec (findIndex (same_id d) (canvasSquares snap)) t)
    as [Et|Et]; [now rewrite updateSquareOrder_unmoved by (now right)|].
  destruct (findIndex_split _ _ E) as (a & x & b & Eq & Ha & Hx & Hi).
  rewrite (updateSquareOrder_moved snap st d t a x b Eq Ha Hx) by lia.
  apply well_positioned_mapi.
Qed.

Lemma addSquareToCanvas_positions snap st src i now :
  well_positioned (canvasSquares st) ->
  well_positioned (canvasSquares (addSquareToCanvas snap src i now st)).
Proof.
  intros H. destruct (fabricCanvasRef st) eqn:Href.
  - rewrite canvasSquares_addSquareToCanvas by exact Href.
    apply well_positioned_mapi.
  - unfold addSquareToCanvas. now rewrite Href.
Qed.

(** Every handler keeps the positions equal to the indices. *)
Lemma dispatch_positions st ev :
  well_positioned (canvasSquares st) ->
  well_positioned (canvasSquares (dispatch st ev)).
Proof.
  intros H. destruct ev; simpl.
  - unfold handleMouseDown. destruct target; [|exact H].
    destruct (findByObject st n); exact H.
  - exact H.
  - now rewrite canvasSquares_handleObjectMoving.
  - unfold handleObjectModified. destruct (draggedSquare st); [|exact H].
    destruct (updateSquareOrder st c _ st) as [newSquares st'] eqn:E.
    rewrite canvasSquares_rearrangeSquares.
    change st' with (snd (newSquares, st')). rewrite <- E.
    now apply updateSquareOrder_positions.
  - exact H.
  - destruct (isExternalDragging st); [|exact H].
    now rewrite canvasSquares_handleExternalDragMove.
  - unfold handleExternalDrop.
    destruct (isExternalDragging st); [|exact H].
    destruct (draggedSourceSquare st); [|exact H].
    rewrite canvasSquares_handleExternalDragEnd.
    destruct (0 <=? _); [|exact H].
    now apply addSquareToCanvas_positions.
  - now rewrite canvasSquares_handleExternalDragEnd.
Qed.

Lemma run_positions evs : forall st,
  well_positioned (canvasSquares st) ->
  well_positioned (canvasSquares (run st evs)).
Proof.
  induction evs as [|ev evs IH]; intros st H; [exact H|].
  simpl. apply IH, dispatch_positions, H.
Qed.

(** From the initial grid, whatever the events, every recorded
    position is the index of its item. *)
Lemma reachable_positions evs :
  well_positioned (canvasSquares (run Examples.gridInitial evs)).
Proof.
  apply run_positions. rewrite ExampleChecks.gridInitial_squares.
  reflexivity.
Qed.

End PositionInvariant.

(** ** The scenario of the specification *)

Section Scenario.
Import FabricGrid Spec Examples FrameFacts.

Lemma calculateTargetIndex_length (s1 s2 : State) (x size : Q) :
  length (canvasSquares s1) = length (canvasSquares s2) ->
  calculateTargetIndex s1 x size None = calculateTargetIndex s2 x size None.
Proof.
  intros H. unfold calculateTargetIndex, squares_length, squares.
  now rewrite H.
Qed.

(** With four squares the slot index is 2 exactly for a left edge in
    [360, 460). *)
Lemma slot_two (st : State) (x : Q) :
  length (canvasSquares st) = 4%nat ->
  (360 <= x)%Q -> (x < 460)%Q -> calculateTargetIndex st x 80 None = 2.
Proof.
  intros Hlen H1 H2. unfold calculateTargetIndex. cbv zeta.
  unfold default, squares_length, squares. rewrite Hlen.
  change (inject_Z (Z.of_nat 4)) with 4%Q.
  unfold JS.floor, PADDING, CANVAS_WIDTH.
  assert (E : ((x + 80 / 2 - ((800 - (4 * 80 + (4 - 1) * 20)) / 2 + 80 / 2))
               / (80 + 20) + (1 # 2)
               == (x - 210) * (1 # 100) + (1 # 2))%Q) by field.
  rewrite E, (NumFacts.Qfloor_unique _ 2); [reflexivity| |].
  - change (inject_Z 2) with 2%Q. lra.
  - change (inject_Z (2 + 1)) with 3%Q. lra.
Qed.

Lemma draggedSquare_handleObjectMoving snap obj x w st :
  isDragging snap = false -> draggedSquare st = draggedSquare snap ->
  draggedSquare (handleObjectMoving snap obj x w st) = draggedSquare st.
Proof.
  unfold handleObjectMoving, updateSquarePositionsRealtime. frame.
Qed.

(** The gesture of the scenario on any state that shows the four
    squares of the page and is not dragging. *)
Lemma drag_first_on (st : State) (x : Q) :
  canvasSquares st = gridSquares -> isDragging st = false ->
  calculateTargetIndex st x 80 None = 2 ->
  canvasSquares
    (run st [MouseDown (Some 0%nat); ObjectMoving 0 x 80;
             ObjectModified 0 x; MouseUp])
  = JS.mapi set_position [squareB; squareC; squareA; squareD].
Proof.
  intros Hsq Hdrag Hslot. unfold run. cbn [fold_left].
  assert (E1 : dispatch st (MouseDown (Some 0%nat))
               = setDragging false (Some squareA) st).
  { cbn [dispatch]. unfold handleMouseDown, findByObject, squares.
    rewrite Hsq, Hdrag. reflexivity. }
  rewrite E1. set (st1 := setDragging false (Some squareA) st).
  set (st2 := dispatch st1 (ObjectMoving 0 x 80)).
  assert (Hsq2 : canvasSquares st2 = gridSquares).
  { unfold st2. cbn [dispatch]. rewrite canvasSquares_handleObjectMoving.
    exact Hsq. }
  assert (Hd : draggedSquare st2 = Some squareA).
  { unfold st2. cbn [dispatch].
    rewrite draggedSquare_handleObjectMoving; reflexivity. }
  cbn [dispatch]. unfold handleMouseUp.
  change (canvasSquares (setDragging false None ?s)) with (canvasSquares s).
  unfold handleObjectModified. rewrite Hd.
  change (cfg_size (config squareA)) with 80%Q.
  rewrite (calculateTargetIndex_length st2 st)
    by (now rewrite Hsq, Hsq2).
  rewrite Hslot.
  rewrite (ReorderFacts.updateSquareOrder_moved st2 st2 squareA 2 [] squareA
             [squareB; squareC; squareD] Hsq2);
    [|constructor|reflexivity|discriminate].
  rewrite canvasSquares_rearrangeSquares. reflexivity.
Qed.

(** C7: on the initial grid [1,2,3,4] (size 80, spacing 20, canvas
    800 wide), picking up square 1, dragging it to a left edge whose
    slot index is 2 and releasing it there gives [2,3,1,4], with the
    positions 0 to 3. *)
Theorem drag_first_to_slot_two (x : Q) :
  calculateTargetIndex gridInitial x 80 None = 2 ->
  map sq_id
    (canvasSquares
       (run gridInitial
          [MouseDown (Some 0%nat); ObjectMoving 0 x 80;
           ObjectModified 0 x; MouseUp]))
  = ["2"; "3"; "1"; "4"] /\
  map position
    (canvasSquares
       (run gridInitial
          [MouseDown (Some 0%nat); ObjectMoving 0 x 80;
           ObjectModified 0 x; MouseUp]))
  = [0; 1; 2; 3].
Proof.
  intros Hslot.
  rewrite (drag_first_on gridInitial x ExampleChecks.gridInitial_squares
             ExampleChecks.gridInitial_idle Hslot).
  split; reflexivity.
Qed.
End Scenario.

(** ** Instances on the example states *)

Section Instances.
Import Examples Spec.

(** Moving square 1 of the initial grid to index 2 puts it at index 2;
    the decremented insertion of the specification would put it at
    index 1. *)
Lemma reorder_grid_not_adjusted :
  map FabricGrid.sq_id
    (fst (FabricGrid.updateSquareOrder gridInitial squareA 2 gridInitial))
  = ["2"; "3"; "1"; "4"] /\
  map FabricGrid.sq_id
    (reorder (FabricGrid.same_id squareA)
       (FabricGrid.canvasSquares gridInitial) 2)
  = ["2"; "1"; "3"; "4"] /\
  items (fst (FabricGrid.updateSquareOrder gridInitial squareA 2 gridInitial))
  <> items (reorder (FabricGrid.same_id squareA)
              (FabricGrid.canvasSquares gridInitial) 2).
Proof.
  split; [vm_compute; reflexivity|].
  split; [vm_compute; reflexivity|].
  vm_compute. intros H. discriminate H.
Qed.

(** On the plain page a square of size 60 released with its left edge
    at 130 goes to slot 1, while the centred formula of the
    specification gives slot 0 for the left edge and for the centre. *)
Lemma slot_index_plain_not_centred :
  FabricPlain.clampedIndex plainSquares (plainSquare "a" 0) 130 = 1 /\
  slotIndexForCoordinate 130 60 20 4 800 = 0 /\
  slotIndexForCoordinate (130 + 60 / 2) 60 20 4 800 = 0 /\
  FabricPlain.clampedIndex plainSquares (plainSquare "a" 0) 130
  <> slotIndexForCoordinate (130 + 60 / 2) 60 20
       (Z.of_nat (length plainSquares)) 800.
Proof.
  repeat split; try (vm_compute; reflexivity).
  vm_compute. intros H. discriminate H.
Qed.

Lemma slot_index_formula_witness :
  FabricGrid.calculateTargetIndex gridInitial 410 80 (Some 4) =
    slotIndexForCoordinate (410 + 80 / 2) 80 FabricGrid.PADDING 4
      FabricGrid.CANVAS_WIDTH /\
  FabricGrid.calculateTargetIndex gridInitial 410 80 (Some 4) =
    clamp 0 (4 - 1)
      (JS.round ((410 - startOffset 80 FabricGrid.PADDING 4
                          FabricGrid.CANVAS_WIDTH)
                 / (80 + FabricGrid.PADDING))%Q) /\
  FabricPlain.clampedIndex plainSquares (plainSquare "a" 0) 130 =
    clamp 0 (Z.of_nat (length plainSquares) - 1)
      (JS.round ((130 - 50)
                 / (FabricPlain.cfg_size
                      (FabricPlain.config (plainSquare "a" 0)) + 20))%Q).
Proof.
  apply (slot_index_formula gridInitial 410 80 4 plainSquares
           (plainSquare "a" 0) 130); [lia|reflexivity].
Defined.

Lemma slot_index_in_bounds_witness :
  0 <= FabricGrid.calculateTargetIndex gridInitial 410 80 (Some 4) <= 4 - 1 /\
  FabricGrid.calculateInsertIndex gridInitial (Some canvasRect0) 900 200 80
  = -1.
Proof.
  destruct (slot_index_in_bounds gridInitial 410 80 4 canvasRect0 900 200)
    as (H1 & H2 & _); [lia|reflexivity|].
  split; [exact H1|]. apply H2. right; left. reflexivity.
Defined.

Lemma layout_then_index_witness :
  FabricGrid.calculateTargetIndex gridInitial
    (FabricGrid.calculateSquarePosition gridInitial 2 80 (Some 4)) 80 (Some 4)
  = 2.
Proof.
  apply (layout_then_index gridInitial 2 4 80); [lia|lia|].
  intros H. vm_compute in H. discriminate H.
Defined.

Lemma reorder_splice_witness :
  nth_error
    (fst (FabricGrid.updateSquareOrder gridInitial squareA 2 gridInitial))
    (Z.to_nat 2)
  = Some (FabricGrid.set_position squareA 2) /\
  SortPage.rightItems (SortPage.handleDrop sortDragging 0 (Some 3) sortDragging)
  = reorder (SortPage.same_id item0) (SortPage.rightItems sortDragging) 3.
Proof.
  destruct (reorder_splice gridInitial gridInitial squareA 2
              [] squareA [squareB; squareC; squareD]
              sortDragging sortDragging item0 0 3 [] [item1; item2])
    as (_ & H1 & _ & H2).
  - apply ExampleChecks.gridInitial_squares.
  - constructor.
  - reflexivity.
  - rewrite ExampleChecks.gridInitial_squares. simpl. lia.
  - simpl. lia.
  - vm_compute. reflexivity.
  - vm_compute. reflexivity.
  - vm_compute. reflexivity.
  - reflexivity.
  - constructor.
  - replace (SortPage.rightItems sortDragging) with [item0; item1; item2]
      by (vm_compute; reflexivity).
    simpl. lia.
  - split; [exact H1|exact H2].
Defined.

Lemma reorder_same_index_noop_witness :
  FabricGrid.updateSquareOrder gridInitial squareA
    (JS.findIndex (FabricGrid.same_id squareA)
       (FabricGrid.canvasSquares gridInitial)) gridInitial
  = (FabricGrid.canvasSquares gridInitial, gridInitial) /\
  SortPage.rightItems
    (SortPage.handleDrop sortDragging 0
       (Some (JS.findIndex (SortPage.same_id item0)
                (SortPage.rightItems sortDragging)))
       sortDragging)
  = SortPage.rightItems sortDragging.
Proof.
  destruct (reorder_same_index_noop gridInitial gridInitial squareA
              sortDragging sortDragging item0 0) as (H1 & H2 & _).
  - vm_compute. discriminate.
  - vm_compute. reflexivity.
  - vm_compute. reflexivity.
  - vm_compute. discriminate.
  - split; [exact H1|exact H2].
Defined.

Lemma gridInitial_distinct :
  List.NoDup (map FabricGrid.sq_id (FabricGrid.canvasSquares gridInitial)).
Proof.
  rewrite ExampleChecks.gridInitial_squares. simpl.
  repeat constructor; simpl; intuition discriminate.
Defined.

Lemma reorder_round_trip_witness :
  FabricGrid.canvasSquares
    (commitReorder (commitReorder gridInitial squareA 2) squareA
       (JS.findIndex (FabricGrid.same_id squareA)
          (FabricGrid.canvasSquares gridInitial)))
  = FabricGrid.canvasSquares gridInitial.
Proof.
  apply (reorder_round_trip gridInitial squareA 2).
  - apply gridInitial_distinct.
  - vm_compute. discriminate.
  - vm_compute. reflexivity.
Defined.

Lemma drag_first_to_slot_two_witness :
  map FabricGrid.sq_id
    (FabricGrid.canvasSquares
       (FabricGrid.run gridInitial
          [FabricGrid.MouseDown (Some 0%nat); FabricGrid.ObjectMoving 0 410 80;
           FabricGrid.ObjectModified 0 410; FabricGrid.MouseUp]))
  = ["2"; "3"; "1"; "4"].
Proof.
  apply (drag_first_to_slot_two 410). vm_compute. reflexivity.
Defined.

Lemma drag_released_outside_witness :
  FabricGrid.canvasSquares
    (FabricGrid.run gridInitial
       (FabricGrid.ExternalDragStart sourceYellow
        :: [FabricGrid.ExternalDragOver 100 100;
            FabricGrid.ExternalDragOver 900 100]
        ++ [FabricGrid.ExternalDrop 900 100 "0"]))
  = FabricGrid.canvasSquares gridInitial /\
  SortPage.rightItems
    (SortPage.run sortThree
       (SortPage.DragStart item0 SortPage.right_area
        :: [SortPage.DragOver 10
              {| SortPage.rect_left := 0; SortPage.rect_width := 64 |}
              (Some 1);
            SortPage.AreaDragLeave]
        ++ [SortPage.DragEnd]))
  = SortPage.rightItems sortThree.
Proof.
  destruct (drag_released_outside gridInitial canvasRect0 sourceYellow
              [FabricGrid.ExternalDragOver 100 100;
               FabricGrid.ExternalDragOver 900 100]
              900 100 "0" sortThree item0 SortPage.right_area
              [SortPage.DragOver 10
                 {| SortPage.rect_left := 0; SortPage.rect_width := 64 |}
                 (Some 1);
               SortPage.AreaDragLeave])
    as ((H1 & _) & (_ & H2 & _)).
  - vm_compute. reflexivity.
  - right; left. reflexivity.
  - repeat constructor.
  - repeat constructor.
  - split; [exact H1|exact H2].
Defined.

Lemma preview_shift_frame_witness :
  FabricGrid.realtimeIndex (FabricGrid.position squareA) 2 1 = 1 - 1.
Proof.
  apply (preview_shift_frame gridInitial gridInitial 2 squareA 0 0 0).
  simpl. lia.
Defined.

End Instances.

(** ** Layout and slot index: further properties *)

Module LayoutFacts.
Import FabricGrid Spec.

Lemma Qfloor_lower (y : Q) (n : Z) : (inject_Z n <= y)%Q -> n <= Qfloor y.
Proof. intros H. rewrite <- (Qfloor_Z n). now apply Qfloor_resp_le. Qed.

Lemma Qfloor_upper (y : Q) (n : Z) : (y < inject_Z n)%Q -> Qfloor y < n.
Proof.
  intros H. rewrite Zlt_Qlt. eapply Qle_lt_trans; [apply Qfloor_le|exact H].
Qed.


Lemma pitch_positive (size : Q) : (0 < size)%Q -> (0 < size + PADDING)%Q.
Proof. unfold PADDING. lra. Qed.

Section Layout.
Variable snap : State.

(** X1: the block of [count] squares is centred on the canvas and the
    squares follow each other at the pitch [size + PADDING]. *)
Theorem layout_centred_evenly_spaced (size : Q) (count i : Z) :
  (calculateSquarePosition snap 0 size (Some count)
   + (calculateSquarePosition snap (count - 1) size (Some count) + size)
   == CANVAS_WIDTH)%Q /\
  (calculateSquarePosition snap (i + 1) size (Some count)
   == calculateSquarePosition snap i size (Some count) + size + PADDING)%Q.
Proof.
  unfold calculateSquarePosition. cbv zeta. simpl default.
  unfold Z.sub. rewrite !inject_Z_plus, inject_Z_opp.
  change (inject_Z 1) with 1%Q. change (inject_Z 0) with 0%Q.
  split; field.
Qed.

(** The quotient that [calculateTargetIndex] rounds. *)
Lemma calculateTargetIndex_floor (x size : Q) (count : Z) :
  calculateTargetIndex snap x size (Some count) =
  JS.max 0 (JS.min (count - 1)
    (Qfloor ((x - calculateSquarePosition snap 0 size (Some count))
             / (size + PADDING) + (1 # 2))%Q)).
Proof.
  unfold calculateTargetIndex, calculateSquarePosition, JS.floor.
  cbv zeta. simpl default. do 2 f_equal. apply Qfloor_comp.
  change (inject_Z 0) with 0%Q. unfold Qdiv. ring.
Qed.

(** X2: a square dragged further to the right never gets a smaller slot. *)
Theorem slot_index_monotone (x x' size : Q) (count : Z) :
  (0 < size)%Q -> (x <= x')%Q ->
  calculateTargetIndex snap x size (Some count)
  <= calculateTargetIndex snap x' size (Some count).
Proof.
  intros Hs Hx. rewrite !calculateTargetIndex_floor.
  set (s := calculateSquarePosition snap 0 size (Some count)).
  assert (Qfloor ((x - s) / (size + PADDING) + (1 # 2))
          <= Qfloor ((x' - s) / (size + PADDING) + (1 # 2))).
  { apply Qfloor_resp_le. apply Qplus_le_compat; [|apply Qle_refl].
    unfold Qdiv. apply Qmult_le_compat_r; [lra|].
    apply Qlt_le_weak, Qinv_lt_0_compat, pitch_positive, Hs. }
  unfold JS.max, JS.min. lia.
Qed.


End Layout.
End LayoutFacts.

(** ** The reorder of the grid page: what it keeps and where items land *)

Module OrderFacts.
Import JS JSFacts FabricGrid Spec SpliceFacts ReorderFacts RoundTripFacts.

Section Lists.
Context {A : Type}.
Implicit Types (l a b : list A) (x : A).

Lemma insert_at_perm (k : nat) x l : Permutation (insert_at k x l) (x :: l).
Proof.
  unfold insert_at. rewrite <- Permutation_middle.
  now rewrite take_drop.
Qed.

Lemma length_insert_at (k : nat) x l :
  length (insert_at k x l) = S (length l).
Proof.
  unfold insert_at. rewrite length_app. simpl.
  rewrite length_take, length_drop. lia.
Qed.

Lemma splice_insert_insert_at l (s : Z) x :
  splice_insert l s x = insert_at (splice_start l s) x l.
Proof. reflexivity. Qed.

Lemma nth_error_insert_at_before (k j : nat) x l :
  (j < k)%nat -> (k <= length l)%nat ->
  nth_error (insert_at k x l) j = nth_error l j.
Proof.
  intros Hj Hk. unfold insert_at.
  rewrite nth_error_app1 by (rewrite length_take; lia).
  now rewrite nth_error_firstn, (proj2 (Nat.ltb_lt j k) Hj).
Qed.

Lemma nth_error_insert_at_after (k j : nat) x l :
  (k <= j)%nat -> (k <= length l)%nat ->
  nth_error (insert_at k x l) (S j) = nth_error l j.
Proof.
  intros Hj Hk. unfold insert_at.
  rewrite nth_error_app2 by (rewrite length_take; lia).
  rewrite length_take. replace (S j - k `min` length l)%nat with (S (j - k))
    by lia.
  simpl. rewrite nth_error_skipn. f_equal. lia.
Qed.

Lemma nth_error_without_before a x b (j : nat) :
  (j < length a)%nat -> nth_error (a ++ b) j = nth_error (a ++ x :: b) j.
Proof. intros H. now rewrite !nth_error_app1 by lia. Qed.

Lemma nth_error_without_after a x b (j : nat) :
  (length a <= j)%nat -> nth_error (a ++ b) j = nth_error (a ++ x :: b) (S j).
Proof.
  intros H. rewrite !nth_error_app2 by lia.
  now replace (S j - length a)%nat with (S (j - length a)) by lia.
Qed.

End Lists.

Lemma fabricObject_mapi (l : list CanvasSquare) (i : Z) :
  map fabricObject (mapi_from set_position l i) = map fabricObject l.
Proof.
  revert i. induction l as [|x l IH]; intros i; simpl; [easy|].
  now rewrite IH.
Qed.

(** Case analysis on the comparisons of [realtimeIndex]. *)
Ltac realtime_cases :=
  unfold realtimeIndex;
  repeat match goal with
         | |- context [?p <? ?q] => destruct (Z.ltb_spec p q)
         | |- context [?p <=? ?q] => destruct (Z.leb_spec p q)
         end;
  simpl; lia.

Section Render.
Variables (snap st : State) (d : CanvasSquare) (t : Z).

(** The items of a reorder, in all its cases. *)
Lemma updateSquareOrder_items_perm :
  Permutation (items (fst (updateSquareOrder snap d t st)))
    (items (canvasSquares snap)) /\
  length (fst (updateSquareOrder snap d t st)) = length (canvasSquares snap) /\
  (snd (updateSquareOrder snap d t st) = st \/
   canvasSquares (snd (updateSquareOrder snap d t st))
   = fst (updateSquareOrder snap d t st)).
Proof.
  destruct (Z.eq_dec (findIndex (same_id d) (canvasSquares snap)) (-1))
    as [E|E]; [rewrite updateSquareOrder_unmoved by (now left); auto|].
  destruct (Z.eq_dec (findIndex (same_id d) (canvasSquares snap)) t)
    as [Et|Et]; [rewrite updateSquareOrder_unmoved by (now right); auto|].
  destruct (findIndex_split _ _ E) as (a & x & b & Eq & Ha & Hx & Hi).
  rewrite (updateSquareOrder_moved snap st d t a x b Eq Ha Hx) by lia.
  simpl fst. simpl snd. rewrite items_mapi, Eq. split; [|split].
  - rewrite splice_insert_insert_at. unfold items.
    rewrite insert_at_perm, Permutation_middle. reflexivity.
  - unfold mapi. rewrite length_mapi_from, length_splice_insert.
    rewrite !length_app. simpl. lia.
  - now right.
Qed.

(** X4: whatever the dragged square and the target index (missing square,
    index below zero or past the end), the reorder returns the same
    items, none lost and none repeated: a permutation of the same
    length; the state is untouched or holds the returned sequence. *)
Theorem updateSquareOrder_keeps_items :
  Permutation (items (fst (updateSquareOrder snap d t st)))
    (items (canvasSquares snap)) /\
  length (fst (updateSquareOrder snap d t st)) = length (canvasSquares snap) /\
  (snd (updateSquareOrder snap d t st) = st \/
   canvasSquares (snd (updateSquareOrder snap d t st))
   = fst (updateSquareOrder snap d t st)).
Proof. exact updateSquareOrder_items_perm. Qed.

(** X6: where the other squares land: the square at index [i], other than
    the dragged one, is found after the reorder at the index the
    preview animated it to. *)
Theorem preview_matches_commit (i : nat) (y : CanvasSquare) :
  findIndex (same_id d) (canvasSquares snap) = position d ->
  position d <> -1 ->
  0 <= t < Z.of_nat (length (canvasSquares snap)) -> t <> position d ->
  nth_error (canvasSquares snap) i = Some y -> Z.of_nat i <> position d ->
  nth_error (fst (updateSquareOrder snap d t st))
    (Z.to_nat (realtimeIndex (position d) t (Z.of_nat i)))
  = Some (set_position y (realtimeIndex (position d) t (Z.of_nat i))).
Proof.
  intros Hpos Hfound Ht Hne Hy Hi.
  rewrite <- Hpos in Hfound.
  destruct (findIndex_split _ _ Hfound) as (a & x & b & Eq & Ha & Hx & Ho).
  rewrite Hpos in Ho. rewrite Ho in *.
  rewrite (updateSquareOrder_moved snap st d t a x b Eq Ha Hx) by lia.
  simpl fst. rewrite Eq in Ht, Hy. rewrite length_app in Ht. simpl in Ht.
  assert (HT : splice_insert (a ++ b) t x = insert_at (Z.to_nat t) x (a ++ b)).
  { rewrite <- (Z2Nat.id t) at 1 by lia.
    apply splice_insert_in_range. rewrite length_app. lia. }
  rewrite HT. unfold mapi. rewrite nth_error_mapi_from.
  assert (Hlen : (i < length (a ++ x :: b))%nat)
    by (apply nth_error_Some; congruence).
  rewrite length_app in Hlen. simpl in Hlen.
  set (r := realtimeIndex (Z.of_nat (length a)) t (Z.of_nat i)).
  assert (Hr : 0 <= r).
  { unfold r. realtime_cases. }
  assert (Hin : nth_error (insert_at (Z.to_nat t) x (a ++ b)) (Z.to_nat r)
                = Some y).
  { assert (Hlab : length (a ++ b) = (length a + length b)%nat)
      by apply length_app.
    destruct (Nat.lt_ge_cases i (length a)) as [Hia|Hia].
    - (* before the removal point *)
      rewrite <- (nth_error_without_before a x b i Hia) in Hy.
      destruct (Z.lt_ge_cases (Z.of_nat i) t) as [Hit|Hit].
      + replace (Z.to_nat r) with i.
        * rewrite nth_error_insert_at_before by lia. exact Hy.
        * unfold r. realtime_cases.
      + replace (Z.to_nat r) with (S i).
        * rewrite nth_error_insert_at_after by lia. exact Hy.
        * unfold r. realtime_cases.
    - (* after the removal point *)
      assert (Hi' : (length a <= i - 1)%nat) by lia.
      replace i with (S (i - 1)) in Hy by lia.
      rewrite <- (nth_error_without_after a x b (i - 1) Hi') in Hy.
      destruct (Z.lt_ge_cases (Z.of_nat (i - 1)) t) as [Hit|Hit].
      + replace (Z.to_nat r) with (i - 1)%nat.
        * rewrite nth_error_insert_at_before by lia. exact Hy.
        * unfold r. realtime_cases.
      + replace (Z.to_nat r) with (S (i - 1)).
        * rewrite nth_error_insert_at_after by lia. exact Hy.
        * unfold r. realtime_cases. }
  rewrite Hin. simpl. do 2 f_equal. lia.
Qed.

End Render.
End OrderFacts.

(** ** Cross-panel insertion on the grid page *)

Module InsertFacts.
Import JS JSFacts FabricGrid Spec SpliceFacts ReorderFacts RoundTripFacts
  FrameFacts GestureFacts OrderFacts Props.

Lemma items_insert_at (k : nat) (x : CanvasSquare) (l : list CanvasSquare) :
  items (insert_at k x l) = insert_at k (sq_id x, config x, fabricObject x)
                              (items l).
Proof.
  unfold insert_at, items. rewrite map_app. simpl.
  now rewrite firstn_map, skipn_map.
Qed.

Section Render.
Variables (snap st : State) (src : DragSourceSquare) (ins : Z) (now : string).
Hypothesis Href : fabricCanvasRef st = true.

(** The items of an insertion. *)
Lemma addSquareToCanvas_items_insert :
  exists k : nat,
    (k <= length (canvasSquares snap))%nat /\
    items (canvasSquares (addSquareToCanvas snap src ins now st))
    = insert_at k
        (now +:+ "-" +:+ src_id src,
         config (newSquare src ins now (nextObject st)), nextObject st)
        (items (canvasSquares snap)) /\
    length (canvasSquares (addSquareToCanvas snap src ins now st))
    = S (length (canvasSquares snap)) /\
    nextObject (addSquareToCanvas snap src ins now st) = S (nextObject st) /\
    (0 <= ins <= Z.of_nat (length (canvasSquares snap)) -> k = Z.to_nat ins).
Proof.
  exists (splice_start (canvasSquares snap) ins).
  rewrite canvasSquares_addSquareToCanvas by exact Href.
  fold (newSquare src ins now (nextObject st)).
  split; [apply splice_start_le|]. split; [|split; [|split]].
  - now rewrite items_mapi, splice_insert_insert_at, items_insert_at.
  - unfold mapi. now rewrite length_mapi_from, length_splice_insert.
  - unfold addSquareToCanvas. now rewrite Href.
  - intros H. unfold splice_start.
    destruct (Z.ltb_spec ins 0); lia.
Qed.

(** X7: an insertion adds exactly one square and keeps the others in their
    order, whatever the index; an index in [0, length] is the index of
    the new square. *)
Theorem addSquareToCanvas_inserts_one :
  exists k : nat,
    (k <= length (canvasSquares snap))%nat /\
    items (canvasSquares (addSquareToCanvas snap src ins now st))
    = insert_at k
        (now +:+ "-" +:+ src_id src,
         config (newSquare src ins now (nextObject st)), nextObject st)
        (items (canvasSquares snap)) /\
    length (canvasSquares (addSquareToCanvas snap src ins now st))
    = S (length (canvasSquares snap)) /\
    nextObject (addSquareToCanvas snap src ins now st) = S (nextObject st) /\
    (0 <= ins <= Z.of_nat (length (canvasSquares snap)) -> k = Z.to_nat ins).
Proof. exact addSquareToCanvas_items_insert. Qed.

(** X8: where the squares land: the square at index [i] is found after an
    insertion at [ins] at the index that [makeSpaceForExternalDrag]
    animated it to, and the new square at [ins]. *)
Theorem space_matches_insertion (i : nat) (y : CanvasSquare) (st0 : State) :
  fabricCanvasRef st0 = true ->
  0 <= ins <= Z.of_nat (length (canvasSquares snap)) ->
  nth_error (canvasSquares snap) i = Some y ->
  nth_error
    (canvasSquares (addSquareToCanvas snap src ins now st))
    (Z.to_nat (if ins <=? Z.of_nat i then Z.of_nat i + 1 else Z.of_nat i))
  = Some (set_position y
            (if ins <=? Z.of_nat i then Z.of_nat i + 1 else Z.of_nat i)) /\
  nth_error (canvasSquares (addSquareToCanvas snap src ins now st))
    (Z.to_nat ins)
  = Some (set_position (newSquare src ins now (nextObject st)) ins) /\
  nth_error (drop (length (calls st0))
               (calls (makeSpaceForExternalDrag snap ins st0))) i
  = Some (Animate (fabricObject y)
            (calculateSquarePosition snap
               (if ins <=? Z.of_nat i then Z.of_nat i + 1 else Z.of_nat i)
               (cfg_size (config y))
               (Some (Z.of_nat (length (canvasSquares snap)) + 1)))
            getVerticalCenterPosition 150).
Proof.
  intros Href0 Hins Hy.
  rewrite canvasSquares_addSquareToCanvas by exact Href.
  fold (newSquare src ins now (nextObject st)).
  assert (HT : splice_insert (canvasSquares snap) ins
                 (newSquare src ins now (nextObject st))
               = insert_at (Z.to_nat ins)
                   (newSquare src ins now (nextObject st))
                   (canvasSquares snap)).
  { rewrite <- (Z2Nat.id ins) at 1 by lia.
    apply splice_insert_in_range. lia. }
  rewrite HT. unfold mapi. rewrite !nth_error_mapi_from.
  split; [|split].
  - destruct (Z.leb_spec ins (Z.of_nat i)).
    + replace (Z.to_nat (Z.of_nat i + 1)) with (S i) by lia.
      rewrite nth_error_insert_at_after, Hy by lia.
      cbn [option_map]; f_equal; f_equal; lia.
    + rewrite Nat2Z.id, nth_error_insert_at_before, Hy by lia.
      cbn [option_map]; f_equal; f_equal; lia.
  - rewrite nth_error_insert_at by lia. cbn [option_map]; f_equal; f_equal; lia.
  - unfold makeSpaceForExternalDrag. rewrite Href0.
    destruct (Z.ltb_spec ins 0); [lia|]. simpl orb. cbv iota.
    unfold emit. simpl calls. rewrite drop_app_length.
    unfold mapi, squares_length, squares.
    rewrite nth_error_mapi_from, Hy. simpl. reflexivity.
Qed.

End Render.

(** X9: the first drop: a source square dragged onto the empty canvas and
    released anywhere on it becomes the only square, at position 0,
    and the drag cells are reset. *)
Theorem first_drop_on_empty_canvas (st : State) (canvasRect : DOMRect)
    (src : DragSourceSquare) (x y : Q) (now : string) :
  canvasSquares st = [] -> canvasRef st = Some canvasRect ->
  fabricCanvasRef st = true -> ~ outside_canvas canvasRect x y ->
  canvasSquares (run st [ExternalDragStart src; ExternalDrop x y now])
  = [newSquare src 0 now (nextObject st)] /\
  isExternalDragging (run st [ExternalDragStart src; ExternalDrop x y now])
  = false /\
  draggedSourceSquare (run st [ExternalDragStart src; ExternalDrop x y now])
  = None /\
  dragOverIndex (run st [ExternalDragStart src; ExternalDrop x y now]) = -1.
Proof.
  intros Hsq Href Hfab Hin. unfold run. cbn [fold_left dispatch].
  set (st1 := handleExternalDragStart src st).
  assert (Hidx : calculateInsertIndex st1 (canvasRef st1) x y (src_size src)
                 = 0).
  { pose proof (calculateInsertIndex_inside st1 canvasRect x y (src_size src)
                  Hin) as H.
    unfold squares_length, squares in H.
    change (canvasSquares st1) with (canvasSquares st) in H.
    rewrite Hsq in H. cbn [length Z.of_nat] in H.
    change (canvasRef st1) with (canvasRef st). rewrite Href. lia. }
  unfold handleExternalDrop.
  change (isExternalDragging st1) with true.
  change (draggedSourceSquare st1) with (Some src).
  cbv beta iota zeta. rewrite Hidx. simpl (0 <=? 0). cbv iota.
  split; [|apply handleExternalDragEnd_cells].
  rewrite canvasSquares_handleExternalDragEnd.
  change (0 <=? 0) with true. cbv iota.
  rewrite canvasSquares_addSquareToCanvas by exact Hfab.
  change (canvasSquares st1) with (canvasSquares st). rewrite Hsq.
  reflexivity.
Qed.

End InsertFacts.



(** ** Canvas objects along a run of the grid page *)

Module HandleFacts.
Import JS JSFacts FabricGrid Spec SpliceFacts ReorderFacts RoundTripFacts
  FrameFacts GestureFacts OrderFacts InsertFacts Props.

Lemma objects_of_items (l : list CanvasSquare) :
  map fabricObject l = map snd (items l).
Proof. unfold items. rewrite map_map. reflexivity. Qed.

Lemma nextObject_rearrangeSquares snap anim sqs st :
  nextObject (rearrangeSquares snap anim sqs st) = nextObject st.
Proof. unfold rearrangeSquares. frame. Qed.

Lemma nextObject_handleExternalDragEnd snap st :
  nextObject (handleExternalDragEnd snap st) = nextObject st.
Proof. unfold handleExternalDragEnd, rearrangeSquares. frame. Qed.

Lemma nextObject_updateSquareOrder snap st d t :
  nextObject (snd (updateSquareOrder snap d t st)) = nextObject st.
Proof. unfold updateSquareOrder. frame. Qed.

Lemma grid_hover_nextObject st ev :
  grid_hover ev = true -> nextObject (dispatch st ev) = nextObject st.
Proof.
  destruct ev; try discriminate; intros _; simpl;
    unfold handleMouseDown, handleMouseUp, handleObjectMoving,
      updateSquarePositionsRealtime, handleExternalDragMove,
      makeSpaceForExternalDrag, rearrangeSquares;
    frame.
Qed.

Lemma handles_fresh_frame st st' :
  canvasSquares st' = canvasSquares st -> nextObject st' = nextObject st ->
  handles_fresh st -> handles_fresh st'.
Proof. unfold handles_fresh. now intros -> ->. Qed.

Lemma handles_fresh_updateSquareOrder st d t :
  handles_fresh st -> handles_fresh (snd (updateSquareOrder st d t st)).
Proof.
  intros [Hnd Hlt].
  destruct (updateSquareOrder_items_perm st st d t) as (Hp & _ & Hs).
  destruct Hs as [->| Hs]; [now split|].
  unfold handles_fresh.
  rewrite nextObject_updateSquareOrder, Hs, !objects_of_items in *.
  assert (Hperm : Permutation
            (map snd (items (fst (updateSquareOrder st d t st))))
            (map snd (items (canvasSquares st))))
    by now apply Permutation_map.
  split.
  - eapply Permutation_NoDup; [symmetry; exact Hperm|exact Hnd].
  - rewrite Hperm. exact Hlt.
Qed.

Lemma handles_fresh_addSquareToCanvas st src ins now :
  handles_fresh st -> handles_fresh (addSquareToCanvas st src ins now st).
Proof.
  intros [Hnd Hlt]. destruct (fabricCanvasRef st) eqn:Href.
  2:{ unfold addSquareToCanvas. rewrite Href. now split. }
  destruct (addSquareToCanvas_items_insert st st src ins now Href)
    as (k & _ & Hitems & _ & Hnext & _).
  unfold handles_fresh.
  rewrite Hnext, !objects_of_items, Hitems in *.
  assert (Hperm : Permutation
            (map snd
               (insert_at k
                  (now +:+ "-" +:+ src_id src,
                   config (newSquare src ins now (nextObject st)),
                   nextObject st) (items (canvasSquares st))))
            (nextObject st :: map snd (items (canvasSquares st)))).
  { rewrite insert_at_perm. reflexivity. }
  split.
  - eapply Permutation_NoDup; [symmetry; exact Hperm|].
    constructor; [|exact Hnd].
    intros Hin. rewrite List.Forall_forall in Hlt.
    specialize (Hlt _ Hin). lia.
  - rewrite Hperm. constructor; [lia|].
    eapply Forall_impl; [exact Hlt|]. simpl. intros. lia.
Qed.

(** Every handler keeps the canvas objects of the squares distinct. *)
Lemma handles_fresh_dispatch st ev :
  handles_fresh st -> handles_fresh (dispatch st ev).
Proof.
  intros H.
  destruct (grid_hover ev) eqn:Hev.
  { apply (handles_fresh_frame st); [|now apply grid_hover_nextObject|exact H].
    now apply grid_hover_frame. }
  destruct ev; try discriminate; simpl.
  - unfold handleObjectModified. destruct (draggedSquare st); [|exact H].
    destruct (updateSquareOrder st c _ st) as [newSquares st'] eqn:E.
    apply (handles_fresh_frame st');
      [apply canvasSquares_rearrangeSquares
      |apply nextObject_rearrangeSquares|].
    change st' with (snd (newSquares, st')). rewrite <- E.
    now apply handles_fresh_updateSquareOrder.
  - exact H.
  - unfold handleExternalDrop.
    destruct (isExternalDragging st); [|exact H].
    destruct (draggedSourceSquare st); [|exact H].
    eapply handles_fresh_frame;
      [apply canvasSquares_handleExternalDragEnd
      |apply nextObject_handleExternalDragEnd|].
    destruct (0 <=? _); [|exact H].
    now apply handles_fresh_addSquareToCanvas.
  - eapply handles_fresh_frame;
      [apply canvasSquares_handleExternalDragEnd
      |apply nextObject_handleExternalDragEnd|exact H].
Qed.

(** X10: along any run the squares keep canvas objects of their own, so a
    press on an object finds the one square that owns it. *)
Theorem handles_stay_distinct (st : State) (evs : list Event)
    (s : CanvasSquare) :
  handles_fresh st ->
  handles_fresh (run st evs) /\
  (In s (canvasSquares (run st evs)) ->
   findByObject (run st evs) (fabricObject s) = Some s).
Proof.
  intros H.
  assert (Hrun : handles_fresh (run st evs)).
  { revert st H. induction evs as [|ev evs IH]; intros st H; [exact H|].
    simpl. apply IH, handles_fresh_dispatch, H. }
  split; [exact Hrun|].
  destruct Hrun as [Hnd _]. unfold findByObject, squares.
  induction (canvasSquares (run st evs)) as [|y l IH]; intros Hin; [easy|].
  simpl in *. inversion Hnd as [|? ? Hy Hnd']; subst.
  destruct Hin as [->|Hin]; [now rewrite Nat.eqb_refl|].
  destruct (Nat.eqb_spec (fabricObject y) (fabricObject s)) as [E|E].
  - exfalso. apply Hy. rewrite E. now apply in_map.
  - now apply IH.
Qed.

End HandleFacts.

Module EdgeFacts.
Import JS JSFacts FabricGrid Spec SpliceFacts ReorderFacts RoundTripFacts
  FrameFacts GestureFacts OrderFacts.

(** X5: a target index outside [0, length-1], which the callers never
    pass, is treated as [splice] treats it: past the end the square
    goes last, below zero it is counted back from the end. *)
Theorem updateSquareOrder_out_of_range (snap st : State) (d x : CanvasSquare)
    (t : Z) :
  findIndex (same_id d) (canvasSquares snap) <> -1 ->
  nth_error (canvasSquares snap)
    (Z.to_nat (findIndex (same_id d) (canvasSquares snap))) = Some x ->
  findIndex (same_id d) (canvasSquares snap) <> t ->
  (Z.of_nat (length (canvasSquares snap)) - 1 <= t ->
   nth_error (fst (updateSquareOrder snap d t st))
     (length (canvasSquares snap) - 1)
   = Some (set_position x (Z.of_nat (length (canvasSquares snap)) - 1))) /\
  (t < 0 ->
   nth_error (fst (updateSquareOrder snap d t st))
     (Z.to_nat (Z.max (Z.of_nat (length (canvasSquares snap)) - 1 + t) 0))
   = Some (set_position x
             (Z.max (Z.of_nat (length (canvasSquares snap)) - 1 + t) 0))).
Proof.
  intros Hc Hx Ht.
  destruct (findIndex_split _ _ Hc) as (a & x' & b & Eq & Ha & Hx' & Hi).
  rewrite Hi, Nat2Z.id, Eq, nth_error_middle in Hx.
  injection Hx as ->.
  rewrite (updateSquareOrder_moved snap st d t a x b Eq Ha Hx') by lia.
  simpl fst. rewrite Eq, splice_insert_insert_at. unfold mapi.
  assert (Hlen : length (a ++ x :: b) = S (length (a ++ b))).
  { rewrite !length_app. simpl. lia. }
  rewrite Hlen.
  pose proof (splice_start_le (a ++ b) t) as Hk.
  split; intros Hrange.
  - replace (S (length (a ++ b)) - 1)%nat with (splice_start (a ++ b) t).
    + rewrite nth_error_mapi_from, nth_error_insert_at by exact Hk.
      cbn [option_map]. f_equal. f_equal. unfold splice_start.
      destruct (Z.ltb_spec t 0); lia.
    + unfold splice_start. destruct (Z.ltb_spec t 0); lia.
  - replace (Z.to_nat (Z.max (Z.of_nat (S (length (a ++ b))) - 1 + t) 0))
      with (splice_start (a ++ b) t).
    + rewrite nth_error_mapi_from, nth_error_insert_at by exact Hk.
      cbn [option_map]. f_equal. f_equal. unfold splice_start.
      destruct (Z.ltb_spec t 0); lia.
    + unfold splice_start. destruct (Z.ltb_spec t 0); [|lia].
      f_equal. lia.
Qed.

Lemma clamp_into (lo hi x : Q) :
  (lo <= hi)%Q ->
  (lo <= maxQ lo (minQ hi x))%Q /\ (maxQ lo (minQ hi x) <= hi)%Q /\
  ((lo <= x)%Q -> (x <= hi)%Q -> (maxQ lo (minQ hi x) == x)%Q).
Proof.
  intros H. unfold maxQ, minQ.
  destruct (Qle_bool hi x) eqn:E1; [apply Qle_bool_iff in E1|].
  - destruct (Qle_bool lo hi) eqn:E2.
    + repeat split; try lra.
    + exfalso. apply Qle_bool_iff in H. congruence.
  - assert (x < hi)%Q.
    { apply Qnot_le_lt. intros C. apply Qle_bool_iff in C. congruence. }
    destruct (Qle_bool lo x) eqn:E2; [apply Qle_bool_iff in E2|].
    + repeat split; lra.
    + assert (x < lo)%Q.
      { apply Qnot_le_lt. intros C. apply Qle_bool_iff in C. congruence. }
      repeat split; lra.
Qed.

(** X11: while it is dragged, a square is kept on the canvas: the left
    edge set on the object lies in [0, CANVAS_WIDTH - width], it is
    the dragged position when that one is in range, and the preview is
    computed from it. *)
Theorem moving_object_stays_on_canvas (snap st : State) (obj : nat)
    (x w : Q) (d : CanvasSquare) :
  fabricCanvasRef st = true -> draggedSquare snap = Some d ->
  (w <= CANVAS_WIDTH)%Q ->
  exists L : Q,
    (0 <= L)%Q /\ (L <= CANVAS_WIDTH - w)%Q /\
    ((0 <= x)%Q -> (x <= CANVAS_WIDTH - w)%Q -> (L == x)%Q) /\
    calls (handleObjectMoving snap obj x w st)
    = calls st
      ++ SetLeftTop obj L getVerticalCenterPosition
         :: previewMoves snap
              (calculateTargetIndex snap L (cfg_size (config d)) None) d.
Proof.
  intros Href Hd Hw. exists (maxQ 0 (minQ (CANVAS_WIDTH - w) x)).
  destruct (clamp_into 0 (CANVAS_WIDTH - w) x) as (H1 & H2 & H3); [lra|].
  repeat split; try assumption.
  unfold handleObjectMoving. rewrite Href, Hd.
  rewrite updateSquarePositionsRealtime_emit.
  destruct (isDragging snap); simpl; now rewrite <- app_assoc.
Qed.

End EdgeFacts.

(** ** Drops on the sort page *)

Module DropFacts.
Import JS JSFacts SortPage Spec SpliceFacts SortFacts OrderFacts.

Lemma item_same_id_true (dragged item : SquareItem) :
  same_id dragged item = true <-> id item = id dragged.
Proof. apply String.eqb_eq. Qed.

(** With distinct identifiers, taking [x] out of a list that holds it
    removes exactly one item. *)
Lemma filter_out_one (x : SquareItem) (l : list SquareItem) :
  List.NoDup (map id l) -> In x l ->
  Permutation l (x :: List.filter (fun item => negb (same_id x item)) l).
Proof.
  induction l as [|y l IH]; intros Hnd Hin; [easy|].
  simpl in Hnd. inversion Hnd as [|? ? Hy Hnd']; subst.
  destruct Hin as [->|Hin].
  - simpl. rewrite same_id_refl. simpl. constructor.
    rewrite (List.forallb_filter_id _ l); [reflexivity|].
    apply forallb_forall. intros z Hz. apply negb_true_iff.
    destruct (same_id x z) eqn:E; [|reflexivity].
    exfalso. apply Hy. apply item_same_id_true in E. rewrite <- E.
    now apply in_map.
  - simpl. destruct (same_id x y) eqn:E.
    + exfalso. apply Hy. apply item_same_id_true in E. rewrite E.
      now apply in_map.
    + simpl. rewrite perm_swap. constructor. now apply IH.
Qed.

Section Render.
Variables (snap st : State) (dragged : SquareItem) (clientX : Q).
Hypothesis Hdragged : draggedItem (dragState snap) = Some dragged.

(** A drop is decided by the index clamped to [0, length]. *)
Lemma handleDrop_clamped (ins : Z) :
  handleDrop snap clientX (Some ins) st =
  handleDrop snap clientX
    (Some (JS.max 0 (JS.min ins (Z.of_nat (length (rightItems snap)))))) st.
Proof.
  unfold handleDrop. rewrite Hdragged. cbv zeta.
  set (len := Z.of_nat (length (rightItems snap))).
  replace (JS.max 0 (JS.min (JS.max 0 (JS.min ins len)) len))
    with (JS.max 0 (JS.min ins len)); [reflexivity|].
  unfold JS.max, JS.min. lia.
Qed.

Lemma handleDrop_from_left (ins : Z) :
  sourceArea (dragState snap) = left_area ->
  rightItems (handleDrop snap clientX (Some ins) st)
  = splice_insert (rightItems st)
      (JS.max 0 (JS.min ins (Z.of_nat (length (rightItems snap))))) dragged /\
  leftItems (handleDrop snap clientX (Some ins) st)
  = List.filter (fun item => negb (same_id dragged item)) (leftItems st) /\
  dragState (handleDrop snap clientX (Some ins) st) = noDrag /\
  draggingItem (handleDrop snap clientX (Some ins) st) = None /\
  insertPosition (handleDrop snap clientX (Some ins) st) = None /\
  dragOverIndex (handleDrop snap clientX (Some ins) st) = None.
Proof.
  intros Harea. unfold handleDrop. rewrite Hdragged, Harea.
  cbv zeta. simpl. repeat split.
Qed.

(** X13: a drop from the left panel puts the item into the right panel at
    the target index: first for an index of at most 0, last for an
    index of at least the length, at the index otherwise; it leaves
    the left panel without the item and ends the drag. *)
Theorem drop_from_left_panel (ins : Z) :
  sourceArea (dragState snap) = left_area ->
  rightItems st = rightItems snap ->
  (ins <= 0 ->
   rightItems (handleDrop snap clientX (Some ins) st)
   = dragged :: rightItems snap) /\
  (Z.of_nat (length (rightItems snap)) <= ins ->
   rightItems (handleDrop snap clientX (Some ins) st)
   = rightItems snap ++ [dragged]) /\
  (0 <= ins <= Z.of_nat (length (rightItems snap)) ->
   rightItems (handleDrop snap clientX (Some ins) st)
   = insert_at (Z.to_nat ins) dragged (rightItems snap)) /\
  Forall (fun item => id item <> id dragged)
    (leftItems (handleDrop snap clientX (Some ins) st)) /\
  dragState (handleDrop snap clientX (Some ins) st) = noDrag /\
  draggingItem (handleDrop snap clientX (Some ins) st) = None.
Proof.
  intros Harea Est.
  destruct (handleDrop_from_left ins Harea) as (Hr & Hl & Hd & Hg & _).
  rewrite Hr, Hl, Est. unfold JS.max, JS.min.
  set (len := Z.of_nat (length (rightItems snap))).
  assert (Hin : forall k : nat, (k <= length (rightItems snap))%nat ->
            splice_insert (rightItems snap) (Z.of_nat k) dragged
            = insert_at k dragged (rightItems snap))
    by (intros; now apply splice_insert_in_range).
  repeat split; try assumption.
  - intros H. replace (Z.max 0 (Z.min ins len)) with (Z.of_nat 0) by lia.
    now rewrite Hin by lia.
  - intros H.
    replace (Z.max 0 (Z.min ins len))
      with (Z.of_nat (length (rightItems snap))) by lia.
    rewrite Hin by lia. unfold insert_at.
    now rewrite firstn_all, skipn_all.
  - intros H.
    replace (Z.max 0 (Z.min ins len)) with (Z.of_nat (Z.to_nat ins)) by lia.
    now rewrite Hin by lia.
  - apply List.Forall_forall. intros item Hitem.
    apply filter_In in Hitem. destruct Hitem as [_ Hne].
    apply negb_true_iff in Hne. intros E.
    apply item_same_id_true in E. congruence.
Qed.

(** X14: a drop from the left panel moves the item and nothing else: with
    distinct identifiers on the left, the two panels together hold
    the same items as before. *)
Theorem drop_from_left_keeps_items (ins : Z) :
  sourceArea (dragState snap) = left_area ->
  List.NoDup (map id (leftItems st)) -> In dragged (leftItems st) ->
  Permutation
    (leftItems (handleDrop snap clientX (Some ins) st)
     ++ rightItems (handleDrop snap clientX (Some ins) st))
    (leftItems st ++ rightItems st) /\
  length (rightItems (handleDrop snap clientX (Some ins) st))
  = S (length (rightItems st)).
Proof.
  intros Harea Hnd Hin.
  destruct (handleDrop_from_left ins Harea) as (Hr & Hl & _).
  rewrite Hr, Hl. split; [|apply length_splice_insert].
  rewrite splice_insert_insert_at, insert_at_perm.
  rewrite (filter_out_one dragged (leftItems st) Hnd Hin) at 2.
  simpl. now rewrite Permutation_middle.
Qed.

End Render.
End DropFacts.

Module PanelFacts.
Import JS JSFacts SortPage Spec SpliceFacts SortFacts OrderFacts DropFacts.

Section Render.
Variables (snap st : State) (dragged : SquareItem) (clientX : Q).
Hypothesis Hdragged : draggedItem (dragState snap) = Some dragged.
Hypothesis Harea : sourceArea (dragState snap) = right_area.

(** X15: a drop within the right panel, at any index, rearranges the panel
    without losing or repeating an item and leaves the left panel
    alone. *)
Theorem drop_within_right_keeps_items (ins : Z) (a b : list SquareItem) :
  rightItems snap = a ++ dragged :: b ->
  rightItems st = rightItems snap ->
  Forall (fun y => same_id dragged y = false) a ->
  Permutation (rightItems (handleDrop snap clientX (Some ins) st))
    (rightItems st) /\
  leftItems (handleDrop snap clientX (Some ins) st) = leftItems st.
Proof.
  intros E Est Ha. rewrite (handleDrop_clamped snap st dragged clientX
                              Hdragged ins).
  set (k := JS.max 0 (JS.min ins (Z.of_nat (length (rightItems snap))))).
  assert (Hk : 0 <= k <= Z.of_nat (length (rightItems snap)))
    by (unfold k, JS.max, JS.min; lia).
  assert (Hc : findIndex (same_id dragged) (rightItems snap)
               = Z.of_nat (length a)).
  { rewrite E. apply findIndex_app; [exact Ha|apply same_id_refl]. }
  destruct (Z.eq_dec k (Z.of_nat (length a))) as [H1|H1];
    [|destruct (Z.eq_dec k (Z.of_nat (length a) + 1)) as [H2|H2]].
  - rewrite (handleDrop_same_slot snap st dragged clientX Hdragged Harea k)
      by (rewrite Hc; lia). now split.
  - rewrite (handleDrop_same_slot snap st dragged clientX Hdragged Harea k)
      by (rewrite Hc; lia). now split.
  - split.
    + rewrite (handleDrop_moved snap st dragged clientX Hdragged Harea
                 a b k E Est Ha Hk H1 H2).
      rewrite insert_at_perm, Est, E. apply Permutation_middle.
    + unfold handleDrop. rewrite Hdragged, Harea. cbv zeta. fold k.
      replace (JS.max 0 (JS.min k (Z.of_nat (length (rightItems snap)))))
        with k by (unfold JS.max, JS.min; lia).
      rewrite Hc.
      destruct (Z.eqb_spec (Z.of_nat (length a)) k); [lia|].
      destruct (Z.eqb_spec (Z.of_nat (length a)) (k - 1)); [lia|].
      simpl orb. cbv iota. simpl negb. cbv iota.
      destruct (Z.eqb_spec (Z.of_nat (length a)) (-1)); [lia|].
      reflexivity.
Qed.

(** X16: dropping an item on the slot right after its own is no move
    either: both panels stay as they are and the drag state is
    reset. *)
Theorem drop_after_itself_noop :
  findIndex (same_id dragged) (rightItems snap) <> -1 ->
  rightItems
    (handleDrop snap clientX
       (Some (findIndex (same_id dragged) (rightItems snap) + 1)) st)
  = rightItems st /\
  leftItems
    (handleDrop snap clientX
       (Some (findIndex (same_id dragged) (rightItems snap) + 1)) st)
  = leftItems st /\
  dragState
    (handleDrop snap clientX
       (Some (findIndex (same_id dragged) (rightItems snap) + 1)) st)
  = noDrag.
Proof.
  intros Hc.
  rewrite (handleDrop_same_slot snap st dragged clientX Hdragged Harea)
    by auto.
  now repeat split.
Qed.

(** X17: when the dragged item is said to come from the right panel and
    is not in it, nothing moves, but the handler returns before it
    resets the drag: the drag state stays and the animation flags are
    left on. *)
Theorem drop_of_missing_item (ins : Z) :
  findIndex (same_id dragged) (rightItems snap) = -1 ->
  rightItems (handleDrop snap clientX (Some ins) st) = rightItems st /\
  leftItems (handleDrop snap clientX (Some ins) st) = leftItems st /\
  dragState (handleDrop snap clientX (Some ins) st) = dragState st /\
  draggingItem (handleDrop snap clientX (Some ins) st) = draggingItem st /\
  isAnimating (handleDrop snap clientX (Some ins) st) = true /\
  isAreaAnimating (handleDrop snap clientX (Some ins) st) = true.
Proof.
  intros Hc. unfold handleDrop. rewrite Hdragged, Harea. cbv zeta.
  rewrite Hc. unfold JS.max, JS.min.
  set (k := Z.max 0 (Z.min ins (Z.of_nat (length (rightItems snap))))).
  assert (0 <= k) by (unfold k; lia).
  destruct (Z.eqb_spec (-1) k); [lia|].
  destruct (Z.eqb_spec (-1) (k - 1)); simpl.
  - destruct (Z.ltb_spec 0 k); [lia|]. simpl. now repeat split.
  - now repeat split.
Qed.

End Render.
End PanelFacts.

(** ** The positions recorded for the animation of a drop *)

Module PositionMapFacts.
Import JS JSFacts SortPage Spec SpliceFacts SortFacts OrderFacts DropFacts
  Props.

Section Fold.
Variable f : Z -> option Z.

Lemma fold_record_other (l : list SquareItem) : forall (i : Z) m (key : string),
  Forall (fun z => id z <> key) l ->
  fold_left (record f) (mapi_from (fun item idx => (item, idx)) l i) m !! key
  = m !! key.
Proof.
  induction l as [|y l IH]; intros i m key H; [reflexivity|].
  inversion H as [|? ? Hy Hl]; subst. simpl.
  rewrite IH by exact Hl. unfold record. simpl.
  destruct (f i); [|reflexivity].
  now rewrite lookup_insert_ne.
Qed.

Lemma fold_record_at (l : list SquareItem) : forall (i : Z) m (n : nat) z v,
  List.NoDup (map id l) -> nth_error l n = Some z ->
  f (i + Z.of_nat n) = Some v ->
  fold_left (record f) (mapi_from (fun item idx => (item, idx)) l i) m !! id z
  = Some v.
Proof.
  induction l as [|y l IH]; intros i m n z v Hnd Hn Hv; [now destruct n|].
  simpl in Hnd. inversion Hnd as [|? ? Hy Hnd']; subst.
  destruct n as [|n]; simpl in *.
  - injection Hn as ->. rewrite fold_record_other.
    + unfold record. simpl. rewrite Z.add_0_r in Hv. rewrite Hv.
      apply lookup_insert_eq.
    + apply List.Forall_forall. intros w Hw E. apply Hy. rewrite <- E.
      now apply in_map.
  - apply (IH (i + 1) _ n z v Hnd' Hn).
    rewrite <- Hv. f_equal. lia.
Qed.

End Fold.

Section Render.
Variables (snap st : State) (dragged : SquareItem) (clientX : Q).
Hypothesis Hdragged : draggedItem (dragState snap) = Some dragged.
Hypothesis Harea : sourceArea (dragState snap) = left_area.
Hypothesis Est : rightItems st = rightItems snap.
Hypothesis Hnd : List.NoDup (map id (rightItems snap)).
Hypothesis Hnew : Forall (fun z => id z <> id dragged) (rightItems snap).

Lemma itemPositions_from_left (ins : Z) :
  itemPositions (handleDrop snap clientX (Some ins) st)
  = <[id dragged :=
        JS.max 0 (JS.min ins (Z.of_nat (length (rightItems snap))))]>
      (fold_left
         (record
            (newPositionOf snap left_area dragged
               (JS.max 0 (JS.min ins (Z.of_nat (length (rightItems snap)))))))
         (mapi (fun item idx => (item, idx)) (rightItems snap)) ∅).
Proof.
  unfold handleDrop. rewrite Hdragged, Harea. cbv zeta. reflexivity.
Qed.

(** X18: after a drop from the left panel the positions recorded for the
    animation are the indices the items have in the right panel: the
    item found at index [n] is recorded at [n]. *)
Theorem recorded_positions_match (ins : Z) (n : nat) (z : SquareItem) :
  nth_error (rightItems (handleDrop snap clientX (Some ins) st)) n = Some z ->
  itemPositions (handleDrop snap clientX (Some ins) st) !! id z
  = Some (Z.of_nat n).
Proof.
  destruct (handleDrop_from_left snap st dragged clientX Hdragged ins Harea)
    as (Hr & _).
  rewrite Hr, Est, itemPositions_from_left.
  set (k := JS.max 0 (JS.min ins (Z.of_nat (length (rightItems snap))))).
  assert (Hk : 0 <= k <= Z.of_nat (length (rightItems snap)))
    by (unfold k, JS.max, JS.min; lia).
  rewrite <- (Z2Nat.id k) at 1 by lia.
  rewrite splice_insert_in_range by lia.
  intros Hz.
  destruct (Nat.lt_trichotomy n (Z.to_nat k)) as [Hlt|[Heq|Hgt]].
  - rewrite nth_error_insert_at_before in Hz by lia.
    rewrite lookup_insert_ne.
    + apply (fold_record_at _ _ 0 _ n z); [exact Hnd|exact Hz|].
      unfold newPositionOf. destruct (Z.leb_spec k (0 + Z.of_nat n)); [lia|].
      f_equal; lia.
    + rewrite List.Forall_forall in Hnew. intros E. symmetry in E.
      revert E. apply Hnew. eapply nth_error_In, Hz.
  - subst n. rewrite nth_error_insert_at in Hz by lia. injection Hz as <-.
    rewrite lookup_insert_eq. f_equal. lia.
  - destruct n as [|n]; [lia|].
    rewrite nth_error_insert_at_after in Hz by lia.
    rewrite lookup_insert_ne.
    + apply (fold_record_at _ _ 0 _ n z); [exact Hnd|exact Hz|].
      unfold newPositionOf. destruct (Z.leb_spec k (0 + Z.of_nat n)); [|lia].
      f_equal; lia.
    + rewrite List.Forall_forall in Hnew. intros E. symmetry in E.
      revert E. apply Hnew. eapply nth_error_In, Hz.
Qed.

End Render.
End PositionMapFacts.

Module MovedItemFacts.
Import JS JSFacts SortPage Spec SpliceFacts SortFacts OrderFacts DropFacts.

Section Render.
Variables (snap st : State) (dragged : SquareItem) (clientX : Q).
Hypothesis Hdragged : draggedItem (dragState snap) = Some dragged.
Hypothesis Harea : sourceArea (dragState snap) = right_area.

(** X19: a move within the right panel records the dragged item at the
    insertion point; the item lands there when it moves to the left,
    and one slot before it when it moves to the right. *)
Theorem recorded_position_of_moved_item (ins : Z) (a b : list SquareItem) :
  rightItems snap = a ++ dragged :: b ->
  rightItems st = rightItems snap ->
  Forall (fun y => same_id dragged y = false) a ->
  0 <= ins <= Z.of_nat (length (rightItems snap)) ->
  ins <> Z.of_nat (length a) -> ins <> Z.of_nat (length a) + 1 ->
  itemPositions (handleDrop snap clientX (Some ins) st) !! id dragged
  = Some ins /\
  (ins < Z.of_nat (length a) ->
   nth_error (rightItems (handleDrop snap clientX (Some ins) st))
     (Z.to_nat ins) = Some dragged) /\
  (Z.of_nat (length a) < ins ->
   nth_error (rightItems (handleDrop snap clientX (Some ins) st))
     (Z.to_nat (ins - 1)) = Some dragged).
Proof.
  intros E Est Ha Hins H1 H2.
  rewrite (handleDrop_moved snap st dragged clientX Hdragged Harea
             a b ins E Est Ha Hins H1 H2).
  assert (Hlen : Z.of_nat (length (rightItems snap))
                 = Z.of_nat (length (a ++ b)) + 1).
  { rewrite E, !length_app. simpl. lia. }
  pose proof (length_app a b) as Hab.
  split; [|split].
  - assert (Hc : findIndex (same_id dragged) (rightItems snap)
                 = Z.of_nat (length a)).
    { rewrite E. apply findIndex_app; [exact Ha|apply same_id_refl]. }
    unfold handleDrop. rewrite Hdragged, Harea. cbv zeta. rewrite !Hc.
    unfold JS.max, JS.min.
    replace (Z.max 0 (Z.min ins (Z.of_nat (length (rightItems snap)))))
      with ins by lia.
    destruct (Z.eqb_spec (Z.of_nat (length a)) ins); [lia|].
    destruct (Z.eqb_spec (Z.of_nat (length a)) (ins - 1)); [lia|].
    simpl orb. cbv iota. simpl negb. cbv iota.
    destruct (Z.eqb_spec (Z.of_nat (length a)) (-1)); [lia|].
    simpl. apply lookup_insert_eq.
  - intros H. destruct (Z.ltb_spec (Z.of_nat (length a)) ins); [lia|].
    apply nth_error_insert_at. lia.
  - intros H. destruct (Z.ltb_spec (Z.of_nat (length a)) ins); [|lia].
    apply nth_error_insert_at. lia.
Qed.

End Render.
End MovedItemFacts.



Module HoverFacts.
Import JS JSFacts SortPage Spec SpliceFacts SortFacts OrderFacts DropFacts
  Props.

Lemma Qle_bool_false (a b : Q) : Qle_bool a b = false <-> (b < a)%Q.
Proof.
  split; intros H.
  - apply Qnot_le_lt. intros C. apply Qle_bool_iff in C. congruence.
  - destruct (Qle_bool a b) eqn:E; [|reflexivity].
    apply Qle_bool_iff in E. exfalso. apply (Qlt_not_le _ _ H E).
Qed.

(** The scan stops at the first index whose boundary is at or right of
    the pointer, and at the last index otherwise. *)
Lemma scanInsertAt_first (x startX w sp : Q) (len : Z) (fuel : nat) :
  forall i : Z,
    0 <= i <= len -> Z.of_nat fuel = len - i + 1 ->
    let r := scanInsertAt x startX w sp len i fuel in
    i <= r <= len /\
    (forall j, i <= j < r ->
       (startX + inject_Z j * w - sp / 2 < x)%Q) /\
    (r < len -> (x <= startX + inject_Z r * w - sp / 2)%Q).
Proof.
  induction fuel as [|fuel IH]; intros i Hi Hf; [lia|].
  simpl. destruct (Qle_bool x _) eqn:E.
  - apply Qle_bool_iff in E. repeat split; try lia. intros _. exact E.
  - apply Qle_bool_false in E.
    destruct (Z.eqb_spec i len) as [->|Hne].
    + repeat split; lia.
    + destruct (IH (i + 1)) as (H1 & H2 & H3); [lia|lia|].
      repeat split; try lia; [|exact H3].
      intros j Hj. destruct (Z.eq_dec j i) as [->|]; [exact E|].
      apply H2. lia.
Qed.

Section Render.
Variables (snap st : State) (clientX : Q) (rect : DOMRect).

(** X20: hovering over the background of the right panel: the insertion
    mark is put at an index in [0, length], the first one whose
    boundary is at or right of the pointer, or the length if there is
    none; on an empty panel it is 0.  Only the mark changes. *)
Theorem panel_hover_position :
  exists k : Z,
    insertPosition (handleDragOver snap clientX rect None st) = Some k /\
    0 <= k <= Z.of_nat (length (rightItems snap)) /\
    (forall j, 0 <= j < k ->
       (elementCenter (rect_width rect)
          (Z.of_nat (length (rightItems snap))) j
        < clientX - rect_left rect)%Q) /\
    (k < Z.of_nat (length (rightItems snap)) ->
     (clientX - rect_left rect
      <= elementCenter (rect_width rect)
           (Z.of_nat (length (rightItems snap))) k)%Q) /\
    rightItems (handleDragOver snap clientX rect None st) = rightItems st /\
    leftItems (handleDragOver snap clientX rect None st) = leftItems st /\
    dragState (handleDragOver snap clientX rect None st) = dragState st.
Proof.
  unfold handleDragOver.
  destruct (Z.eqb_spec (Z.of_nat (length (rightItems snap))) 0) as [E|E].
  - exists 0. rewrite E. repeat split; try reflexivity; lia.
  - cbv zeta.
    set (len := Z.of_nat (length (rightItems snap))) in *.
    set (startX := ((rect_width rect - (inject_Z len * (80 + 16) - 16)) / 2)%Q).
    destruct (scanInsertAt_first (clientX - rect_left rect) startX (80 + 16)
                16 len (S (length (rightItems snap))) 0)
      as (H1 & H2 & H3); [lia|lia|].
    eexists. split; [reflexivity|].
    repeat split; try reflexivity; try lia.
    + intros j Hj. apply (H2 j Hj).
    + intros Hk. apply (H3 Hk).
Qed.

End Render.
End HoverFacts.

Module ZoneFacts.
Import JS JSFacts SortPage Spec SpliceFacts SortFacts OrderFacts DropFacts
  HoverFacts.

Section Render.
Variables (snap st : State) (dragged : SquareItem) (clientX : Q)
  (rect : DOMRect).
Hypothesis Hdragged : draggedItem (dragState snap) = Some dragged.
Hypothesis Harea : sourceArea (dragState snap) = left_area.
Hypothesis Href : rightAreaRef st = Some rect.
Hypothesis Est : rightItems st = rightItems snap.

Lemma handleDrop_on_panel :
  rightItems (handleDrop snap clientX None st)
  = splice_insert (rightItems snap)
      (JS.max 0
         (JS.min
            (if Z.of_nat (length (rightItems snap)) =? 0 then 0
             else if Qle_bool ((clientX - rect_left rect) / rect_width rect)
                       (2 # 10) then 0
             else if Qle_bool (8 # 10)
                       ((clientX - rect_left rect) / rect_width rect)
                  then Z.of_nat (length (rightItems snap))
             else JS.round ((clientX - rect_left rect) / rect_width rect
                            * inject_Z (Z.of_nat (length (rightItems snap)))))
            (Z.of_nat (length (rightItems snap))))) dragged.
Proof.
  unfold handleDrop. rewrite Hdragged, Harea, Href. cbv zeta. simpl.
  now rewrite Est.
Qed.

(** X21: a drop on the background of the right panel: on an empty panel the
    item becomes its only item; otherwise a pointer in the left fifth
    of the panel puts it first, one in the right fifth puts it last,
    and one in between puts it at the rounded share of the length,
    which is an index of the panel. *)
Theorem drop_on_panel_zones :
  (0 < rect_width rect)%Q ->
  (rightItems snap = [] ->
   rightItems (handleDrop snap clientX None st) = [dragged]) /\
  (rightItems snap <> [] ->
   ((clientX - rect_left rect) / rect_width rect <= 2 # 10)%Q ->
   rightItems (handleDrop snap clientX None st) = dragged :: rightItems snap) /\
  (rightItems snap <> [] ->
   (8 # 10 <= (clientX - rect_left rect) / rect_width rect)%Q ->
   rightItems (handleDrop snap clientX None st) = rightItems snap ++ [dragged]) /\
  (rightItems snap <> [] ->
   (2 # 10 < (clientX - rect_left rect) / rect_width rect)%Q ->
   ((clientX - rect_left rect) / rect_width rect < 8 # 10)%Q ->
   0 <= JS.round ((clientX - rect_left rect) / rect_width rect
                  * inject_Z (Z.of_nat (length (rightItems snap))))
     <= Z.of_nat (length (rightItems snap)) /\
   rightItems (handleDrop snap clientX None st)
   = insert_at
       (Z.to_nat
          (JS.round ((clientX - rect_left rect) / rect_width rect
                     * inject_Z (Z.of_nat (length (rightItems snap))))))
       dragged (rightItems snap)).
Proof.
  intros Hw. rewrite handleDrop_on_panel.
  set (rel := ((clientX - rect_left rect) / rect_width rect)%Q).
  set (len := Z.of_nat (length (rightItems snap))).
  assert (Hin : forall k : nat, (k <= length (rightItems snap))%nat ->
            splice_insert (rightItems snap) (Z.of_nat k) dragged
            = insert_at k dragged (rightItems snap))
    by (intros; now apply splice_insert_in_range).
  assert (Hne : rightItems snap <> [] -> (len =? 0) = false).
  { intros H. apply Z.eqb_neq. unfold len.
    destruct (rightItems snap); [congruence|simpl; lia]. }
  unfold JS.max, JS.min. repeat split.
  - intros E. unfold len. rewrite E. reflexivity.
  - intros H Hrel. rewrite (Hne H).
    apply Qle_bool_iff in Hrel. rewrite Hrel.
    replace (Z.max 0 (Z.min 0 len)) with (Z.of_nat 0) by lia.
    now rewrite Hin by lia.
  - intros H Hrel. rewrite (Hne H).
    assert (Hlow : Qle_bool rel (2 # 10) = false)
      by (apply Qle_bool_false; lra).
    apply Qle_bool_iff in Hrel. rewrite Hlow, Hrel.
    replace (Z.max 0 (Z.min len len)) with (Z.of_nat (length (rightItems snap)))
      by lia.
    rewrite Hin by lia. unfold insert_at. now rewrite firstn_all, skipn_all.
  - unfold JS.round. apply LayoutFacts.Qfloor_lower.
    change (inject_Z 0) with 0%Q.
    assert (0 <= inject_Z len)%Q
      by (change 0%Q with (inject_Z 0); rewrite <- Zle_Qle; lia).
    assert (0 <= rel * inject_Z len)%Q by (apply Qmult_le_0_compat; lra).
    lra.
  - unfold JS.round.
    assert (Qfloor (rel * inject_Z len + (1 # 2)) < len + 1); [|lia].
    apply LayoutFacts.Qfloor_upper. rewrite inject_Z_plus.
    change (inject_Z 1) with 1%Q.
    assert (0 <= inject_Z len)%Q
      by (change 0%Q with (inject_Z 0); rewrite <- Zle_Qle; lia).
    assert (rel * inject_Z len <= 1 * inject_Z len)%Q
      by (apply Qmult_le_compat_r; lra).
    lra.
  - rename H into Hnil, H0 into Hlo, H1 into Hhi.
    rewrite (Hne Hnil).
    assert (Hlow : Qle_bool rel (2 # 10) = false)
      by (apply Qle_bool_false; lra).
    assert (Hhigh : Qle_bool (8 # 10) rel = false)
      by (apply Qle_bool_false; lra).
    rewrite Hlow, Hhigh.
    set (r := JS.round (rel * inject_Z len)).
    assert (Hr : 0 <= r <= len).
    { unfold r, JS.round. split.
      - apply LayoutFacts.Qfloor_lower. change (inject_Z 0) with 0%Q.
        assert (0 <= inject_Z len)%Q
          by (change 0%Q with (inject_Z 0); rewrite <- Zle_Qle; lia).
        assert (0 <= rel * inject_Z len)%Q by (apply Qmult_le_0_compat; lra).
        lra.
      - assert (Qfloor (rel * inject_Z len + (1 # 2)) < len + 1); [|lia].
        apply LayoutFacts.Qfloor_upper. rewrite inject_Z_plus.
        change (inject_Z 1) with 1%Q.
        assert (0 <= inject_Z len)%Q
          by (change 0%Q with (inject_Z 0); rewrite <- Zle_Qle; lia).
        assert (rel * inject_Z len <= 1 * inject_Z len)%Q
          by (apply Qmult_le_compat_r; lra).
        lra. }
    replace (Z.max 0 (Z.min r len)) with (Z.of_nat (Z.to_nat r)) by lia.
    now rewrite Hin by lia.
Qed.

End Render.
End ZoneFacts.



(** ** The plain page *)

Module PlainFacts.
Import JS JSFacts FabricPlain Spec SpliceFacts OrderFacts.

(** X22: on the plain page too the slot index computed at the laid-out
    position of slot [i] is [i]. *)
Theorem plain_layout_then_index (canvasSquares : list CanvasSquare)
    (movedSquare : CanvasSquare) (i : Z) :
  0 <= i <= Z.of_nat (length canvasSquares) - 1 ->
  ~ (cfg_size (config movedSquare) + 20 == 0)%Q ->
  clampedIndex canvasSquares movedSquare
    (calculateSquarePosition i (cfg_size (config movedSquare))) = i.
Proof.
  intros Hi Hs. unfold clampedIndex, calculateSquarePosition, JS.round.
  cbv zeta.
  set (size := cfg_size (config movedSquare)) in *.
  assert (E : ((50 + inject_Z i * (size + 20) - 50) / (size + 20) + (1 # 2)
               == inject_Z i + (1 # 2))%Q) by (field; exact Hs).
  rewrite E, NumFacts.Qfloor_half. unfold JS.max, JS.min. lia.
Qed.

(** X23: a release either leaves the sequence alone or rearranges it: the
    new sequence is a permutation of the old one, of the same length. *)
Theorem handleObjectMoved_keeps_squares (canvasSquares newSquares :
    list CanvasSquare) (movedObject : nat) (objLeft : Q) :
  handleObjectMoved canvasSquares movedObject objLeft = Some newSquares ->
  Permutation newSquares canvasSquares /\
  length newSquares = length canvasSquares /\
  exists movedSquare,
    List.find (fun s => Nat.eqb (fabricObject s) movedObject) canvasSquares
    = Some movedSquare /\
    clampedIndex canvasSquares movedSquare objLeft <> position movedSquare.
Proof.
  unfold handleObjectMoved.
  destruct (List.find _ canvasSquares) as [movedSquare|] eqn:Hfind; [|easy].
  cbv zeta.
  destruct (Z.eqb_spec (clampedIndex canvasSquares movedSquare objLeft)
              (position movedSquare)) as [|Hne]; [easy|]. simpl negb. cbv iota.
  set (p := fun s => String.eqb (sq_id s) (sq_id movedSquare)).
  destruct (Z.eqb_spec (findIndex p canvasSquares) (-1)) as [|Hc]; [easy|].
  simpl negb. cbv iota.
  destruct (findIndex_split _ _ Hc) as (a & x & b & E & Ha & Hx & Hi).
  rewrite Hi. rewrite E at 1. rewrite splice_delete1_app.
  intros [= <-]. rewrite splice_insert_insert_at. repeat split.
  - rewrite insert_at_perm, E. apply Permutation_middle.
  - rewrite length_insert_at, E, !length_app. simpl. lia.
  - exists movedSquare. now split.
Qed.

End PlainFacts.



Module SwapFacts.
Import JS JSFacts FabricPlain Props.

Lemma has_id_true k s : has_id k s = true <-> sq_id s = sq_id k.
Proof. apply String.eqb_eq. Qed.

Lemma findIndex_from_lookup (p : CanvasSquare -> bool)
    (l : list CanvasSquare) : forall (i : Z) (k : nat) x,
  l !! k = Some x -> p x = true ->
  (forall k' z, l !! k' = Some z -> p z = true -> k' = k) ->
  findIndex_from p l i = i + Z.of_nat k.
Proof.
  induction l as [|y l IH]; intros i k x Hk Hx Hu; [easy|].
  simpl. destruct (p y) eqn:Hy.
  - rewrite <- (Hu 0%nat y eq_refl Hy). lia.
  - destruct k as [|k]; [simpl in Hk; congruence|].
    rewrite (IH (i + 1) k x Hk Hx); [lia|].
    intros k' z Hz Hpz. specialize (Hu (S k') z Hz Hpz). lia.
Qed.

Lemma findIndex_lookup (p : CanvasSquare -> bool) (l : list CanvasSquare)
    (k : nat) x :
  l !! k = Some x -> p x = true ->
  (forall k' z, l !! k' = Some z -> p z = true -> k' = k) ->
  findIndex p l = Z.of_nat k.
Proof.
  intros. unfold findIndex. now rewrite (findIndex_from_lookup p l 0 k x).
Qed.

Lemma findIndex_found (p : CanvasSquare -> bool) (l : list CanvasSquare) :
  findIndex p l <> -1 ->
  exists x, l !! Z.to_nat (findIndex p l) = Some x /\ p x = true.
Proof.
  intros H. destruct (findIndex_split p l H) as (a & x & b & -> & _ & Hx & Hi).
  exists x. rewrite Hi, Nat2Z.id. split; [apply list_lookup_middle|]; auto.
Qed.

Lemma unique_id (l : list CanvasSquare) :
  List.NoDup (map sq_id l) ->
  forall k k' x z,
    l !! k = Some x -> l !! k' = Some z -> sq_id z = sq_id x -> k' = k.
Proof.
  induction l as [|y l IH]; intros Hnd k k' x z Hk Hk' E; [easy|].
  simpl in Hnd. inversion Hnd as [|? ? Hy Hnd']; subst.
  destruct k as [|k], k' as [|k']; simpl in *; try reflexivity.
  - exfalso. apply Hy. injection Hk as ->. rewrite <- E.
    apply in_map, list_elem_of_In. eapply list_elem_of_lookup_2; eauto.
  - exfalso. apply Hy. injection Hk' as ->. rewrite E.
    apply in_map, list_elem_of_In. eapply list_elem_of_lookup_2; eauto.
  - f_equal. eapply IH; eauto.
Qed.

Section Swap.
Variables (l l' : list CanvasSquare) (s1 s2 : CanvasSquare).
Hypothesis Hnd : List.NoDup (map sq_id l).
Hypothesis Hswap : swapSquarePositions l s1 s2 = Some l'.

(** X24: a swap exchanges the two squares and nothing else; with distinct
    identifiers, swapping the same two squares again restores the
    sequence. *)
Theorem swap_twice_restores :
  swapSquarePositions l' s1 s2 = Some l /\
  length l' = length l /\
  l' !! Z.to_nat (findIndex (has_id s2) l)
  = l !! Z.to_nat (findIndex (has_id s1) l) /\
  l' !! Z.to_nat (findIndex (has_id s1) l)
  = l !! Z.to_nat (findIndex (has_id s2) l) /\
  (forall k : nat,
     k <> Z.to_nat (findIndex (has_id s1) l) ->
     k <> Z.to_nat (findIndex (has_id s2) l) -> l' !! k = l !! k).
Proof.
  unfold swapSquarePositions in Hswap. cbv zeta in Hswap.
  fold (has_id s1) (has_id s2) in Hswap.
  destruct (Z.eqb_spec (findIndex (has_id s1) l) (-1)) as [|H1]; [easy|].
  destruct (Z.eqb_spec (findIndex (has_id s2) l) (-1)) as [|H2]; [easy|].
  simpl in Hswap.
  destruct (findIndex_found _ _ H1) as (x & Hx & Hpx).
  destruct (findIndex_found _ _ H2) as (y & Hy & Hpy).
  rewrite Hx, Hy in Hswap. injection Hswap as <-.
  set (i := Z.to_nat (findIndex (has_id s1) l)) in *.
  set (j := Z.to_nat (findIndex (has_id s2) l)) in *.
  pose proof (lookup_lt_Some _ _ _ Hx) as Hi.
  pose proof (lookup_lt_Some _ _ _ Hy) as Hj.
  apply has_id_true in Hpx, Hpy.
  set (m := <[j:=x]> (<[i:=y]> l)).
  assert (Hmj : m !! j = Some x).
  { unfold m. apply list_lookup_insert_eq. now rewrite length_insert. }
  assert (Hmi : m !! i = Some y).
  { unfold m. destruct (decide (i = j)) as [->|Hij].
    - rewrite list_lookup_insert_eq by (now rewrite length_insert).
      congruence.
    - rewrite list_lookup_insert_ne by congruence.
      now apply list_lookup_insert_eq. }
  assert (Hmk : forall k, k <> i -> k <> j -> m !! k = l !! k).
  { intros k Hki Hkj. unfold m.
    now rewrite !list_lookup_insert_ne by congruence. }
  assert (Hlm : length m = length l)
    by (unfold m; now rewrite !length_insert).
  assert (Hback : <[j:=y]> (<[i:=x]> m) = l).
  { apply list_eq. intros k.
    destruct (decide (k = j)) as [->|Hkj].
    - rewrite list_lookup_insert_eq by (now rewrite length_insert, Hlm).
      congruence.
    - rewrite list_lookup_insert_ne by congruence.
      destruct (decide (k = i)) as [->|Hki].
      + rewrite list_lookup_insert_eq by (now rewrite Hlm).
        congruence.
      + rewrite list_lookup_insert_ne by congruence. now apply Hmk. }
  assert (Hm1 : findIndex (has_id s1) m = Z.of_nat j).
  { apply (findIndex_lookup _ _ _ x Hmj); [now apply has_id_true|].
    intros k z Hz Hpz. apply has_id_true in Hpz.
    destruct (decide (k = j)) as [|Hkj]; [assumption|].
    destruct (decide (k = i)) as [->|Hki].
    - rewrite Hmi in Hz. injection Hz as <-.
      symmetry. eapply (unique_id l Hnd); eauto. congruence.
    - rewrite Hmk in Hz by assumption. exfalso. apply Hki.
      eapply (unique_id l Hnd); eauto. congruence. }
  assert (Hm2 : findIndex (has_id s2) m = Z.of_nat i).
  { apply (findIndex_lookup _ _ _ y Hmi); [now apply has_id_true|].
    intros k z Hz Hpz. apply has_id_true in Hpz.
    destruct (decide (k = i)) as [|Hki]; [assumption|].
    destruct (decide (k = j)) as [->|Hkj].
    - rewrite Hmj in Hz. injection Hz as <-.
      symmetry. eapply (unique_id l Hnd); eauto. congruence.
    - rewrite Hmk in Hz by assumption. exfalso. apply Hkj.
      eapply (unique_id l Hnd); eauto. congruence. }
  split; [|repeat split].
  - unfold swapSquarePositions. cbv zeta. fold (has_id s1) (has_id s2).
    rewrite Hm1, Hm2, !Nat2Z.id.
    destruct (Z.eqb_spec (Z.of_nat j) (-1)); [lia|].
    destruct (Z.eqb_spec (Z.of_nat i) (-1)); [lia|].
    simpl. rewrite Hmj, Hmi.
    destruct (decide (i = j)) as [E|E].
    + assert (Exy : x = y) by (rewrite E in Hx; congruence).
      rewrite E, Exy in Hback |- *.
      rewrite list_insert_insert_eq in Hback |- *. now rewrite Hback.
    + rewrite list_insert_insert_ne by congruence. now rewrite Hback.
  - exact Hlm.
  - congruence.
  - congruence.
  - exact Hmk.
Qed.

End Swap.
End SwapFacts.

(** ** Positions along any run, item by item *)

Module InvariantFacts.
Import JS JSFacts FabricGrid Spec.

Lemma positions_from (l : list CanvasSquare) : forall (k : Z) (i : nat) s,
  map position l = mapi_from (fun _ index => index) l k ->
  nth_error l i = Some s -> position s = k + Z.of_nat i.
Proof.
  induction l as [|x l IH]; intros k i s H Hi; [now destruct i|].
  simpl in H. injection H as Hx Hl. destruct i as [|i]; simpl in Hi.
  - injection Hi as <-. lia.
  - rewrite (IH (k + 1) i s Hl Hi). lia.
Qed.

(** X12: whatever events the grid page receives, in a state where every
    recorded position is the index of its square this stays so: the
    square at index [i] records position [i]. *)
Theorem positions_kept_along_runs (st : State) (evs : list Event) (i : nat)
    (s : CanvasSquare) :
  well_positioned (canvasSquares st) ->
  nth_error (canvasSquares (run st evs)) i = Some s ->
  position s = Z.of_nat i.
Proof.
  intros H Hi.
  apply (positions_from (canvasSquares (run st evs)) 0 i s); [|exact Hi].
  now apply run_positions.
Qed.

End InvariantFacts.

(** ** Instances of the further properties *)

Section FurtherInstances.
Import Examples Spec Props.

Lemma slot_index_monotone_witness :
  FabricGrid.calculateTargetIndex gridInitial 100 80 (Some 4)
  <= FabricGrid.calculateTargetIndex gridInitial 410 80 (Some 4).
Proof.
  apply (LayoutFacts.slot_index_monotone gridInitial 100 410 80 4).
  - reflexivity.
  - vm_compute. discriminate.
Defined.


Lemma updateSquareOrder_out_of_range_witness :
  nth_error
    (fst (FabricGrid.updateSquareOrder gridInitial squareA 7 gridInitial))
    (length (FabricGrid.canvasSquares gridInitial) - 1)
  = Some (FabricGrid.set_position squareA
            (Z.of_nat (length (FabricGrid.canvasSquares gridInitial)) - 1)) /\
  nth_error
    (fst (FabricGrid.updateSquareOrder gridInitial squareD (-1) gridInitial))
    (Z.to_nat
       (Z.max (Z.of_nat (length (FabricGrid.canvasSquares gridInitial))
               - 1 + -1) 0))
  = Some (FabricGrid.set_position squareD
            (Z.max (Z.of_nat (length (FabricGrid.canvasSquares gridInitial))
                    - 1 + -1) 0)).
Proof.
  destruct (EdgeFacts.updateSquareOrder_out_of_range gridInitial gridInitial
              squareA squareA 7) as (H1 & _).
  - vm_compute. discriminate.
  - vm_compute. reflexivity.
  - vm_compute. discriminate.
  - destruct (EdgeFacts.updateSquareOrder_out_of_range gridInitial gridInitial
                squareD squareD (-1)) as (_ & H2).
    + vm_compute. discriminate.
    + vm_compute. reflexivity.
    + vm_compute. discriminate.
    + split; [apply H1; vm_compute; discriminate|apply H2; lia].
Defined.

Lemma preview_matches_commit_witness :
  nth_error
    (fst (FabricGrid.updateSquareOrder gridInitial squareA 2 gridInitial))
    (Z.to_nat
       (FabricGrid.realtimeIndex (FabricGrid.position squareA) 2
          (Z.of_nat 1)))
  = Some (FabricGrid.set_position squareB
            (FabricGrid.realtimeIndex (FabricGrid.position squareA) 2
               (Z.of_nat 1))).
Proof.
  apply (OrderFacts.preview_matches_commit gridInitial gridInitial squareA 2
           1%nat squareB).
  - vm_compute. reflexivity.
  - vm_compute. discriminate.
  - rewrite ExampleChecks.gridInitial_squares. simpl. lia.
  - vm_compute. discriminate.
  - vm_compute. reflexivity.
  - vm_compute. discriminate.
Defined.

Lemma addSquareToCanvas_inserts_one_witness :
  exists k : nat,
    (k <= length (FabricGrid.canvasSquares gridInitial))%nat /\
    items (FabricGrid.canvasSquares
             (FabricGrid.addSquareToCanvas gridInitial sourceYellow 1 "0"
                gridInitial))
    = insert_at k
        ("0" +:+ "-" +:+ FabricGrid.src_id sourceYellow,
         FabricGrid.config
           (newSquare sourceYellow 1 "0" (FabricGrid.nextObject gridInitial)),
         FabricGrid.nextObject gridInitial)
        (items (FabricGrid.canvasSquares gridInitial)) /\
    k = Z.to_nat 1.
Proof.
  destruct (InsertFacts.addSquareToCanvas_inserts_one gridInitial gridInitial
              sourceYellow 1 "0") as (k & H1 & H2 & _ & _ & H3).
  - vm_compute. reflexivity.
  - exists k. split; [exact H1|]. split; [exact H2|].
    apply H3. rewrite ExampleChecks.gridInitial_squares. simpl. lia.
Defined.

Lemma space_matches_insertion_witness :
  nth_error
    (FabricGrid.canvasSquares
       (FabricGrid.addSquareToCanvas gridInitial sourceYellow 1 "0"
          gridInitial))
    (Z.to_nat (if 1 <=? Z.of_nat 1 then Z.of_nat 1 + 1 else Z.of_nat 1))
  = Some (FabricGrid.set_position squareB
            (if 1 <=? Z.of_nat 1 then Z.of_nat 1 + 1 else Z.of_nat 1)) /\
  nth_error
    (FabricGrid.canvasSquares
       (FabricGrid.addSquareToCanvas gridInitial sourceYellow 1 "0"
          gridInitial))
    (Z.to_nat 1)
  = Some (FabricGrid.set_position
            (newSquare sourceYellow 1 "0" (FabricGrid.nextObject gridInitial))
            1).
Proof.
  destruct (InsertFacts.space_matches_insertion gridInitial gridInitial
              sourceYellow 1 "0") with (i := 1%nat) (y := squareB)
              (st0 := gridInitial) as (H1 & H2 & _).
  - vm_compute. reflexivity.
  - vm_compute. reflexivity.
  - rewrite ExampleChecks.gridInitial_squares. simpl. lia.
  - vm_compute. reflexivity.
  - split; [exact H1|exact H2].
Defined.

Lemma first_drop_on_empty_canvas_witness :
  FabricGrid.canvasSquares
    (FabricGrid.run (FabricGrid.mounted canvasRect0)
       [FabricGrid.ExternalDragStart sourceYellow;
        FabricGrid.ExternalDrop 100 100 "0"])
  = [newSquare sourceYellow 0 "0"
       (FabricGrid.nextObject (FabricGrid.mounted canvasRect0))].
Proof.
  apply (InsertFacts.first_drop_on_empty_canvas (FabricGrid.mounted canvasRect0)
           canvasRect0 sourceYellow 100 100 "0").
  - reflexivity.
  - reflexivity.
  - reflexivity.
  - intros [H|[H|[H|H]]]; vm_compute in H; discriminate H.
Defined.

Lemma gridInitial_handles : handles_fresh gridInitial.
Proof.
  unfold handles_fresh. rewrite ExampleChecks.gridInitial_squares.
  replace (FabricGrid.nextObject gridInitial) with 4%nat
    by (vm_compute; reflexivity).
  split.
  - simpl. repeat constructor; simpl; intuition discriminate.
  - simpl. repeat constructor.
Defined.

Lemma handles_stay_distinct_witness :
  handles_fresh
    (FabricGrid.run gridInitial
       [FabricGrid.ExternalDragStart sourceYellow;
        FabricGrid.ExternalDrop 100 100 "0"]) /\
  FabricGrid.findByObject
    (FabricGrid.run gridInitial
       [FabricGrid.ExternalDragStart sourceYellow;
        FabricGrid.ExternalDrop 100 100 "0"])
    (FabricGrid.fabricObject
       (newSquare sourceYellow 0 "0" (FabricGrid.nextObject gridInitial)))
  = Some (newSquare sourceYellow 0 "0" (FabricGrid.nextObject gridInitial)).
Proof.
  destruct (HandleFacts.handles_stay_distinct gridInitial
              [FabricGrid.ExternalDragStart sourceYellow;
               FabricGrid.ExternalDrop 100 100 "0"]
              (newSquare sourceYellow 0 "0"
                 (FabricGrid.nextObject gridInitial)))
    as (H1 & H2); [exact gridInitial_handles|].
  split; [exact H1|]. apply H2. vm_compute. left. reflexivity.
Defined.

Lemma moving_object_stays_on_canvas_witness :
  exists L : Q,
    (0 <= L)%Q /\ (L <= FabricGrid.CANVAS_WIDTH - 80)%Q /\
    FabricGrid.calls (FabricGrid.handleObjectMoving gridPicked 0 (-30) 80
                        gridPicked)
    = FabricGrid.calls gridPicked
      ++ FabricGrid.SetLeftTop 0 L FabricGrid.getVerticalCenterPosition
         :: previewMoves gridPicked
              (FabricGrid.calculateTargetIndex gridPicked L
                 (FabricGrid.cfg_size (FabricGrid.config squareA)) None)
              squareA.
Proof.
  destruct (EdgeFacts.moving_object_stays_on_canvas gridPicked gridPicked
              0%nat (-30) 80 squareA) as (L & H1 & H2 & _ & H3).
  - vm_compute. reflexivity.
  - vm_compute. reflexivity.
  - vm_compute. discriminate.
  - exists L. split; [exact H1|]. split; [exact H2|exact H3].
Defined.

Lemma positions_kept_along_runs_witness :
  FabricGrid.position (FabricGrid.set_position squareA 2) = Z.of_nat 2.
Proof.
  apply (InvariantFacts.positions_kept_along_runs gridInitial
           [FabricGrid.MouseDown (Some 0%nat);
            FabricGrid.ObjectMoving 0 410 80;
            FabricGrid.ObjectModified 0 410; FabricGrid.MouseUp]
           2%nat (FabricGrid.set_position squareA 2)).
  - rewrite ExampleChecks.gridInitial_squares. reflexivity.
  - vm_compute. reflexivity.
Defined.

End FurtherInstances.

Section SortInstances.
Import Examples Spec Props.

Lemma sortLeftDragging_right :
  SortPage.rightItems sortLeftDragging = [item0; item1; item2].
Proof. vm_compute. reflexivity. Defined.

Lemma sortDragging_right :
  SortPage.rightItems sortDragging = [] ++ item0 :: [item1; item2].
Proof. vm_compute. reflexivity. Defined.

Lemma drop_from_left_panel_witness :
  SortPage.rightItems
    (SortPage.handleDrop sortLeftDragging 0 (Some 1) sortLeftDragging)
  = insert_at (Z.to_nat 1) item3 (SortPage.rightItems sortLeftDragging) /\
  SortPage.dragState
    (SortPage.handleDrop sortLeftDragging 0 (Some 1) sortLeftDragging)
  = SortPage.noDrag.
Proof.
  destruct (DropFacts.drop_from_left_panel sortLeftDragging sortLeftDragging
              item3 0) with (ins := 1) as (_ & _ & H1 & _ & H2 & _).
  - vm_compute. reflexivity.
  - vm_compute. reflexivity.
  - reflexivity.
  - split; [|exact H2]. apply H1.
    rewrite sortLeftDragging_right. simpl. lia.
Defined.

Lemma drop_from_left_keeps_items_witness :
  length (SortPage.rightItems
            (SortPage.handleDrop sortLeftDragging 0 (Some 1)
               sortLeftDragging))
  = S (length (SortPage.rightItems sortLeftDragging)).
Proof.
  destruct (DropFacts.drop_from_left_keeps_items sortLeftDragging
              sortLeftDragging item3 0) with (ins := 1) as (_ & H).
  - vm_compute. reflexivity.
  - vm_compute. reflexivity.
  - replace (SortPage.leftItems sortLeftDragging)
      with (zip_with leftItem ["3"; "4"; "5"; "6"; "7"] (drop 3 COLORS))
      by (vm_compute; reflexivity).
    simpl. repeat constructor; simpl; intuition discriminate.
  - vm_compute. left. reflexivity.
  - exact H.
Defined.

Lemma drop_within_right_keeps_items_witness :
  Permutation
    (SortPage.rightItems
       (SortPage.handleDrop sortDragging 0 (Some 3) sortDragging))
    (SortPage.rightItems sortDragging) /\
  SortPage.leftItems
    (SortPage.handleDrop sortDragging 0 (Some 3) sortDragging)
  = SortPage.leftItems sortDragging.
Proof.
  apply (PanelFacts.drop_within_right_keeps_items sortDragging sortDragging
           item0 0) with (a := []) (b := [item1; item2]).
  - vm_compute. reflexivity.
  - vm_compute. reflexivity.
  - exact sortDragging_right.
  - reflexivity.
  - constructor.
Defined.

Lemma drop_after_itself_noop_witness :
  SortPage.rightItems
    (SortPage.handleDrop sortDragging 0
       (Some (JS.findIndex (SortPage.same_id item0)
                (SortPage.rightItems sortDragging) + 1)) sortDragging)
  = SortPage.rightItems sortDragging.
Proof.
  destruct (PanelFacts.drop_after_itself_noop sortDragging sortDragging
              item0 0) as (H & _).
  - vm_compute. reflexivity.
  - vm_compute. reflexivity.
  - vm_compute. discriminate.
  - exact H.
Defined.

Lemma drop_of_missing_item_witness :
  SortPage.rightItems
    (SortPage.handleDrop
       (SortPage.dispatch sortThree
          (SortPage.DragStart item3 SortPage.right_area)) 0 (Some 1)
       (SortPage.dispatch sortThree
          (SortPage.DragStart item3 SortPage.right_area)))
  = SortPage.rightItems
      (SortPage.dispatch sortThree
         (SortPage.DragStart item3 SortPage.right_area)) /\
  SortPage.isAnimating
    (SortPage.handleDrop
       (SortPage.dispatch sortThree
          (SortPage.DragStart item3 SortPage.right_area)) 0 (Some 1)
       (SortPage.dispatch sortThree
          (SortPage.DragStart item3 SortPage.right_area)))
  = true.
Proof.
  destruct (PanelFacts.drop_of_missing_item
              (SortPage.dispatch sortThree
                 (SortPage.DragStart item3 SortPage.right_area))
              (SortPage.dispatch sortThree
                 (SortPage.DragStart item3 SortPage.right_area))
              item3 0) with (ins := 1) as (H1 & _ & _ & _ & H2 & _).
  - vm_compute. reflexivity.
  - vm_compute. reflexivity.
  - vm_compute. reflexivity.
  - split; [exact H1|exact H2].
Defined.

Lemma recorded_positions_match_witness :
  SortPage.itemPositions
    (SortPage.handleDrop sortLeftDragging 0 (Some 1) sortLeftDragging)
  !! SortPage.id item1
  = Some (Z.of_nat 2).
Proof.
  apply (PositionMapFacts.recorded_positions_match sortLeftDragging
           sortLeftDragging item3 0) with (ins := 1).
  - vm_compute. reflexivity.
  - vm_compute. reflexivity.
  - reflexivity.
  - rewrite sortLeftDragging_right. simpl.
    repeat constructor; simpl; intuition discriminate.
  - rewrite sortLeftDragging_right.
    repeat constructor; simpl; discriminate.
  - vm_compute. reflexivity.
Defined.

Lemma recorded_position_of_moved_item_witness :
  SortPage.itemPositions
    (SortPage.handleDrop sortDragging 0 (Some 3) sortDragging)
  !! SortPage.id item0
  = Some 3 /\
  nth_error
    (SortPage.rightItems
       (SortPage.handleDrop sortDragging 0 (Some 3) sortDragging))
    (Z.to_nat (3 - 1))
  = Some item0.
Proof.
  destruct (MovedItemFacts.recorded_position_of_moved_item sortDragging
              sortDragging item0 0) with (ins := 3) (a := @nil SortPage.SquareItem)
              (b := [item1; item2]) as (H1 & _ & H2).
  - vm_compute. reflexivity.
  - vm_compute. reflexivity.
  - exact sortDragging_right.
  - reflexivity.
  - constructor.
  - rewrite sortDragging_right. simpl. lia.
  - simpl. lia.
  - simpl. lia.
  - split; [exact H1|]. apply H2. simpl. lia.
Defined.

Lemma panel_hover_position_witness :
  exists k : Z,
    SortPage.insertPosition
      (SortPage.handleDragOver sortLeftDragging 300
         {| SortPage.rect_left := 0; SortPage.rect_width := 600 |} None
         sortLeftDragging)
    = Some k /\
    0 <= k <= Z.of_nat (length (SortPage.rightItems sortLeftDragging)).
Proof.
  destruct (HoverFacts.panel_hover_position sortLeftDragging sortLeftDragging
              300 {| SortPage.rect_left := 0; SortPage.rect_width := 600 |})
    as (k & H1 & H2 & _).
  exists k. split; [exact H1|exact H2].
Defined.

Lemma drop_on_panel_zones_witness :
  SortPage.rightItems
    (SortPage.handleDrop sortLeftDragging 60 None sortLeftDragging)
  = item3 :: SortPage.rightItems sortLeftDragging /\
  SortPage.rightItems
    (SortPage.handleDrop sortLeftDragging 540 None sortLeftDragging)
  = SortPage.rightItems sortLeftDragging ++ [item3] /\
  SortPage.rightItems
    (SortPage.handleDrop sortLeftDragging 300 None sortLeftDragging)
  = insert_at
      (Z.to_nat
         (JS.round
            ((300 - SortPage.rect_left
                      {| SortPage.rect_left := 0;
                         SortPage.rect_width := 600 |})
             / SortPage.rect_width
                 {| SortPage.rect_left := 0; SortPage.rect_width := 600 |}
             * inject_Z
                 (Z.of_nat
                    (length (SortPage.rightItems sortLeftDragging))))))
      item3 (SortPage.rightItems sortLeftDragging).
Proof.
  assert (Hne : SortPage.rightItems sortLeftDragging <> [])
    by (rewrite sortLeftDragging_right; discriminate).
  destruct (ZoneFacts.drop_on_panel_zones sortLeftDragging sortLeftDragging
              item3 60 {| SortPage.rect_left := 0; SortPage.rect_width := 600 |})
    as (_ & H1 & _); try (vm_compute; reflexivity).
  destruct (ZoneFacts.drop_on_panel_zones sortLeftDragging sortLeftDragging
              item3 540 {| SortPage.rect_left := 0; SortPage.rect_width := 600 |})
    as (_ & _ & H2 & _); try (vm_compute; reflexivity).
  destruct (ZoneFacts.drop_on_panel_zones sortLeftDragging sortLeftDragging
              item3 300 {| SortPage.rect_left := 0; SortPage.rect_width := 600 |})
    as (_ & _ & _ & H3); try (vm_compute; reflexivity).
  split; [|split].
  - apply H1; [exact Hne|]. vm_compute. discriminate.
  - apply H2; [exact Hne|]. vm_compute. discriminate.
  - apply H3; [exact Hne| |]; vm_compute; reflexivity.
Defined.

End SortInstances.

Section PlainInstances.
Import Examples Spec Props.

Lemma plain_layout_then_index_witness :
  FabricPlain.clampedIndex plainSquares (plainSquare "a" 0)
    (FabricPlain.calculateSquarePosition 2
       (FabricPlain.cfg_size (FabricPlain.config (plainSquare "a" 0))))
  = 2.
Proof.
  apply (PlainFacts.plain_layout_then_index plainSquares (plainSquare "a" 0) 2).
  - simpl. lia.
  - intros H. vm_compute in H. discriminate H.
Defined.

Lemma handleObjectMoved_keeps_squares_witness :
  Permutation
    [plainSquare "b" 1; plainSquare "a" 0; plainSquare "c" 2;
     plainSquare "d" 3]
    plainSquares.
Proof.
  destruct (PlainFacts.handleObjectMoved_keeps_squares plainSquares
              [plainSquare "b" 1; plainSquare "a" 0; plainSquare "c" 2;
               plainSquare "d" 3] 0%nat 130) as (H & _).
  - vm_compute. reflexivity.
  - exact H.
Defined.

Lemma swap_twice_restores_witness :
  FabricPlain.swapSquarePositions
    [plainSquare "c" 2; plainSquare "b" 1; plainSquare "a" 0;
     plainSquare "d" 3]
    (plainSquare "a" 0) (plainSquare "c" 2)
  = Some plainSquares.
Proof.
  destruct (SwapFacts.swap_twice_restores plainSquares
              [plainSquare "c" 2; plainSquare "b" 1; plainSquare "a" 0;
               plainSquare "d" 3]
              (plainSquare "a" 0) (plainSquare "c" 2)) as (H & _).
  - simpl. repeat constructor; simpl; intuition discriminate.
  - vm_compute. reflexivity.
  - exact H.
Defined.

End PlainInstances.

(** ** Positions and items after a reorder or an insertion *)

Section PositionsOfResults.
Import JS JSFacts FabricGrid Spec Props ReorderFacts.

Lemma mounted_squares (canvasRect : DOMRect) :
  canvasSquares (initializeSquares (mounted canvasRect))
  = Examples.gridSquares.
Proof. vm_compute. reflexivity. Qed.

(** C4: after a reorder and after a cross-panel insertion every
    recorded position is the index of its item, and the result holds
    the items it was given.  A reorder of a sequence whose positions
    are the indices gives such a sequence, for every dragged square
    and every target index, the release on the square's own slot
    included; a reorder that moves a square rewrites the positions
    whatever they were, and the new state holds the returned
    sequence; the returned sequence is a permutation of the input.
    An insertion, on an empty canvas too, gives the input with the
    one new square put in, positions rewritten.  The positions are
    the indices in every state the page reaches. *)
Theorem positions_after_reorder (snap st : State) (d : CanvasSquare)
    (t : Z) (src : DragSourceSquare) (i : Z) (now : string) :
  (well_positioned (canvasSquares snap) ->
   well_positioned (fst (updateSquareOrder snap d t st))) /\
  (findIndex (same_id d) (canvasSquares snap) <> -1 ->
   findIndex (same_id d) (canvasSquares snap) <> t ->
   well_positioned (fst (updateSquareOrder snap d t st)) /\
   canvasSquares (snd (updateSquareOrder snap d t st)) =
     fst (updateSquareOrder snap d t st)) /\
  Permutation (items (fst (updateSquareOrder snap d t st)))
    (items (canvasSquares snap)) /\
  (fabricCanvasRef st = true ->
   well_positioned (canvasSquares (addSquareToCanvas snap src i now st)) /\
   exists k : nat,
     (k <= length (canvasSquares snap))%nat /\
     items (canvasSquares (addSquareToCanvas snap src i now st))
     = insert_at k
         (now +:+ "-" +:+ src_id src,
          config (newSquare src i now (nextObject st)), nextObject st)
         (items (canvasSquares snap)) /\
     (0 <= i <= Z.of_nat (length (canvasSquares snap)) -> k = Z.to_nat i)) /\
  (forall (canvasRect : DOMRect) (evs : list Event),
     well_positioned
       (canvasSquares (run (initializeSquares (mounted canvasRect)) evs))).
Proof.
  split; [|split; [|split; [|split]]].
  - intros H.
    destruct (Z.eq_dec (findIndex (same_id d) (canvasSquares snap)) (-1))
      as [E|E]; [now rewrite updateSquareOrder_unmoved by (now left)|].
    destruct (Z.eq_dec (findIndex (same_id d) (canvasSquares snap)) t)
      as [Et|Et]; [now rewrite updateSquareOrder_unmoved by (now right)|].
    destruct (findIndex_split _ _ E) as (a & x & b & Eq & Ha & Hx & Hi).
    rewrite (updateSquareOrder_moved snap st d t a x b Eq Ha Hx) by lia.
    apply well_positioned_mapi.
  - intros Hc Ht.
    destruct (findIndex_split _ _ Hc) as (a & x & b & E & Ha & Hx & Hi).
    rewrite (updateSquareOrder_moved snap st d t a x b E Ha Hx) by lia.
    simpl. split; [apply well_positioned_mapi|reflexivity].
  - apply OrderFacts.updateSquareOrder_items_perm.
  - intros Href. split.
    + rewrite canvasSquares_addSquareToCanvas by exact Href.
      apply well_positioned_mapi.
    + destruct (InsertFacts.addSquareToCanvas_items_insert snap st src i now
                  Href) as (k & Hk & Hi & _ & _ & Hin).
      exists k. auto.
  - intros canvasRect evs. apply run_positions.
    rewrite mounted_squares. reflexivity.
Qed.

Lemma positions_after_reorder_witness :
  well_positioned
    (fst (FabricGrid.updateSquareOrder Examples.gridInitial Examples.squareA
            0 Examples.gridInitial)) /\
  well_positioned
    (fst (FabricGrid.updateSquareOrder Examples.gridInitial Examples.squareA
            2 Examples.gridInitial)) /\
  well_positioned
    (FabricGrid.canvasSquares
       (FabricGrid.addSquareToCanvas
          (FabricGrid.mounted Examples.canvasRect0) Examples.sourceYellow 0
          "0" (FabricGrid.mounted Examples.canvasRect0))).
Proof.
  destruct (positions_after_reorder Examples.gridInitial Examples.gridInitial
              Examples.squareA 0 Examples.sourceYellow 1 "0")
    as (H0 & _).
  destruct (positions_after_reorder Examples.gridInitial Examples.gridInitial
              Examples.squareA 2 Examples.sourceYellow 1 "0")
    as (_ & H1 & _).
  destruct (positions_after_reorder
              (FabricGrid.mounted Examples.canvasRect0)
              (FabricGrid.mounted Examples.canvasRect0)
              Examples.squareA 2 Examples.sourceYellow 0 "0")
    as (_ & _ & _ & H2 & _).
  split; [|split].
  - apply H0. rewrite ExampleChecks.gridInitial_squares. reflexivity.
  - apply H1; vm_compute; discriminate.
  - apply H2. reflexivity.
Defined.

End PositionsOfResults.
